(** * Mission Control: plan approval state machine and socket fan-out

    A shallow embedding of
    - [src/app/api/plans/route.ts]              (POST: create a plan, GET: list plans),
    - [src/app/api/plans/[id]/approve/route.ts] (POST: approve a plan),
    - [src/app/api/plans/[id]/reject/route.ts]  (POST: reject a plan),
    - [src/lib/websocket/server.ts]             (class MCWebSocketServer),
    together with the properties of the synchronization core proved or
    refuted on that embedding.

    Conventions of the embedding.
    - The [tasks] table is the list of its rows in rowid (insertion) order.
      [id] is the PRIMARY KEY: an INSERT of a present id throws.
    - Every [db.prepare(..).run(..)] outside [db.transaction] is committed on
      its own (better-sqlite3 runs in autocommit mode); the world keeps the
      journal of the committed states.
    - [uuidv4()] and [new Date().toISOString()] are inputs of a handler: the
      draws of one call are given by [uuid : nat -> string] (the k-th call of
      [uuidv4] made by the handler) and by [now].
    - A handler is a computation in the monad [M]: it threads the [World]
      (database, the events handed to [broadcastEvent], the socket server) and
      may throw; the handler's [try/catch] turns a throw into a 500 response
      and keeps what was written before it.
    - The [tags] column holds JSON text. A text is represented by the array it
      encodes ([JSON.parse (JSON.stringify a) = a] on arrays of strings); text
      and array stay distinct values, as they are in JavaScript. *)

From Stdlib Require Import String List ZArith Bool Lia DecimalString Ascii.
From Stdlib Require Import Sorted Permutation DecimalNat DecimalFacts.
From stdpp Require Import base gmap sets list strings.

Local Open Scope string_scope.
Local Open Scope Z_scope.

(** ** Core types ([src/lib/types.ts]) *)

Inductive TaskStatus :=
  | planning | pending_approval | inbox | assigned | in_progress
  | testing | review | done | blocked.

Inductive TaskSource := human | agent.

Inductive ApprovalStatus := pending | approved | rejected.

Inductive TaskPriority := low | normal | high | urgent.

#[global] Instance TaskStatus_eq_dec : EqDecision TaskStatus.
Proof. solve_decision. Defined.
#[global] Instance TaskSource_eq_dec : EqDecision TaskSource.
Proof. solve_decision. Defined.
#[global] Instance ApprovalStatus_eq_dec : EqDecision ApprovalStatus.
Proof. solve_decision. Defined.
#[global] Instance TaskPriority_eq_dec : EqDecision TaskPriority.
Proof. solve_decision. Defined.

(** JSON text of an array of strings, as stored in the [tags] column. *)
Inductive JsonText := JsonArrayText (encoded : list string).

Definition JSON_stringify (a : list string) : JsonText := JsonArrayText a.

(** [JSON.parse(text || '[]')]: a NULL column reads as the empty array. *)
Definition JSON_parse_or_empty (t : option JsonText) : list string :=
  match t with
  | Some (JsonArrayText a) => a
  | None => []
  end.

(** What the [tags] property of a task object holds at run time: the raw
    column text (a row as returned by a SELECT) or a parsed array. *)
Inductive TagsField :=
  | TagsText (t : option JsonText)
  | TagsArray (a : list string).

(** A task, parametric in the representation of its [tags]:
    [T := option JsonText] for a row of the table, [T := TagsField] for the
    object sent to clients. Fields not touched by the plan handlers
    (due_date, planning_*, assigned_agent_id, ...) are left out. *)
Record TaskOf (T : Type) := mkTask {
  id : string;
  title : string;
  description : option string;
  status : TaskStatus;
  priority : TaskPriority;
  workspace_id : string;
  business_id : string;
  openclaw_session_key : option string;
  parent_task_id : option string;
  source : TaskSource;
  tags : T;
  approval_status : option ApprovalStatus;
  approved_at : option string;
  approved_by : option string;
  color : option string;
  sort_order : Z;
  agent_id : option string;
  created_at : string;
  updated_at : string;
}.

Arguments mkTask {T}.
Arguments id {T}.
Arguments title {T}.
Arguments description {T}.
Arguments status {T}.
Arguments priority {T}.
Arguments workspace_id {T}.
Arguments business_id {T}.
Arguments openclaw_session_key {T}.
Arguments parent_task_id {T}.
Arguments source {T}.
Arguments tags {T}.
Arguments approval_status {T}.
Arguments approved_at {T}.
Arguments approved_by {T}.
Arguments color {T}.
Arguments sort_order {T}.
Arguments agent_id {T}.
Arguments created_at {T}.
Arguments updated_at {T}.

Abbreviation TaskRow := (TaskOf (option JsonText)).
Abbreviation Task := (TaskOf TagsField).

(** [{ ...t, tags: v }] *)
Definition with_tags {T U : Type} (v : U) (t : TaskOf T) : TaskOf U :=
  mkTask (id t) (title t) (description t) (status t) (priority t)
    (workspace_id t) (business_id t) (openclaw_session_key t)
    (parent_task_id t) (source t) v (approval_status t) (approved_at t)
    (approved_by t) (color t) (sort_order t) (agent_id t)
    (created_at t) (updated_at t).

(** A row handed out as it is ([... as Task[]]): [tags] is still text. *)
Definition row_as_task (r : TaskRow) : Task := with_tags (TagsText (tags r)) r.

(** [{ ...st, tags: JSON.parse(st.tags || '[]') }] *)
Definition parse_tags (r : TaskRow) : Task :=
  with_tags (TagsArray (JSON_parse_or_empty (tags r))) r.

(** A task object with its [subtasks] property. *)
Record Plan := mkPlan {
  plan_task : Task;
  plan_subtasks : list Task;
}.

Module CreateTaskRequest.
Record t := mk {
  title : string;
  description : option string;
  priority : option TaskPriority;
  workspace_id : option string;
  business_id : option string;
  tags : option (list string);
  color : option string;
}.
End CreateTaskRequest.

Module CreateTaskPlanRequest.
Record t := mk {
  parent_task : option CreateTaskRequest.t;
  subtasks : option (list CreateTaskRequest.t);
  agent_id : string;
  session_key : option string;
}.
End CreateTaskPlanRequest.

Inductive SSEEventType := plan_created | plan_approved | plan_rejected.

Record SSEEvent := mkSSEEvent {
  sse_type : SSEEventType;
  sse_payload : Plan;
}.

Inductive PlanUpdateStatus := created | updated | st_approved | st_rejected.

Module WSPlanUpdate.
Record t := mk {
  parent_task_id : string;
  subtasks : list Task;
  status : PlanUpdateStatus;
}.
End WSPlanUpdate.

(** Payloads of the socket messages the server produces. The arrays of the
    [subscribed] acknowledgement are [Array.from] of the two sets; they are
    kept as sets (the order of the array is the insertion order of the
    JavaScript [Set], which no property below depends on). *)
Inductive WSPayload :=
  | PConnected (clientId : string) (timestamp : string)
  | PSubscribed (workspaces : gset string) (tasks : gset string)
  | PPlanUpdate (u : WSPlanUpdate.t).

Inductive WSMessageType :=
  | t_connected | t_subscribed | t_subscribe | t_unsubscribe | t_task_update
  | t_plan_update | t_approval_request | t_approval_response
  | t_progress_update | t_error.

Record WSMessage := mkWSMessage {
  ws_type : WSMessageType;
  ws_payload : WSPayload;
  ws_timestamp : option string;
}.

(** ** JavaScript's [||] on the values the handlers apply it to *)

(** [s || d] for an optional string: [undefined] and [''] are falsy. *)
Definition or_str (s : option string) (d : string) : string :=
  match s with
  | Some v => if String.eqb v "" then d else v
  | None => d
  end.

(** [s || null] *)
Definition or_null (s : option string) : option string :=
  match s with
  | Some v => if String.eqb v "" then None else Some v
  | None => None
  end.

(** [x || d] for a value that is truthy whenever it is present. *)
Definition or_default {A : Type} (x : option A) (d : A) : A :=
  match x with
  | Some v => v
  | None => d
  end.

(** ** The record store ([getDb()]) *)

Record TaskActivity := mkActivity {
  act_id : string;
  act_task_id : string;
  act_agent_id : option string;
  activity_type : string;
  message : string;
  metadata : option string;
  act_created_at : string;
}.

Record Db := mkDb {
  tasks : list TaskRow;
  task_activities : list TaskActivity;
}.

Definition has_id (i : string) (r : TaskRow) : bool := String.eqb (id r) i.

Definition is_child_of (p : string) (r : TaskRow) : bool :=
  match parent_task_id r with
  | Some q => String.eqb q p
  | None => false
  end.

(** [SELECT * FROM tasks WHERE id = ?] with [.get]: the first match. *)
Definition select_by_id (i : string) (d : Db) : option TaskRow :=
  List.find (has_id i) (tasks d).

(** [ORDER BY sort_order]: an insertion sort of the matching rows. SQLite
    leaves the order of rows with equal [sort_order] open; here they come
    out in reverse table order. *)
Fixpoint insert_by_sort_order (r : TaskRow) (l : list TaskRow) : list TaskRow :=
  match l with
  | [] => [r]
  | x :: l' =>
      if Z.ltb (sort_order r) (sort_order x) then r :: x :: l'
      else x :: insert_by_sort_order r l'
  end.

Definition order_by_sort_order (l : list TaskRow) : list TaskRow :=
  List.fold_right insert_by_sort_order [] l.

(** [SELECT * FROM tasks WHERE parent_task_id = ? ORDER BY sort_order] *)
Definition select_subtasks (p : string) (d : Db) : list TaskRow :=
  order_by_sort_order (List.filter (is_child_of p) (tasks d)).

(** [UPDATE tasks SET ... WHERE ...] *)
Definition update_where (c : TaskRow -> bool) (f : TaskRow -> TaskRow)
    (d : Db) : Db :=
  mkDb (List.map (fun r => if c r then f r else r) (tasks d))
       (task_activities d).

(** [INSERT INTO tasks]: [None] is the UNIQUE-constraint exception. *)
Definition insert_task (r : TaskRow) (d : Db) : option Db :=
  if List.existsb (has_id (id r)) (tasks d) then None
  else Some (mkDb (tasks d ++ [r]) (task_activities d)).

(** [INSERT INTO task_activities]. The declaration of this table is not part
    of the sources at hand; the insert is taken to append the record. *)
Definition insert_activity (a : TaskActivity) (d : Db) : Db :=
  mkDb (tasks d) (task_activities d ++ [a]).

(** ** The socket server ([class MCWebSocketServer]) *)

Inductive ReadyState := CONNECTING | OPEN | CLOSING | CLOSED.

#[global] Instance ReadyState_eq_dec : EqDecision ReadyState.
Proof. solve_decision. Defined.

(** A transport handle: its state and the frames handed to [ws.send],
    oldest first. *)
Record WebSocket := mkWebSocket {
  readyState : ReadyState;
  sent : list WSMessage;
}.

Record Client := mkClient {
  ws : WebSocket;
  client_id : string;
  subscribedWorkspaces : gset string;
  subscribedTasks : gset string;
}.

Record MCWebSocketServer := mkServer {
  clients : gmap string Client;
  clientIdCounter : nat;
}.

(** [private send(ws, data)] *)
Definition send (w : WebSocket) (data : WSMessage) : WebSocket :=
  if decide (readyState w = OPEN)
  then mkWebSocket (readyState w) (sent w ++ [data])
  else w.

Definition send_client (c : Client) (data : WSMessage) : Client :=
  mkClient (send (ws c) data) (client_id c)
           (subscribedWorkspaces c) (subscribedTasks c).

Module SubscribePayload.
Record t := mk {
  workspaces : option (list string);
  tasks : option (list string);
}.
End SubscribePayload.

(** [payload.xs.forEach(x => set.add(x))] under [if (payload.xs)] *)
Definition add_all (xs : option (list string)) (s : gset string) : gset string :=
  match xs with
  | Some l => List.fold_left (fun acc x => acc ∪ {[ x ]}) l s
  | None => s
  end.

(** [payload.xs.forEach(x => set.delete(x))] under [if (payload.xs)] *)
Definition delete_all (xs : option (list string)) (s : gset string) : gset string :=
  match xs with
  | Some l => List.fold_left (fun acc x => acc ∖ {[ x ]}) l s
  | None => s
  end.

Definition handleSubscribe (c : Client) (p : SubscribePayload.t) : Client :=
  let c' := mkClient (ws c) (client_id c)
              (add_all (SubscribePayload.workspaces p) (subscribedWorkspaces c))
              (add_all (SubscribePayload.tasks p) (subscribedTasks c)) in
  send_client c'
    (mkWSMessage t_subscribed
       (PSubscribed (subscribedWorkspaces c') (subscribedTasks c')) None).

Definition handleUnsubscribe (c : Client) (p : SubscribePayload.t) : Client :=
  mkClient (ws c) (client_id c)
    (delete_all (SubscribePayload.workspaces p) (subscribedWorkspaces c))
    (delete_all (SubscribePayload.tasks p) (subscribedTasks c)).

(** An inbound frame after [JSON.parse]. A [subscribe]/[unsubscribe] frame
    without payload makes the handler throw inside the listener's [try],
    which leaves the client as it was. *)
Inductive ClientMessage :=
  | MsgSubscribe (p : option SubscribePayload.t)
  | MsgUnsubscribe (p : option SubscribePayload.t)
  | MsgOther (type : string).

Definition handleMessage (c : Client) (m : ClientMessage) : Client :=
  match m with
  | MsgSubscribe (Some p) => handleSubscribe c p
  | MsgUnsubscribe (Some p) => handleUnsubscribe c p
  | MsgSubscribe None | MsgUnsubscribe None => c
  | MsgOther _ => c
  end.

(** The [connection] listener of [start]. *)
Definition on_connection (sock : WebSocket) (now : string)
    (s : MCWebSocketServer) : MCWebSocketServer :=
  let n := S (clientIdCounter s) in
  let clientId := "client_" ++ NilZero.string_of_uint (Nat.to_uint n) in
  let c := mkClient sock clientId {[ "default" ]} ∅ in
  let c := send_client c
             (mkWSMessage t_connected (PConnected clientId now) None) in
  mkServer (<[ clientId := c ]> (clients s)) n.

(** The [message] listener of a connection: the client object captured by
    the listener is the one stored in the map. *)
Definition on_message (clientId : string) (m : ClientMessage)
    (s : MCWebSocketServer) : MCWebSocketServer :=
  match clients s !! clientId with
  | Some c => mkServer (<[ clientId := handleMessage c m ]> (clients s))
                       (clientIdCounter s)
  | None => s
  end.


Definition matches_workspace (workspaceId : string) (c : Client) : bool :=
  bool_decide (workspaceId ∈ subscribedWorkspaces c)
  || bool_decide ("*" ∈ subscribedWorkspaces c).

(** [private broadcastToWorkspace(workspaceId, message)]: the new server and
    [sentCount]. Each client owns its socket, so the [forEach] over the map
    is a pointwise update. *)
Definition broadcastToWorkspace (workspaceId : string) (m : WSMessage)
    (s : MCWebSocketServer) : MCWebSocketServer * nat :=
  (mkServer
     ((fun c => if matches_workspace workspaceId c then send_client c m else c)
        <$> clients s)
     (clientIdCounter s),
   size (filter (fun kc => matches_workspace workspaceId kc.2 = true)
           (clients s))).

(** [broadcastPlanUpdate(update, workspaceId = 'default')] *)
Definition broadcastPlanUpdate (update : WSPlanUpdate.t)
    (workspaceId : option string) (now : string)
    (s : MCWebSocketServer) : MCWebSocketServer :=
  let m := mkWSMessage t_plan_update (PPlanUpdate update) (Some now) in
  (broadcastToWorkspace (or_default workspaceId "default") m s).1.

(** ** Handlers as computations over the world *)

(** What a handler can touch: the database, the push stream (the events
    handed to [broadcastEvent], oldest first) and the socket server.
    [commits] is the journal of the database: the states it was committed
    in, oldest first, one per statement run outside a transaction; these are
    the states a stop of the process can leave on disk. *)
Record World := mkWorld {
  db : Db;
  events : list SSEEvent;
  wsServer : MCWebSocketServer;
  commits : list Db;
}.

Inductive Outcome (A : Type) :=
  | Return (a : A)
  | Throw (error : string).

Arguments Return {A}.
Arguments Throw {A}.

Definition M (A : Type) : Type := World -> Outcome A * World.

Definition ret {A : Type} (a : A) : M A := fun w => (Return a, w).

Definition throw {A : Type} (error : string) : M A := fun w => (Throw error, w).

Definition bind {A B : Type} (m : M A) (k : A -> M B) : M B :=
  fun w =>
    match m w with
    | (Return a, w') => k a w'
    | (Throw e, w') => (Throw e, w')
    end.

Notation "'let*' x ':=' m 'in' k" := (bind m (fun x => k))
  (at level 10, x name, m at level 100, k at level 200).

(** [db.prepare(sql).run(..)] for an UPDATE or an INSERT that cannot fail. *)
Definition db_run (stmt : Db -> Db) : M unit :=
  fun w =>
    (Return tt,
     mkWorld (stmt (db w)) (events w) (wsServer w)
       (commits w ++ [stmt (db w)])).

(** [db.prepare(sql).run(..)] for an INSERT into [tasks]. *)
Definition db_insert_task (r : TaskRow) : M unit :=
  fun w =>
    match insert_task r (db w) with
    | Some d =>
        (Return tt, mkWorld d (events w) (wsServer w) (commits w ++ [d]))
    | None => (Throw "UNIQUE constraint failed: tasks.id", w)
    end.

(** [db.prepare(sql).get(..)] and [.all(..)] *)
Definition db_query {A : Type} (q : Db -> A) : M A :=
  fun w => (Return (q (db w)), w).

(** [broadcastEvent(event)] of [@/lib/events]: the call is recorded; the
    push stream fans an event out to every open stream, without a filter. *)
Definition broadcastEvent (e : SSEEvent) : M unit :=
  fun w =>
    (Return tt, mkWorld (db w) (events w ++ [e]) (wsServer w) (commits w)).

(** [wsServer.broadcastPlanUpdate(update, workspaceId?)] *)
Definition wsServer_broadcastPlanUpdate (update : WSPlanUpdate.t)
    (workspaceId : option string) (now : string) : M unit :=
  fun w =>
    (Return tt,
     mkWorld (db w) (events w)
       (broadcastPlanUpdate update workspaceId now (wsServer w))
       (commits w)).

(** [NextResponse.json(body)] and [NextResponse.json({ error }, { status })] *)
Inductive NextResponse (A : Type) :=
  | json (body : A)
  | json_error (error : string) (status : Z).

Arguments json {A}.
Arguments json_error {A}.

(** [try { ... } catch (error) { return 500 }] around a handler's body. *)
Definition try_catch {A : Type} (body : M (NextResponse A)) (w : World)
    : NextResponse A * World :=
  match body w with
  | (Return r, w') => (r, w')
  | (Throw e, w') => (json_error e 500, w')
  end.

Definition string_of_nat (n : nat) : string :=
  NilZero.string_of_uint (Nat.to_uint n).

(** ** [src/app/api/plans/route.ts] *)

Module PlansRoute.

Import CreateTaskPlanRequest.

Section Create.

Variables (agent_id : string) (now : string) (uuid : nat -> string).
Variables (parentId workspaceId : string).

(** The row written by the INSERT of the loop body for [subtasks[i]]. *)
Definition subtask_row (i : nat) (subtask : CreateTaskRequest.t) : TaskRow :=
  mkTask
    (uuid (S i))
    (CreateTaskRequest.title subtask)
    (or_null (CreateTaskRequest.description subtask))
    pending_approval
    (or_default (CreateTaskRequest.priority subtask) normal)
    workspaceId
    (or_str (CreateTaskRequest.business_id subtask) "default")
    None
    (Some parentId)
    agent
    (Some (JSON_stringify
             ("agentic" :: or_default (CreateTaskRequest.tags subtask) [])))
    (Some pending)
    None
    None
    (Some (or_str (CreateTaskRequest.color subtask) "#a855f7"))
    (Z.of_nat i)
    (Some agent_id)
    now
    now.

(** The object pushed on [createdSubtasks] for [subtasks[i]]. *)
Definition subtask_object (i : nat) (subtask : CreateTaskRequest.t) : Task :=
  mkTask
    (uuid (S i))
    (CreateTaskRequest.title subtask)
    (CreateTaskRequest.description subtask)
    pending_approval
    (or_default (CreateTaskRequest.priority subtask) normal)
    workspaceId
    (or_str (CreateTaskRequest.business_id subtask) "default")
    None
    (Some parentId)
    agent
    (TagsArray ("agentic" :: or_default (CreateTaskRequest.tags subtask) []))
    (Some pending)
    None
    None
    (Some (or_str (CreateTaskRequest.color subtask) "#a855f7"))
    (Z.of_nat i)
    (Some agent_id)
    now
    now.

(** [for (let i = 0; i < subtasks.length; i++) { ... }], entered at [i]
    with the subtasks from index [i] on. *)
Fixpoint create_subtasks (i : nat) (rest : list CreateTaskRequest.t)
    : M (list Task) :=
  match rest with
  | [] => ret []
  | subtask :: rest' =>
      let* _ := db_insert_task (subtask_row i subtask) in
      let* createdSubtasks := create_subtasks (S i) rest' in
      ret (subtask_object i subtask :: createdSubtasks)
  end.

End Create.

Definition parent_row (agent_id now parentId workspaceId : string)
    (session_key : option string) (parent_task : CreateTaskRequest.t)
    : TaskRow :=
  mkTask
    parentId
    (CreateTaskRequest.title parent_task)
    (or_null (CreateTaskRequest.description parent_task))
    pending_approval
    (or_default (CreateTaskRequest.priority parent_task) normal)
    workspaceId
    (or_str (CreateTaskRequest.business_id parent_task) "default")
    (or_null session_key)
    None
    agent
    (Some (JSON_stringify
             ("agentic" :: or_default (CreateTaskRequest.tags parent_task) [])))
    (Some pending)
    None
    None
    (Some (or_str (CreateTaskRequest.color parent_task) "#a855f7"))
    0
    (Some agent_id)
    now
    now.

Definition parent_object (agent_id now parentId workspaceId : string)
    (session_key : option string) (parent_task : CreateTaskRequest.t)
    : Task :=
  mkTask
    parentId
    (CreateTaskRequest.title parent_task)
    (CreateTaskRequest.description parent_task)
    pending_approval
    (or_default (CreateTaskRequest.priority parent_task) normal)
    workspaceId
    (or_str (CreateTaskRequest.business_id parent_task) "default")
    session_key
    None
    agent
    (TagsArray ("agentic" :: or_default (CreateTaskRequest.tags parent_task) []))
    (Some pending)
    None
    None
    (Some (or_str (CreateTaskRequest.color parent_task) "#a855f7"))
    0
    (Some agent_id)
    now
    now.

(** The body of [POST] inside its [try]. *)
Definition POST_body (body : CreateTaskPlanRequest.t) (now : string)
    (uuid : nat -> string) : M (NextResponse Plan) :=
  match parent_task body with
  | None => ret (json_error "Parent task title is required" 400)
  | Some parent_task =>
      if String.eqb (CreateTaskRequest.title parent_task) ""
      then ret (json_error "Parent task title is required" 400)
      else
        match subtasks body with
        | None | Some [] =>
            ret (json_error "At least one subtask is required" 400)
        | Some subtasks =>
            let workspaceId :=
              or_str (CreateTaskRequest.workspace_id parent_task) "default" in
            let parentId := uuid 0%nat in
            let* _ := db_insert_task
                        (parent_row (agent_id body) now parentId workspaceId
                           (session_key body) parent_task) in
            let* createdSubtasks :=
              create_subtasks (agent_id body) now uuid parentId workspaceId
                0 subtasks in
            let createdParent :=
              mkPlan
                (parent_object (agent_id body) now parentId workspaceId
                   (session_key body) parent_task)
                createdSubtasks in
            let activityId := uuid (S (length subtasks)) in
            let* _ := db_run (insert_activity
                        (mkActivity activityId parentId (Some (agent_id body))
                           "spawned"
                           ("Agent created task plan with "
                            ++ string_of_nat (length subtasks) ++ " subtasks")
                           None now)) in
            let* _ := broadcastEvent (mkSSEEvent plan_created createdParent) in
            ret (json createdParent)
        end
  end.

(** [export async function POST(request)] *)
Definition POST (body : CreateTaskPlanRequest.t) (now : string)
    (uuid : nat -> string) (w : World) : NextResponse Plan * World :=
  try_catch (POST_body body now uuid) w.

(** One element of [plansWithSubtasks]. *)
Definition plan_with_subtasks (d : Db) (parent : TaskRow) : Plan :=
  mkPlan (parse_tags parent)
         (List.map parse_tags (select_subtasks (id parent) d)).

Definition approval_of_string (s : string) : option ApprovalStatus :=
  if String.eqb s "pending" then Some pending
  else if String.eqb s "approved" then Some approved
  else if String.eqb s "rejected" then Some rejected
  else None.

(** The WHERE clause of the first SELECT of [GET]. *)
Definition is_listed (workspaceId status : string) (r : TaskRow) : bool :=
  String.eqb (workspace_id r) workspaceId
  && bool_decide (source r = agent)
  && bool_decide (parent_task_id r = None)
  && match approval_of_string status with
     | Some st => bool_decide (approval_status r = Some st)
     | None => false
     end.

(** [ORDER BY created_at DESC] (TEXT compares bytewise). *)
Fixpoint insert_by_created_at_desc (r : TaskRow) (l : list TaskRow)
    : list TaskRow :=
  match l with
  | [] => [r]
  | x :: l' =>
      if String.ltb (created_at x) (created_at r) then r :: x :: l'
      else x :: insert_by_created_at_desc r l'
  end.

(** [export async function GET(request)] with the query parameters
    [workspace] (default ['default']) and [status] (default ['pending']);
    the result is the [plans] property of the response. *)
Definition GET (workspace status : option string) (w : World) : list Plan :=
  let workspaceId := or_str workspace "default" in
  let status := or_str status "pending" in
  let parentTasks :=
    List.fold_right insert_by_created_at_desc []
      (List.filter (is_listed workspaceId status) (tasks (db w))) in
  List.map (plan_with_subtasks (db w)) parentTasks.

End PlansRoute.

(** ** [src/app/api/plans/[id]/approve/route.ts] and
       [src/app/api/plans/[id]/reject/route.ts]

    The two handlers differ in the approval status and coarse status they
    write, in the activity they log and in the event they publish. *)

(** [{ result }]: the updated parent with parsed tags and its subtasks with
    parsed tags. *)
Definition plan_result (updatedParent : TaskRow) (subtasks : list TaskRow)
    : Plan :=
  mkPlan (parse_tags updatedParent) (List.map parse_tags subtasks).

Module ApproveRoute.

(** [SET approval_status = 'approved', approved_at = ?, approved_by = ?,
    status = 'inbox', updated_at = ?] *)
Definition set_approved (now by_ : string) (r : TaskRow) : TaskRow :=
  mkTask (id r) (title r) (description r) inbox (priority r)
    (workspace_id r) (business_id r) (openclaw_session_key r)
    (parent_task_id r) (source r) (tags r) (Some approved) (Some now)
    (Some by_) (color r) (sort_order r) (agent_id r) (created_at r) now.

(** "Update parent task": [UPDATE tasks SET ... WHERE id = ?] *)
Definition update_parent (id_ now by_ : string) : Db -> Db :=
  update_where (has_id id_) (set_approved now by_).

(** "Update all subtasks": [UPDATE tasks SET ... WHERE parent_task_id = ?] *)
Definition update_subtasks (id_ now by_ : string) : Db -> Db :=
  update_where (is_child_of id_) (set_approved now by_).

(** "Log activity" *)
Definition log_activity (id_ now by_ activityId : string) : Db -> Db :=
  insert_activity
    (mkActivity activityId id_ None "status_changed"
       ("Plan approved by " ++ by_) None now).

(** The statements the handler runs on success, in the order it issues
    them; none is wrapped in [db.transaction]. *)
Definition statements (id_ now by_ activityId : string) : list (Db -> Db) :=
  [ update_parent id_ now by_;
    update_subtasks id_ now by_;
    log_activity id_ now by_ activityId ].

(** The body of [POST] inside its [try]; [approved_by] is the property of
    the request body (absent when the body is missing or is not JSON). *)
Definition POST_body (id_ : string) (approved_by : option string)
    (now : string) (uuid : nat -> string) : M (NextResponse Plan) :=
  let* parentTask := db_query (select_by_id id_) in
  match parentTask with
  | None => ret (json_error "Task plan not found" 404)
  | Some parentTask =>
      if negb (bool_decide (approval_status parentTask = Some pending))
      then ret (json_error "Task plan is not pending approval" 400)
      else
        let by_ := or_str approved_by "human" in
        let* _ := db_run (update_parent id_ now by_) in
        let* _ := db_run (update_subtasks id_ now by_) in
        let activityId := uuid 0%nat in
        let* _ := db_run (log_activity id_ now by_ activityId) in
        let* updatedParent := db_query (select_by_id id_) in
        let* subtasks := db_query (select_subtasks id_) in
        match updatedParent with
        | None =>
            throw "Cannot read properties of undefined (reading 'tags')"
        | Some updatedParent =>
            let result := plan_result updatedParent subtasks in
            let* _ := broadcastEvent (mkSSEEvent plan_approved result) in
            let* _ := wsServer_broadcastPlanUpdate
                        (WSPlanUpdate.mk id_ (List.map row_as_task subtasks)
                           st_approved)
                        None now in
            ret (json result)
        end
  end.

(** [export async function POST(request, { params })] *)
Definition POST (id_ : string) (approved_by : option string) (now : string)
    (uuid : nat -> string) (w : World) : NextResponse Plan * World :=
  try_catch (POST_body id_ approved_by now uuid) w.

End ApproveRoute.

Module RejectRoute.

(** [SET approval_status = 'rejected', approved_at = ?, approved_by = ?,
    status = 'blocked', updated_at = ?] *)
Definition set_rejected (now by_ : string) (r : TaskRow) : TaskRow :=
  mkTask (id r) (title r) (description r) blocked (priority r)
    (workspace_id r) (business_id r) (openclaw_session_key r)
    (parent_task_id r) (source r) (tags r) (Some rejected) (Some now)
    (Some by_) (color r) (sort_order r) (agent_id r) (created_at r) now.

Definition update_parent (id_ now by_ : string) : Db -> Db :=
  update_where (has_id id_) (set_rejected now by_).

Definition update_subtasks (id_ now by_ : string) : Db -> Db :=
  update_where (is_child_of id_) (set_rejected now by_).

(** "Log activity": the reason, when truthy, is appended to the message
    and stored as metadata ([JSON.stringify({ reason })], kept as the
    reason itself). *)
Definition log_activity (id_ now by_ activityId : string)
    (reason : option string) : Db -> Db :=
  insert_activity
    (mkActivity activityId id_ None "status_changed"
       ("Plan rejected by " ++ by_
        ++ match or_null reason with
           | Some r => ": " ++ r
           | None => ""
           end)
       (or_null reason) now).

Definition statements (id_ now by_ activityId : string)
    (reason : option string) : list (Db -> Db) :=
  [ update_parent id_ now by_;
    update_subtasks id_ now by_;
    log_activity id_ now by_ activityId reason ].

Definition POST_body (id_ : string) (rejected_by reason : option string)
    (now : string) (uuid : nat -> string) : M (NextResponse Plan) :=
  let* parentTask := db_query (select_by_id id_) in
  match parentTask with
  | None => ret (json_error "Task plan not found" 404)
  | Some parentTask =>
      if negb (bool_decide (approval_status parentTask = Some pending))
      then ret (json_error "Task plan is not pending approval" 400)
      else
        let by_ := or_str rejected_by "human" in
        let* _ := db_run (update_parent id_ now by_) in
        let* _ := db_run (update_subtasks id_ now by_) in
        let activityId := uuid 0%nat in
        let* _ := db_run (log_activity id_ now by_ activityId reason) in
        let* updatedParent := db_query (select_by_id id_) in
        let* subtasks := db_query (select_subtasks id_) in
        match updatedParent with
        | None =>
            throw "Cannot read properties of undefined (reading 'tags')"
        | Some updatedParent =>
            let result := plan_result updatedParent subtasks in
            let* _ := broadcastEvent (mkSSEEvent plan_rejected result) in
            let* _ := wsServer_broadcastPlanUpdate
                        (WSPlanUpdate.mk id_ (List.map row_as_task subtasks)
                           st_rejected)
                        None now in
            ret (json result)
        end
  end.

Definition POST (id_ : string) (rejected_by reason : option string)
    (now : string) (uuid : nat -> string) (w : World)
    : NextResponse Plan * World :=
  try_catch (POST_body id_ rejected_by reason now uuid) w.

End RejectRoute.


(** * Notions used by the properties *)

Definition in_plan (p : string) (r : TaskRow) : bool :=
  has_id p r || is_child_of p r.

(** The durable database after the statements [ss] have been committed. *)
Definition run_statements (ss : list (Db -> Db)) (d : Db) : Db :=
  List.fold_left (fun d s => s d) ss d.

(** The durable database when the process stops after [n] of the
    statements [ss] were committed. *)
Definition crash_after (n : nat) (ss : list (Db -> Db)) (d : Db) : Db :=
  run_statements (List.firstn n ss) d.

(** The journal [c] after the statements [ss] were run one by one from the
    database [d]. *)
Fixpoint commit_all (ss : list (Db -> Db)) (d : Db) (c : list Db) : list Db :=
  match ss with
  | [] => c
  | s :: ss' => commit_all ss' (s d) (c ++ [s d])
  end.

(** The journal [c] after the rows [rows] were inserted one by one into the
    database [d]. *)
Fixpoint commit_inserts (rows : list TaskRow) (d : Db) (c : list Db)
    : list Db :=
  match rows with
  | [] => c
  | r :: rows' =>
      let d' := mkDb (tasks d ++ [r]) (task_activities d) in
      commit_inserts rows' d' (c ++ [d'])
  end.

(** What "update parent" followed by "update all subtasks" does to a row,
    for the row update [f] of the SET clause. *)
Definition cascade (f : TaskRow -> TaskRow) (p : string) (r : TaskRow)
    : TaskRow :=
  let r1 := if has_id p r then f r else r in
  if is_child_of p r1 then f r1 else r1.

(** A row that was resolved by an approval, resp. by a rejection. *)
Definition is_approved (r : TaskRow) : bool :=
  bool_decide (approval_status r = Some approved)
  && bool_decide (status r = inbox).

Definition is_rejected (r : TaskRow) : bool :=
  bool_decide (approval_status r = Some rejected)
  && bool_decide (status r = blocked).

(** The world a successful approval leaves behind, and its response. *)
Definition approved_world (id_ : string) (approved_by : option string)
    (now : string) (uuid : nat -> string) (w : World) (updatedParent : TaskRow)
    : NextResponse Plan * World :=
  let d := run_statements
             (ApproveRoute.statements id_ now (or_str approved_by "human")
                (uuid 0%nat)) (db w) in
  let subtasks := select_subtasks id_ d in
  let result := plan_result updatedParent subtasks in
  (json result,
   mkWorld d
     (events w ++ [mkSSEEvent plan_approved result])
     (broadcastPlanUpdate
        (WSPlanUpdate.mk id_ (List.map row_as_task subtasks) st_approved)
        None now (wsServer w))
     (commit_all
        (ApproveRoute.statements id_ now (or_str approved_by "human")
           (uuid 0%nat)) (db w) (commits w))).

(** The world a successful rejection leaves behind, and its response. *)
Definition rejected_world (id_ : string) (rejected_by reason : option string)
    (now : string) (uuid : nat -> string) (w : World) (updatedParent : TaskRow)
    : NextResponse Plan * World :=
  let d := run_statements
             (RejectRoute.statements id_ now (or_str rejected_by "human")
                (uuid 0%nat) reason) (db w) in
  let subtasks := select_subtasks id_ d in
  let result := plan_result updatedParent subtasks in
  (json result,
   mkWorld d
     (events w ++ [mkSSEEvent plan_rejected result])
     (broadcastPlanUpdate
        (WSPlanUpdate.mk id_ (List.map row_as_task subtasks) st_rejected)
        None now (wsServer w))
     (commit_all
        (RejectRoute.statements id_ now (or_str rejected_by "human")
           (uuid 0%nat) reason) (db w) (commits w))).

(** * Scenarios *)

(** Two open connections: [client_1] keeps the subscription to ['default']
    it got on connect, [client_2] has moved its subscription to ['w2']. *)
Definition ex_server : MCWebSocketServer :=
  on_message "client_2"
    (MsgSubscribe (Some (SubscribePayload.mk (Some ["w2"]) None)))
    (on_message "client_2"
       (MsgUnsubscribe (Some (SubscribePayload.mk (Some ["default"]) None)))
       (on_connection (mkWebSocket OPEN []) "09:00"
          (on_connection (mkWebSocket OPEN []) "09:00" (mkServer ∅ 0)))).

Definition ex_world : World := mkWorld (mkDb [] []) [] ex_server [].

(** The plan "Ship v2" with the subtasks "Write tests" and "Update docs",
    submitted by agent [dev] for the given workspace. *)
Definition ship_v2 (workspace : option string) : CreateTaskPlanRequest.t :=
  CreateTaskPlanRequest.mk
    (Some (CreateTaskRequest.mk "Ship v2" None None workspace None None None))
    (Some [CreateTaskRequest.mk "Write tests" None None None None None None;
           CreateTaskRequest.mk "Update docs" None None None None
             (Some ["docs"]) None])
    "dev" None.

(** Identifiers drawn by a call: [prefix0], [prefix1], ... *)
Definition ex_uuid (prefix : string) (n : nat) : string :=
  prefix ++ string_of_nat n.

(** The world after the plan was created: the parent is [task-0], the
    subtasks are [task-1] and [task-2]. *)
Definition ex_created (workspace : option string) : World :=
  (PlansRoute.POST (ship_v2 workspace) "10:00" (ex_uuid "task-") ex_world).2.

(** ... and after it was approved by [alice]. *)
Definition ex_approved (workspace : option string) : World :=
  (ApproveRoute.POST "task-0" (Some "alice") "11:00" (ex_uuid "act-")
     (ex_created workspace)).2.

(** * Creation of a plan, record by record *)

(** The rows the loop of [POST /api/plans] inserts when no INSERT fails,
    entered at index [i]. *)
Fixpoint subtask_rows (agent_id now : string) (uuid : nat -> string)
    (parentId workspaceId : string) (i : nat)
    (rest : list CreateTaskRequest.t) : list TaskRow :=
  match rest with
  | [] => []
  | subtask :: rest' =>
      PlansRoute.subtask_row agent_id now uuid parentId workspaceId i subtask
      :: subtask_rows agent_id now uuid parentId workspaceId (S i) rest'
  end.

(** The objects the loop collects in [createdSubtasks]. *)
Fixpoint subtask_objects (agent_id now : string) (uuid : nat -> string)
    (parentId workspaceId : string) (i : nat)
    (rest : list CreateTaskRequest.t) : list Task :=
  match rest with
  | [] => []
  | subtask :: rest' =>
      PlansRoute.subtask_object agent_id now uuid parentId workspaceId i subtask
      :: subtask_objects agent_id now uuid parentId workspaceId (S i) rest'
  end.

(** A record of a freshly created plan: its key, parent reference, position
    and tags, with approval status [pending] and coarse status
    [pending_approval]. *)
Definition created_as {T : Type} (key : string) (parent : option string)
    (position : Z) (tgs : T) (t : TaskOf T) : Prop :=
  id t = key /\ parent_task_id t = parent /\ sort_order t = position /\
  tags t = tgs /\ approval_status t = Some pending /\
  status t = pending_approval.

(** The tag list written for a draft: ['agentic'] and then the caller's. *)
Definition agentic_tags (draft : CreateTaskRequest.t) : list string :=
  "agentic" :: or_default (CreateTaskRequest.tags draft) [].

(** * Sequences of plan operations *)

Inductive Op :=
  | OpCreatePlan (body : CreateTaskPlanRequest.t) (now : string)
      (uuid : nat -> string)
  | OpApprove (id_ : string) (approved_by : option string) (now : string)
      (uuid : nat -> string)
  | OpReject (id_ : string) (rejected_by reason : option string)
      (now : string) (uuid : nat -> string).

(** The world after a request was served, whatever the response. *)
Definition run_op (o : Op) (w : World) : World :=
  match o with
  | OpCreatePlan body now uuid => (PlansRoute.POST body now uuid w).2
  | OpApprove id_ approved_by now uuid =>
      (ApproveRoute.POST id_ approved_by now uuid w).2
  | OpReject id_ rejected_by reason now uuid =>
      (RejectRoute.POST id_ rejected_by reason now uuid w).2
  end.

Definition run_ops (ops : list Op) (w : World) : World :=
  List.fold_left (fun w o => run_op o w) ops w.






(** * Crashes between statements *)

(** The plan [p] is torn in [d]: its parent already has the approval status
    [resolution] while one of its children is still [pending]. *)
Definition torn (resolution : ApprovalStatus) (p : string) (d : Db) : Prop :=
  (exists r, In r (tasks d) /\ id r = p /\
             approval_status r = Some resolution) /\
  (exists c, In c (tasks d) /\ parent_task_id c = Some p /\
             approval_status c = Some pending).

(** How the writes [ss] of a successful approve or reject reach the store:
    the final database is the result of all of them; each is committed on
    its own, so the journal grows by the results of the three prefixes, and
    the database a stop leaves behind is one of them. After the first write
    the task with the given id is resolved and every other row is as it
    was; from the second write on every row of the plan is resolved. *)
Definition committed_one_by_one (ss : list (Db -> Db))
    (resolved : TaskRow -> bool) (id_ : string) (w w' : World) : Prop :=
  db w' = run_statements ss (db w) /\
  commits w' =
    (commits w ++ [crash_after 1 ss (db w); crash_after 2 ss (db w);
                   crash_after 3 ss (db w)])%list /\
  crash_after 0 ss (db w) = db w /\
  crash_after 3 ss (db w) = db w' /\
  (forall x, In x (tasks (crash_after 1 ss (db w))) ->
     has_id id_ x = true -> resolved x = true) /\
  (forall (i : nat) x, List.nth_error (tasks (db w)) i = Some x ->
     has_id id_ x = false ->
     List.nth_error (tasks (crash_after 1 ss (db w))) i = Some x) /\
  (forall (n : nat) x, (2 <= n)%nat ->
     In x (tasks (crash_after n ss (db w))) ->
     in_plan id_ x = true -> resolved x = true).

(** * Subscriptions *)

(** The workspace filter by the contract of the registry: [subscribe]
    unions the given workspace ids into the filter, [unsubscribe] removes
    them, anything else leaves it alone. *)
Definition filter_step (S : gset string) (m : ClientMessage) : gset string :=
  match m with
  | MsgSubscribe (Some p) =>
      S ∪ list_to_set (or_default (SubscribePayload.workspaces p) [])
  | MsgUnsubscribe (Some p) =>
      S ∖ list_to_set (or_default (SubscribePayload.workspaces p) [])
  | _ => S
  end.

Definition workspace_filter_after (msgs : list ClientMessage)
    (S : gset string) : gset string :=
  List.fold_left filter_step msgs S.

(** The inbound frames [msgs] of the connection [clientId], in order. *)
Definition on_messages (clientId : string) (msgs : list ClientMessage)
    (s : MCWebSocketServer) : MCWebSocketServer :=
  List.fold_left (fun s m => on_message clientId m s) msgs s.

(** The frames a connection was sent so far (none if it is not registered). *)
Definition received (clientId : string) (s : MCWebSocketServer)
    : list WSMessage :=
  match clients s !! clientId with
  | Some c => sent (ws c)
  | None => []
  end.

(** A [plan_update] frame for the plan [t2], as [broadcastPlanUpdate]
    builds it. *)
Definition ex_plan_update : WSMessage :=
  mkWSMessage t_plan_update
    (PPlanUpdate (WSPlanUpdate.mk "t2" [] st_approved)) (Some "11:00").

(** A [subscribe] frame naming the task [t1] and no workspace. *)
Definition ex_subscribe_t1 : ClientMessage :=
  MsgSubscribe (Some (SubscribePayload.mk None (Some ["t1"]))).


(** * Further notions: the plan handlers *)

(** The columns that neither [approve] nor [reject] writes. *)
Definition kept_columns (r : TaskRow) :=
  (id r, title r, description r, priority r, workspace_id r, business_id r,
   openclaw_session_key r, parent_task_id r, source r, tags r, color r,
   sort_order r, agent_id r, created_at r).

(** The plan [id_] was resolved between [w] and [w1]: an [approve] or a
    [reject] of that id answered with the plan. *)
Definition resolves (id_ : string) (w w1 : World) : Prop :=
  (exists approved_by now uuid plan,
     ApproveRoute.POST id_ approved_by now uuid w = (json plan, w1)) \/
  (exists rejected_by reason now uuid plan,
     RejectRoute.POST id_ rejected_by reason now uuid w = (json plan, w1)).

(** The task selected by [id_] exists and is not pending. *)
Definition settled (id_ : string) (w : World) : Prop :=
  exists r, select_by_id id_ (db w) = Some r /\
            approval_status r <> Some pending.

(** Rows in non-decreasing [sort_order]. *)
Definition by_sort_order (a b : TaskRow) : Prop := sort_order a <= sort_order b.

(** Draws in which the second subtask gets the id of the first. *)
Definition ex_uuid_clash (n : nat) : string :=
  match n with
  | O => "p"
  | _ => "c"
  end.

(** The properties of a task object on which a created object and a row
    read back can be compared: all but [description],
    [openclaw_session_key], [approved_at] and [approved_by], where an
    object may leave out what a row holds as NULL. *)
Definition shown_columns {T : Type} (t : TaskOf T) :=
  (id t, title t, status t, priority t, workspace_id t, business_id t,
   parent_task_id t, source t, tags t, approval_status t, color t,
   sort_order t, agent_id t, created_at t, updated_at t).

(** * Further notions: the socket server *)

(** [broadcastProgress(taskId, ..)], from the frame it has built on (the
    payload of a [progress_update] is outside the payloads modelled here;
    the frame is the argument [message]): first the clients subscribed to
    the task, then the subscribers of ['default']. *)
Definition broadcastProgress (taskId : string) (message : WSMessage)
    (s : MCWebSocketServer) : MCWebSocketServer :=
  let s1 :=
    mkServer
      ((fun c => if bool_decide (taskId ∈ subscribedTasks c)
                 then send_client c message else c) <$> clients s)
      (clientIdCounter s) in
  (broadcastToWorkspace "default" message s1).1.







(** How many copies of a frame a client is sent by [broadcastProgress]. *)
Definition progress_copies (taskId : string) (c : Client) : nat :=
  ((if bool_decide (taskId ∈ subscribedTasks c) then 1 else 0)
   + (if matches_workspace "default" c then 1 else 0))%nat.

(** The frame [useWebSocket] sends when its socket opens
    ([workspaceId = 'default'] when the option is left out). *)
Definition useWebSocket_onopen (workspaceId : option string) : ClientMessage :=
  MsgSubscribe
    (Some (SubscribePayload.mk
             (Some [or_default workspaceId "default"; "*"]) None)).

(** The frames of [subscribeToTask] and [unsubscribeFromTask]. *)
Definition subscribeToTask (taskId : string) : ClientMessage :=
  MsgSubscribe (Some (SubscribePayload.mk None (Some [taskId]))).

Definition unsubscribeFromTask (taskId : string) : ClientMessage :=
  MsgUnsubscribe (Some (SubscribePayload.mk None (Some [taskId]))).

(** ** The server object and its lifecycle *)

(** The object [new MCWebSocketServer()]: the registry and [wss], which is
    [null] or the listening server; of the latter only the port it was
    given is kept. *)
Record ServerObject := mkServerObject {
  wss : option Z;
  registry : MCWebSocketServer;
}.

Definition new_MCWebSocketServer : ServerObject :=
  mkServerObject None (mkServer ∅ 0).

(** [start(port = 3001)]. [listens] tells whether
    [new WebSocketServer({ port })] returns; when it throws, so does
    [start], before [wss] is assigned. The result is the object and whether
    the call threw. *)
Definition start (port : option Z) (listens : bool) (o : ServerObject)
    : ServerObject * bool :=
  match wss o with
  | Some _ => (o, false)
  | None =>
      if listens
      then (mkServerObject (Some (or_default port 3001)) (registry o), false)
      else (o, true)
  end.


Module Stats.
Record t := mk {
  clients : nat;
  port : option Z;
}.
End Stats.

(** [getStats()] *)
Definition getStats (o : ServerObject) : Stats.t :=
  Stats.mk (size (clients (registry o))) (wss o).

(** [getOrCreateServer()] on the global [__mcWebSocketServer]: the object,
    which is also what the global holds afterwards. *)
Definition getOrCreateServer (global : option ServerObject) : ServerObject :=
  or_default global new_MCWebSocketServer.

(** [startWebSocketServer(port = 3100)]: the object it returns, which is
    the one the global holds. *)
Definition startWebSocketServer (port : option Z) (listens : bool)
    (global : option ServerObject) : ServerObject :=
  let server := getOrCreateServer global in
  match Stats.port (getStats server) with
  | None => (start (Some (or_default port 3100)) listens server).1
  | Some _ => server
  end.

(** [initWebSocket(port = 3100)] of [src/lib/websocket/index.ts]: the
    global afterwards. *)
Definition initWebSocket (port : option Z) (listens : bool)
    (global : option ServerObject) : option ServerObject :=
  Some (startWebSocketServer (Some (or_default port 3100)) listens global).

Module WsStatus.
Record t := mk {
  running : bool;
  port : option Z;
  clients : nat;
}.
End WsStatus.

(** [GET /api/ws/status] *)
Definition ws_status_GET (global : option ServerObject) : WsStatus.t :=
  let stats := getStats (getOrCreateServer global) in
  WsStatus.mk (bool_decide (Stats.port stats <> None)) (Stats.port stats)
    (Stats.clients stats).

(** A frame [useWebSocket] sends after its socket opened. *)
Definition is_task_frame (m : ClientMessage) : Prop :=
  exists taskId, m = subscribeToTask taskId \/ m = unsubscribeFromTask taskId.

(** * Migrations (the database migrations system) *)

(** A migration: [up] works on the schema and data of the database (here
    any type [Schema]) and may throw ([None]). The migrations of the
    repository do not touch the ledger table [_migrations]; the runner
    below is stated for any list of such migrations. *)
Record Migration (Schema : Type) := mkMigration {
  mig_id : string;
  mig_name : string;
  up : Schema -> option Schema;
}.

Arguments mkMigration {Schema}.
Arguments mig_id {Schema}.
Arguments mig_name {Schema}.
Arguments up {Schema}.

(** The database as the runner sees it: what the migrations work on, and
    the rows [(id, name)] of the ledger [_migrations], whose [id] is the
    PRIMARY KEY. *)
Record MigrationDb (Schema : Type) := mkMigrationDb {
  schema : Schema;
  ledger : list (string * string);
}.

Arguments mkMigrationDb {Schema}.
Arguments schema {Schema}.
Arguments ledger {Schema}.

(** [db.transaction(() => { migration.up(db); INSERT INTO _migrations })()]:
    [None] when [up] or the INSERT throws, in which case the transaction is
    rolled back. *)
Definition migrate_in_transaction {Schema : Type} (m : Migration Schema)
    (d : MigrationDb Schema) : option (MigrationDb Schema) :=
  match up m (schema d) with
  | None => None
  | Some sch =>
      if List.existsb (fun row => String.eqb row.1 (mig_id m)) (ledger d)
      then None
      else Some (mkMigrationDb sch (ledger d ++ [(mig_id m, mig_name m)]))
  end.

(** The loop of [runMigrations] over the migrations that are left, with the
    set [applied] read before the loop: the database, the ids of the
    migrations whose [up] was started, and the id of the migration whose
    failure was rethrown, if any. *)
Fixpoint run_pending {Schema : Type} (applied : gset string)
    (migrations : list (Migration Schema)) (d : MigrationDb Schema)
    : MigrationDb Schema * list string * option string :=
  match migrations with
  | [] => (d, [], None)
  | migration :: rest =>
      if bool_decide (mig_id migration ∈ applied)
      then run_pending applied rest d
      else
        match migrate_in_transaction migration d with
        | Some d' =>
            let '(d'', started, failed) := run_pending applied rest d' in
            (d'', mig_id migration :: started, failed)
        | None => (d, [mig_id migration], Some (mig_id migration))
        end
  end.

(** [runMigrations(db)] for the list [migrations]. *)
Definition runMigrations {Schema : Type}
    (migrations : list (Migration Schema)) (d : MigrationDb Schema)
    : MigrationDb Schema * list string * option string :=
  run_pending (list_to_set (List.map fst (ledger d))) migrations d.

(** [ORDER BY id] on the ledger (TEXT compares bytewise). *)
Fixpoint insert_by_id (i : string) (l : list string) : list string :=
  match l with
  | [] => [i]
  | x :: l' => if String.ltb i x then i :: x :: l' else x :: insert_by_id i l'
  end.

(** [getMigrationStatus(db)]: [applied] and [pending]. *)
Definition getMigrationStatus {Schema : Type}
    (migrations : list (Migration Schema)) (d : MigrationDb Schema)
    : list string * list string :=
  let applied := List.fold_right insert_by_id [] (List.map fst (ledger d)) in
  let pending :=
    List.map mig_id
      (List.filter
         (fun m => negb (List.existsb (String.eqb (mig_id m)) applied))
         migrations) in
  (applied, pending).

(** Two migrations on a schema that is the set of its tables: the baseline
    marker and the one that adds [workspaces]. *)
Definition ex_migrations : list (Migration (gset string)) :=
  [ mkMigration "001" "initial_schema" (fun tables => Some tables);
    mkMigration "002" "add_workspaces"
      (fun tables => Some (tables ∪ {[ "workspaces" ]})) ].

(** The same list with a migration in the middle whose [up] throws. *)
Definition ex_migrations_failing : list (Migration (gset string)) :=
  [ mkMigration "001" "initial_schema" (fun tables => Some tables);
    mkMigration "00x" "broken" (fun _ => None);
    mkMigration "002" "add_workspaces"
      (fun tables => Some (tables ∪ {[ "workspaces" ]})) ].

(** * Workspaces ([GET] and [POST /api/workspaces]) *)

(** A string is the sequence of the bytes of its UTF-8 encoding. The two
    regular expressions of [generateSlug] look at single code units and
    keep only ASCII letters, digits and ['-']; on the bytes they select the
    same runs, since every byte of a character outside ASCII is outside
    [a-z0-9]. [String.prototype.toLowerCase] and [trim] depend on Unicode
    tables and are arguments of the definitions below. *)

(** [[a-z0-9]] *)
Definition is_alnum (a : Ascii.ascii) : bool :=
  let n := Ascii.nat_of_ascii a in
  ((97 <=? n)%nat && (n <=? 122)%nat) || ((48 <=? n)%nat && (n <=? 57)%nat).

Definition is_dash (a : Ascii.ascii) : bool := Ascii.eqb a "-"%char.

(** [.replace(/[^a-z0-9]+/g, '-')]; [in_run] tells that the previous
    character was outside [a-z0-9], so that a ['-'] was already written for
    the run. *)
Fixpoint replace_runs (s : string) (in_run : bool) : string :=
  match s with
  | EmptyString => EmptyString
  | String a s' =>
      if is_alnum a then String a (replace_runs s' false)
      else if in_run then replace_runs s' true
      else String "-"%char (replace_runs s' true)
  end.

(** The match of [^-] in [.replace(/^-|-$/g, '')]. *)
Definition strip_leading_dash (s : string) : string :=
  match s with
  | String a s' => if is_dash a then s' else s
  | EmptyString => s
  end.

(** The match of [-$], looked for in what follows the first match. *)
Fixpoint strip_trailing_dash (s : string) : string :=
  match s with
  | EmptyString => EmptyString
  | String a EmptyString => if is_dash a then EmptyString else s
  | String a s' => String a (strip_trailing_dash s')
  end.

(** [generateSlug(name)] *)
Definition generateSlug (toLowerCase : string -> string) (name : string)
    : string :=
  strip_trailing_dash
    (strip_leading_dash (replace_runs (toLowerCase name) false)).

(** [toLowerCase] on ASCII text. *)
Definition lower_ascii (a : Ascii.ascii) : Ascii.ascii :=
  let n := Ascii.nat_of_ascii a in
  if ((65 <=? n)%nat && (n <=? 90)%nat)%bool
  then Ascii.ascii_of_nat (n + 32) else a.

Fixpoint toLowerCase_ascii (s : string) : string :=
  match s with
  | EmptyString => EmptyString
  | String a s' => String (lower_ascii a) (toLowerCase_ascii s')
  end.

(** The shape of a slug. *)
Fixpoint slug_chars (s : string) : bool :=
  match s with
  | EmptyString => true
  | String a s' => (is_alnum a || is_dash a) && slug_chars s'
  end.

Definition starts_with_dash (s : string) : bool :=
  match s with
  | String a _ => is_dash a
  | EmptyString => false
  end.

Fixpoint ends_with_dash (s : string) : bool :=
  match s with
  | EmptyString => false
  | String a EmptyString => is_dash a
  | String _ s' => ends_with_dash s'
  end.

Fixpoint has_double_dash (s : string) : bool :=
  match s with
  | EmptyString => false
  | String a s' => (is_dash a && starts_with_dash s') || has_double_dash s'
  end.

Fixpoint has_alnum (s : string) : bool :=
  match s with
  | EmptyString => false
  | String a s' => is_alnum a || has_alnum s'
  end.

Definition is_slug (s : string) : Prop :=
  slug_chars s = true /\ starts_with_dash s = false /\
  ends_with_dash s = false /\ has_double_dash s = false.


(** ASCII white space, and [trim] on ASCII text. *)
Definition is_space (a : Ascii.ascii) : bool :=
  let n := Ascii.nat_of_ascii a in
  ((9 <=? n)%nat && (n <=? 13)%nat) || (n =? 32)%nat.

Fixpoint trim_start (s : string) : string :=
  match s with
  | EmptyString => EmptyString
  | String a s' => if is_space a then trim_start s' else s
  end.

Fixpoint trim_end (s : string) : string :=
  match s with
  | EmptyString => EmptyString
  | String a s' =>
      match trim_end s' with
      | EmptyString => if is_space a then EmptyString else String a EmptyString
      | t => String a t
      end
  end.

Definition trim_ascii (s : string) : string := trim_end (trim_start s).

(** A row of the [workspaces] table: [id] is the primary key, [slug] is
    [UNIQUE]. *)
Module Workspace.
Record t := mk {
  id : string;
  name : string;
  slug : string;
  description : option string;
  icon : string;
  created_at : string;
  updated_at : string;
}.
End Workspace.

(** The column of the [agents] table the workspace list reads. *)
Module Agent.
Record t := mk {
  id : string;
  workspace_id : string;
}.
End Agent.

(** [WorkspaceStats['taskCounts']] *)
Module TaskCounts.
Record t := mk {
  pending_approval : nat;
  planning : nat;
  inbox : nat;
  assigned : nat;
  in_progress : nat;
  testing : nat;
  review : nat;
  done : nat;
  blocked : nat;
  total : nat;
}.
End TaskCounts.

Module WorkspaceStats.
Record t := mk {
  id : string;
  name : string;
  slug : string;
  icon : string;
  taskCounts : TaskCounts.t;
  agentCount : nat;
}.
End WorkspaceStats.

Module WorkspacesRoute.

(** The fields [POST] takes from the request body. [name] is [None] for
    anything that is not a string. *)
Record Body := mkBody {
  name : option string;
  description : option string;
  icon : option string;
}.

(** [NextResponse.json(body, { status })] *)
Inductive Response :=
  | json_status (body : option Workspace.t) (status : Z)
  | error_status (error : string) (status : Z).

Definition has_slug (slug : string) (x : Workspace.t) : bool :=
  String.eqb (Workspace.slug x) slug.

Definition has_workspace_id (id_ : string) (x : Workspace.t) : bool :=
  String.eqb (Workspace.id x) id_.

(** [INSERT INTO workspaces (...) VALUES (...)]: [None] when the primary key
    or the [UNIQUE] slug is taken, in which case [run] throws. *)
Definition insert_workspace (r : Workspace.t) (table : list Workspace.t)
    : option (list Workspace.t) :=
  if List.existsb (has_workspace_id (Workspace.id r)) table then None
  else if List.existsb (has_slug (Workspace.slug r)) table then None
  else Some (table ++ [r])%list.

(** [export async function POST(request)]. [uuid] is the draw of
    [crypto.randomUUID()], [now] the value of [datetime('now')]; a throw of
    the INSERT is caught and answered with a 500. *)
Definition POST (trim toLowerCase : string -> string) (body : Body)
    (now uuid : string) (table : list Workspace.t)
    : Response * list Workspace.t :=
  match name body with
  | None => (error_status "Name is required" 400, table)
  | Some name =>
      if String.eqb name "" || (String.length (trim name) =? 0)%nat
      then (error_status "Name is required" 400, table)
      else
        let id_ := uuid in
        let slug := generateSlug toLowerCase name in
        match List.find (has_slug slug) table with
        | Some existing =>
            (error_status "A workspace with this name already exists" 400,
             table)
        | None =>
            match
              insert_workspace
                (Workspace.mk id_ (trim name) slug
                   (or_null (description body)) (or_str (icon body) "📁")
                   now now) table
            with
            | None => (error_status "Failed to create workspace" 500, table)
            | Some table' =>
                (json_status (List.find (has_workspace_id id_) table') 201,
                 table')
            end
        end
  end.

(** [ORDER BY name] (TEXT compares bytewise; the order of rows with equal
    names is left open by SQLite, here they keep table order). *)
Fixpoint insert_by_name (r : Workspace.t) (l : list Workspace.t)
    : list Workspace.t :=
  match l with
  | [] => [r]
  | x :: l' =>
      if String.ltb (Workspace.name x) (Workspace.name r)
      then x :: insert_by_name r l'
      else r :: x :: l'
  end.

Definition select_all_order_by_name (table : list Workspace.t)
    : list Workspace.t :=
  List.fold_right insert_by_name [] table.

Definition in_workspace_with (workspace_id_ : string) (st : TaskStatus)
    (r : TaskRow) : bool :=
  String.eqb (workspace_id r) workspace_id_ && bool_decide (status r = st).

(** The values the CHECK constraint of [tasks.status] admits, in the order
    of their text. *)
Definition statuses : list TaskStatus :=
  [assigned; blocked; done; in_progress; inbox; pending_approval; planning;
   review; testing].

(** [SELECT status, COUNT as count FROM tasks WHERE workspace_id = ?
    GROUP BY status]: one row for each status that occurs. *)
Definition select_task_counts (workspace_id_ : string) (d : Db)
    : list (TaskStatus * nat) :=
  List.filter (fun tc => negb (snd tc =? 0)%nat)
    (List.map
       (fun st =>
          (st, length (List.filter (in_workspace_with workspace_id_ st)
                         (tasks d))))
       statuses).

(** [counts[tc.status]] *)
Definition get_count (st : TaskStatus) (c : TaskCounts.t) : nat :=
  match st with
  | pending_approval => TaskCounts.pending_approval c
  | planning => TaskCounts.planning c
  | inbox => TaskCounts.inbox c
  | assigned => TaskCounts.assigned c
  | in_progress => TaskCounts.in_progress c
  | testing => TaskCounts.testing c
  | review => TaskCounts.review c
  | done => TaskCounts.done c
  | blocked => TaskCounts.blocked c
  end.

(** [counts[tc.status] = tc.count; counts.total += tc.count] *)
Definition count_group (c : TaskCounts.t) (tc : TaskStatus * nat)
    : TaskCounts.t :=
  let pick st := if bool_decide (fst tc = st) then snd tc else get_count st c in
  TaskCounts.mk (pick pending_approval) (pick planning) (pick inbox)
    (pick assigned) (pick in_progress) (pick testing) (pick review)
    (pick done) (pick blocked) (TaskCounts.total c + snd tc)%nat.

Definition zero_counts : TaskCounts.t :=
  TaskCounts.mk 0 0 0 0 0 0 0 0 0 0.

(** The body of [workspaces.map(workspace => ...)]. *)
Definition workspace_stats (agents : list Agent.t) (d : Db)
    (workspace : Workspace.t) : WorkspaceStats.t :=
  let taskCounts := select_task_counts (Workspace.id workspace) d in
  let counts := List.fold_left count_group taskCounts zero_counts in
  let agentCount :=
    length
      (List.filter
         (fun a => String.eqb (Agent.workspace_id a) (Workspace.id workspace))
         agents) in
  WorkspaceStats.mk (Workspace.id workspace) (Workspace.name workspace)
    (Workspace.slug workspace) (Workspace.icon workspace) counts agentCount.

Inductive ListResponse :=
  | json_stats (stats : list WorkspaceStats.t)
  | json_workspaces (workspaces : list Workspace.t).

(** [export async function GET(request)]; [stats] is the query parameter. *)
Definition GET (stats : option string) (table : list Workspace.t)
    (agents : list Agent.t) (d : Db) : ListResponse :=
  let includeStats :=
    match stats with Some v => String.eqb v "true" | None => false end in
  if includeStats
  then json_stats
         (List.map (workspace_stats agents d) (select_all_order_by_name table))
  else json_workspaces (select_all_order_by_name table).

End WorkspacesRoute.

(** Two workspaces, two agents and three tasks. *)
Definition ex_workspaces : list Workspace.t :=
  [Workspace.mk "default" "Default Workspace" "default" None "🏠" "t0" "t0";
   Workspace.mk "w1" "Apollo" "apollo" None "📁" "t1" "t1"].

(** Names in non-decreasing order. *)
Definition name_le (a b : string) : Prop := String.ltb b a = false.

(** The names of the entries of a response of [GET], in its order. *)
Definition listed_names (r : WorkspacesRoute.ListResponse) : list string :=
  match r with
  | WorkspacesRoute.json_stats l => List.map WorkspaceStats.name l
  | WorkspacesRoute.json_workspaces l => List.map Workspace.name l
  end.

(** ** The board (the [MissionQueue] component) *)

Module MissionQueue.

(** The [id]s of [COLUMNS], in order. *)
Definition COLUMNS : list TaskStatus :=
  [pending_approval; planning; inbox; assigned; in_progress; testing; review;
   done].

(** [!task.parent_task_id]: an absent and an empty reference are falsy. *)
Definition no_parent (t : Task) : bool :=
  match parent_task_id t with
  | None => true
  | Some p => String.eqb p ""
  end.

(** [task.parent_task_id === parentId] *)
Definition has_parent (parentId : string) (t : Task) : bool :=
  bool_decide (parent_task_id t = Some parentId).

(** [.sort((a, b) => (a.sort_order || 0) - (b.sort_order || 0))]: the sort
    of an array is stable, so [a], which stands before the elements of [l],
    goes before those that do not compare less. *)
Fixpoint sort_insert (a : Task) (l : list Task) : list Task :=
  match l with
  | [] => [a]
  | x :: l' =>
      if sort_order x <? sort_order a then x :: sort_insert a l'
      else a :: x :: l'
  end.

Definition sort_by_sort_order (l : list Task) : list Task :=
  List.fold_right sort_insert [] l.

(** [getSubtasks(parentId)] over the [tasks] of the store. *)
Definition getSubtasks (tasks : list Task) (parentId : string) : list Task :=
  sort_by_sort_order (List.filter (has_parent parentId) tasks).

(** [getTasksByStatus(status)]: the cards of a column. *)
Definition getTasksByStatus (tasks : list Task) (status_ : TaskStatus)
    : list Plan :=
  List.map (fun task => mkPlan task (getSubtasks tasks (id task)))
    (List.filter
       (fun task => bool_decide (status task = status_) && no_parent task)
       tasks).

(** The cards of all columns, column by column. *)
Definition cards (tasks : list Task) : list Plan :=
  List.flat_map (getTasksByStatus tasks) COLUMNS.

End MissionQueue.

(** Tasks in non-decreasing [sort_order]. *)
Definition task_by_sort_order (a b : Task) : Prop :=
  sort_order a <= sort_order b.

(** The task [t] is on the board: it is a card or it is nested in one. *)
Definition on_board (tasks : list Task) (t : Task) : Prop :=
  exists card,
    In card (MissionQueue.cards tasks) /\
    (plan_task card = t \/ In t (plan_subtasks card)).


(** * Properties *)

(** ** The store: queries and updates *)

Lemma has_id_true i (r : TaskRow) : has_id i r = true <-> id r = i.
Proof. unfold has_id. apply String.eqb_eq. Qed.


Lemma is_child_of_true p (r : TaskRow) :
  is_child_of p r = true <-> parent_task_id r = Some p.
Proof.
  unfold is_child_of. destruct (parent_task_id r) as [q|].
  - rewrite String.eqb_eq. split; congruence.
  - split; discriminate.
Qed.

Lemma find_has_id_In i l r :
  List.find (has_id i) l = Some r -> In r l /\ id r = i.
Proof.
  intros H. apply List.find_some in H as [? ?]. split; [assumption|].
  now apply has_id_true.
Qed.

Lemma NoDup_id_eq (l : list TaskRow) x y :
  List.NoDup (List.map id l) -> In x l -> In y l -> id x = id y -> x = y.
Proof.
  induction l as [|a l IH]; simpl; [tauto|].
  intros Hnd Hx Hy Heq. apply List.NoDup_cons_iff in Hnd as [Hna Hnd].
  destruct Hx as [<-|Hx], Hy as [<-|Hy]; auto.
  - exfalso. apply Hna. rewrite Heq. now apply List.in_map.
  - exfalso. apply Hna. rewrite <- Heq. now apply List.in_map.
Qed.

Section Update.

(** An UPDATE that leaves the key and the parent reference alone. *)
Variable f : TaskRow -> TaskRow.
Hypothesis f_id : forall r, id (f r) = id r.
Hypothesis f_parent : forall r, parent_task_id (f r) = parent_task_id r.

Lemma tasks_update_where c d :
  tasks (update_where c f d) =
  List.map (fun r => if c r then f r else r) (tasks d).
Proof. reflexivity. Qed.

Lemma tasks_cascade p d :
  tasks (update_where (is_child_of p) f (update_where (has_id p) f d)) =
  List.map (cascade f p) (tasks d).
Proof. simpl. rewrite List.map_map. reflexivity. Qed.

Lemma has_id_f i r : has_id i (f r) = has_id i r.
Proof. unfold has_id. now rewrite f_id. Qed.

Lemma is_child_of_f p r : is_child_of p (f r) = is_child_of p r.
Proof. unfold is_child_of. now rewrite f_parent. Qed.

Lemma cascade_id p r : id (cascade f p r) = id r.
Proof.
  unfold cascade. destruct (has_id p r), (is_child_of p _);
    rewrite ?f_id; reflexivity.
Qed.

Lemma cascade_parent p r : parent_task_id (cascade f p r) = parent_task_id r.
Proof.
  unfold cascade. destruct (has_id p r), (is_child_of p _);
    rewrite ?f_parent; reflexivity.
Qed.

Lemma cascade_outside p r : in_plan p r = false -> cascade f p r = r.
Proof.
  unfold in_plan, cascade. intros H. apply orb_false_iff in H as [-> ->].
  reflexivity.
Qed.

Lemma cascade_inside p r :
  in_plan p r = true -> cascade f p r = f r \/ cascade f p r = f (f r).
Proof.
  unfold in_plan, cascade. intros H.
  destruct (has_id p r) eqn:Hi.
  - rewrite is_child_of_f. destruct (is_child_of p r); auto.
  - simpl in H. rewrite H. auto.
Qed.

Lemma in_plan_cascade p r : in_plan p (cascade f p r) = in_plan p r.
Proof.
  unfold in_plan, has_id, is_child_of.
  now rewrite cascade_id, cascade_parent.
Qed.

Lemma find_has_id_map (g : TaskRow -> TaskRow) i l :
  (forall r, id (g r) = id r) ->
  List.find (has_id i) (List.map g l) =
  option_map g (List.find (has_id i) l).
Proof.
  intros Hg. induction l as [|a l IH]; simpl; [reflexivity|].
  replace (has_id i (g a)) with (has_id i a)
    by (unfold has_id; now rewrite Hg).
  destruct (has_id i a); [reflexivity|exact IH].
Qed.

Lemma filter_in_plan_cascade p l :
  List.filter (in_plan p) (List.map (cascade f p) l) =
  List.map (cascade f p) (List.filter (in_plan p) l).
Proof.
  induction l as [|a l IH]; simpl; [reflexivity|].
  rewrite in_plan_cascade. destruct (in_plan p a); simpl; now rewrite IH.
Qed.

Lemma filter_child_cascade p l :
  List.filter (is_child_of p) (List.map (cascade f p) l) =
  List.map (cascade f p) (List.filter (is_child_of p) l).
Proof.
  induction l as [|a l IH]; simpl; [reflexivity|].
  replace (is_child_of p (cascade f p a)) with (is_child_of p a)
    by (unfold is_child_of; now rewrite cascade_parent).
  destruct (is_child_of p a); simpl; now rewrite IH.
Qed.

End Update.

Lemma length_insert_by_sort_order r l :
  length (insert_by_sort_order r l) = S (length l).
Proof.
  induction l as [|x l IH]; simpl; [reflexivity|].
  destruct (sort_order r <? sort_order x); simpl; [reflexivity|now rewrite IH].
Qed.

Lemma length_order_by_sort_order l :
  length (order_by_sort_order l) = length l.
Proof.
  induction l as [|x l IH]; simpl; [reflexivity|].
  rewrite length_insert_by_sort_order. now rewrite IH.
Qed.

Lemma In_insert_by_sort_order x r l :
  In x (insert_by_sort_order r l) <-> x = r \/ In x l.
Proof.
  induction l as [|y l IH]; simpl.
  - intuition.
  - destruct (sort_order r <? sort_order y); simpl; [intuition|].
    rewrite IH. intuition.
Qed.

Lemma In_order_by_sort_order x l : In x (order_by_sort_order l) <-> In x l.
Proof.
  induction l as [|y l IH]; simpl; [tauto|].
  rewrite In_insert_by_sort_order, IH. intuition.
Qed.

Lemma In_select_subtasks x p d :
  In x (select_subtasks p d) <-> In x (tasks d) /\ parent_task_id x = Some p.
Proof.
  unfold select_subtasks. rewrite In_order_by_sort_order, List.filter_In.
  now rewrite is_child_of_true.
Qed.

(** A key that is present exactly once selects exactly one row. *)
Lemma filter_has_id_NoDup i l r :
  List.NoDup (List.map id l) -> List.find (has_id i) l = Some r ->
  List.filter (has_id i) l = [r].
Proof.
  induction l as [|a l IH]; simpl; [discriminate|].
  intros Hnd Hf. apply List.NoDup_cons_iff in Hnd as [Hna Hnd].
  destruct (has_id i a) eqn:Ha.
  - injection Hf as <-. f_equal.
    apply has_id_true in Ha.
    destruct (List.filter (has_id i) l) as [|b t] eqn:Hfl; [reflexivity|].
    exfalso. apply Hna.
    assert (Hb : In b (List.filter (has_id i) l)) by (rewrite Hfl; now left).
    apply List.filter_In in Hb as [Hb Hb']. apply has_id_true in Hb'.
    rewrite Ha, <- Hb'. now apply List.in_map.
  - now apply IH.
Qed.

Lemma length_filter_orb (a b : TaskRow -> bool) l :
  (forall x, In x l -> a x = true -> b x = false) ->
  length (List.filter (fun x => a x || b x) l) =
  (length (List.filter a l) + length (List.filter b l))%nat.
Proof.
  induction l as [|x l IH]; simpl; [reflexivity|]. intros H.
  assert (IH' := IH (fun y Hy => H y (or_intror Hy))).
  destruct (a x) eqn:Ha; simpl.
  - rewrite (H x (or_introl eq_refl) Ha). simpl. now rewrite IH'.
  - destruct (b x); simpl; rewrite IH'; lia.
Qed.

(** ** Approve and reject, case by case *)

Lemma set_approved_id now by_ r : id (ApproveRoute.set_approved now by_ r) = id r.
Proof. reflexivity. Qed.

Lemma set_approved_parent now by_ r :
  parent_task_id (ApproveRoute.set_approved now by_ r) = parent_task_id r.
Proof. reflexivity. Qed.

Lemma set_rejected_id now by_ r : id (RejectRoute.set_rejected now by_ r) = id r.
Proof. reflexivity. Qed.

Lemma set_rejected_parent now by_ r :
  parent_task_id (RejectRoute.set_rejected now by_ r) = parent_task_id r.
Proof. reflexivity. Qed.

Lemma approve_statements_tasks id_ now by_ a d :
  tasks (run_statements (ApproveRoute.statements id_ now by_ a) d) =
  List.map (cascade (ApproveRoute.set_approved now by_) id_) (tasks d).
Proof. simpl. rewrite List.map_map. reflexivity. Qed.

Lemma reject_statements_tasks id_ now by_ a reason d :
  tasks (run_statements (RejectRoute.statements id_ now by_ a reason) d) =
  List.map (cascade (RejectRoute.set_rejected now by_) id_) (tasks d).
Proof. simpl. rewrite List.map_map. reflexivity. Qed.

Lemma select_after_approve id_ now by_ a d :
  select_by_id id_ (run_statements (ApproveRoute.statements id_ now by_ a) d) =
  option_map (cascade (ApproveRoute.set_approved now by_) id_)
    (select_by_id id_ d).
Proof.
  unfold select_by_id. rewrite approve_statements_tasks.
  apply find_has_id_map. intros r. now apply cascade_id.
Qed.

Lemma select_after_reject id_ now by_ a reason d :
  select_by_id id_
    (run_statements (RejectRoute.statements id_ now by_ a reason) d) =
  option_map (cascade (RejectRoute.set_rejected now by_) id_)
    (select_by_id id_ d).
Proof.
  unfold select_by_id. rewrite reject_statements_tasks.
  apply find_has_id_map. intros r. now apply cascade_id.
Qed.

(** The three ways [POST /api/plans/[id]/approve] can end. *)
Lemma approve_cases id_ approved_by now uuid w :
  ApproveRoute.POST id_ approved_by now uuid w =
  match select_by_id id_ (db w) with
  | None => (json_error "Task plan not found" 404, w)
  | Some r =>
      if bool_decide (approval_status r = Some pending)
      then approved_world id_ approved_by now uuid w
             (cascade (ApproveRoute.set_approved now
                         (or_str approved_by "human")) id_ r)
      else (json_error "Task plan is not pending approval" 400, w)
  end.
Proof.
  unfold ApproveRoute.POST, try_catch, ApproveRoute.POST_body, bind, db_query.
  destruct (select_by_id id_ (db w)) as [r|] eqn:Hsel; [|reflexivity].
  destruct (bool_decide (approval_status r = Some pending)); [|reflexivity].
  cbn [negb db_run db fst snd].
  pose proof (select_after_approve id_ now (or_str approved_by "human")
                (uuid 0%nat) (db w)) as Hup.
  rewrite Hsel in Hup. cbn [option_map] in Hup.
  unfold run_statements, ApproveRoute.statements in Hup.
  cbn [List.fold_left] in Hup. rewrite Hup.
  reflexivity.
Qed.

(** The three ways [POST /api/plans/[id]/reject] can end. *)
Lemma reject_cases id_ rejected_by reason now uuid w :
  RejectRoute.POST id_ rejected_by reason now uuid w =
  match select_by_id id_ (db w) with
  | None => (json_error "Task plan not found" 404, w)
  | Some r =>
      if bool_decide (approval_status r = Some pending)
      then rejected_world id_ rejected_by reason now uuid w
             (cascade (RejectRoute.set_rejected now
                         (or_str rejected_by "human")) id_ r)
      else (json_error "Task plan is not pending approval" 400, w)
  end.
Proof.
  unfold RejectRoute.POST, try_catch, RejectRoute.POST_body, bind, db_query.
  destruct (select_by_id id_ (db w)) as [r|] eqn:Hsel; [|reflexivity].
  destruct (bool_decide (approval_status r = Some pending)); [|reflexivity].
  cbn [negb db_run db fst snd].
  pose proof (select_after_reject id_ now (or_str rejected_by "human")
                (uuid 0%nat) reason (db w)) as Hup.
  rewrite Hsel in Hup. cbn [option_map] in Hup.
  unfold run_statements, RejectRoute.statements in Hup.
  cbn [List.fold_left] in Hup. rewrite Hup.
  reflexivity.
Qed.

(** A successful approval found a pending task under the given id. *)
Lemma approve_success_inv id_ approved_by now uuid w plan w' :
  ApproveRoute.POST id_ approved_by now uuid w = (json plan, w') ->
  exists r,
    select_by_id id_ (db w) = Some r /\
    approval_status r = Some pending /\
    (json plan, w') =
    approved_world id_ approved_by now uuid w
      (cascade (ApproveRoute.set_approved now (or_str approved_by "human"))
         id_ r).
Proof.
  rewrite approve_cases.
  destruct (select_by_id id_ (db w)) as [r|]; [|discriminate].
  destruct (bool_decide_reflect (approval_status r = Some pending));
    [|discriminate].
  intros <-. exists r. auto.
Qed.

Lemma reject_success_inv id_ rejected_by reason now uuid w plan w' :
  RejectRoute.POST id_ rejected_by reason now uuid w = (json plan, w') ->
  exists r,
    select_by_id id_ (db w) = Some r /\
    approval_status r = Some pending /\
    (json plan, w') =
    rejected_world id_ rejected_by reason now uuid w
      (cascade (RejectRoute.set_rejected now (or_str rejected_by "human"))
         id_ r).
Proof.
  rewrite reject_cases.
  destruct (select_by_id id_ (db w)) as [r|]; [|discriminate].
  destruct (bool_decide_reflect (approval_status r = Some pending));
    [|discriminate].
  intros <-. exists r. auto.
Qed.

Lemma cascade_approved now by_ p r :
  in_plan p r = true ->
  let r' := cascade (ApproveRoute.set_approved now by_) p r in
  approval_status r' = Some approved /\ status r' = inbox /\
  approved_at r' = Some now /\ approved_by r' = Some by_.
Proof.
  intros H.
  destruct (cascade_inside (ApproveRoute.set_approved now by_)
              (set_approved_parent now by_) p r H) as [-> | ->];
    repeat split; reflexivity.
Qed.

Lemma cascade_rejected now by_ p r :
  in_plan p r = true ->
  let r' := cascade (RejectRoute.set_rejected now by_) p r in
  approval_status r' = Some rejected /\ status r' = blocked /\
  approved_at r' = Some now /\ approved_by r' = Some by_.
Proof.
  intros H.
  destruct (cascade_inside (RejectRoute.set_rejected now by_)
              (set_rejected_parent now by_) p r H) as [-> | ->];
    repeat split; reflexivity.
Qed.

Lemma select_in_plan i d r : select_by_id i d = Some r -> in_plan i r = true.
Proof.
  intros H. apply List.find_some in H as [_ H]. unfold in_plan. now rewrite H.
Qed.

(** ** Refused requests and the stamps of a resolution *)

(** C3. [approve] on an id that no task carries answers 404 "Task plan not
    found"; on a task whose approval status is not [pending] it answers 400
    "Task plan is not pending approval". In both cases the world (records,
    push-stream events, socket frames) is returned as it was. Hence a second
    [approve] of a plan that was just approved answers the 400 and leaves
    the world of the first call in place. *)
Theorem approve_failures_leave_world_untouched :
  forall id_ approved_by now uuid w,
    (select_by_id id_ (db w) = None ->
     ApproveRoute.POST id_ approved_by now uuid w =
     (json_error "Task plan not found" 404, w)) /\
    (forall r, select_by_id id_ (db w) = Some r ->
               approval_status r <> Some pending ->
     ApproveRoute.POST id_ approved_by now uuid w =
     (json_error "Task plan is not pending approval" 400, w)) /\
    (forall plan w1,
       ApproveRoute.POST id_ approved_by now uuid w = (json plan, w1) ->
       forall approved_by' now' uuid',
         ApproveRoute.POST id_ approved_by' now' uuid' w1 =
         (json_error "Task plan is not pending approval" 400, w1)).
Proof.
  intros id_ approved_by now uuid w. repeat split.
  - intros Hnone. rewrite approve_cases, Hnone. reflexivity.
  - intros r Hsel Hnp. rewrite approve_cases, Hsel.
    destruct (bool_decide_reflect (approval_status r = Some pending));
      [contradiction|reflexivity].
  - intros plan w1 Hok approved_by' now' uuid'.
    apply approve_success_inv in Hok as (r & Hsel & _ & Hw).
    assert (Hdb : db w1 =
              run_statements
                (ApproveRoute.statements id_ now (or_str approved_by "human")
                   (uuid 0%nat)) (db w))
      by (unfold approved_world in Hw; now inversion Hw).
    rewrite approve_cases, Hdb, select_after_approve, Hsel.
    cbn [option_map].
    destruct (cascade_approved now (or_str approved_by "human") id_ r
                (select_in_plan _ _ _ Hsel)) as (Ha & _).
    rewrite Ha. reflexivity.
Qed.

(** The second approval of "Ship v2" is refused and changes nothing. *)
Lemma approve_failures_leave_world_untouched_witness :
  ApproveRoute.POST "task-0" None "12:00" (ex_uuid "again-") (ex_approved None)
  = (json_error "Task plan is not pending approval" 400, ex_approved None)
  /\ ApproveRoute.POST "nobody" None "12:00" (ex_uuid "x-") (ex_approved None)
     = (json_error "Task plan not found" 404, ex_approved None).
Proof.
  split.
  - destruct (ApproveRoute.POST "task-0" (Some "alice") "11:00"
                (ex_uuid "act-") (ex_created None)) as [resp w1] eqn:E.
    assert (Hw1 : ex_approved None = w1) by (unfold ex_approved; now rewrite E).
    rewrite Hw1.
    assert (Hresp : exists plan, resp = json plan).
    { revert E. rewrite approve_cases. vm_compute. intros E.
      injection E as <- _. eexists. reflexivity. }
    destruct Hresp as [plan ->].
    exact (proj2 (proj2 (approve_failures_leave_world_untouched
                           "task-0" (Some "alice") "11:00" (ex_uuid "act-")
                           (ex_created None))) plan w1 E None "12:00"
             (ex_uuid "again-")).
  - apply (proj1 (approve_failures_leave_world_untouched
                    "nobody" None "12:00" (ex_uuid "x-") (ex_approved None))).
    vm_compute. reflexivity.
Defined.

(** C7. A [createPlan] request whose [subtasks] are missing or empty is
    answered with a 400 (the validation error) and the world is returned as
    it was: no parent row, no child row, no activity, no event on the push
    stream, no frame on any socket. *)
Theorem createPlan_without_subtasks_is_refused :
  forall body now uuid w,
    CreateTaskPlanRequest.subtasks body = None \/
    CreateTaskPlanRequest.subtasks body = Some [] ->
    exists error,
      PlansRoute.POST body now uuid w = (json_error error 400, w) /\
      (error = "At least one subtask is required" \/
       error = "Parent task title is required").
Proof.
  intros body now uuid w Hsub.
  unfold PlansRoute.POST, try_catch, PlansRoute.POST_body.
  destruct (CreateTaskPlanRequest.parent_task body) as [pt|].
  - destruct (String.eqb (CreateTaskRequest.title pt) "").
    + eexists; split; [reflexivity|auto].
    + destruct Hsub as [-> | ->]; eexists; split; try reflexivity; auto.
  - eexists; split; [reflexivity|auto].
Qed.

(** "Ship v2" submitted with an empty subtask list. *)
Lemma createPlan_without_subtasks_is_refused_witness :
  exists error,
    PlansRoute.POST
      (CreateTaskPlanRequest.mk
         (Some (CreateTaskRequest.mk "Ship v2" None None None None None None))
         (Some []) "dev" None)
      "10:00" (ex_uuid "task-") ex_world
    = (json_error error 400, ex_world) /\
    (error = "At least one subtask is required" \/
     error = "Parent task title is required").
Proof.
  apply createPlan_without_subtasks_is_refused. right. reflexivity.
Defined.

(** C10. After a successful [reject] every row of the plan (the task with
    the given id and every task whose parent reference is that id) carries
    the rejecter ([rejected_by], or ['human'] when it is absent) in
    [approved_by] and the time of the call in [approved_at], next to the
    approval status [rejected] and the coarse status [blocked]; the
    response shows the same stamps on the parent and on every subtask. *)
Theorem reject_stamps_parent_and_children :
  forall id_ rejected_by reason now uuid w plan w',
    RejectRoute.POST id_ rejected_by reason now uuid w = (json plan, w') ->
    let by_ := or_str rejected_by "human" in
    (rejected_by = None -> by_ = "human") /\
    (forall s, rejected_by = Some s -> s <> "" -> by_ = s) /\
    (forall r, In r (tasks (db w')) -> in_plan id_ r = true ->
       approved_by r = Some by_ /\ approved_at r = Some now /\
       approval_status r = Some rejected /\ status r = blocked) /\
    (exists p, In p (tasks (db w')) /\ id p = id_) /\
    (forall c, In c (tasks (db w)) -> parent_task_id c = Some id_ ->
       exists c', In c' (tasks (db w')) /\ id c' = id c /\
                  parent_task_id c' = Some id_) /\
    (forall t, t = plan_task plan \/ In t (plan_subtasks plan) ->
       approved_by t = Some by_ /\ approved_at t = Some now).
Proof.
  intros id_ rejected_by reason now uuid w plan w' Hok by_.
  apply reject_success_inv in Hok as (r & Hsel & _ & Hw).
  fold by_ in Hw. unfold rejected_world in Hw.
  set (ss := RejectRoute.statements id_ now by_ (uuid 0%nat) reason) in *.
  assert (Hdb : db w' = run_statements ss (db w)) by now inversion Hw.
  assert (Hplan : plan = plan_result
                           (cascade (RejectRoute.set_rejected now by_) id_ r)
                           (select_subtasks id_ (run_statements ss (db w))))
    by now inversion Hw.
  clear Hw.
  assert (Htasks : tasks (db w') =
                   List.map (cascade (RejectRoute.set_rejected now by_) id_)
                     (tasks (db w)))
    by (rewrite Hdb; apply reject_statements_tasks).
  assert (Hrows : forall x, In x (tasks (db w')) -> in_plan id_ x = true ->
            approved_by x = Some by_ /\ approved_at x = Some now /\
            approval_status x = Some rejected /\ status x = blocked).
  { intros x Hx Hin. rewrite Htasks in Hx.
    apply List.in_map_iff in Hx as (x0 & <- & _).
    rewrite (in_plan_cascade _ (set_rejected_id now by_)
               (set_rejected_parent now by_)) in Hin.
    destruct (cascade_rejected now by_ id_ x0 Hin) as (? & ? & ? & ?). auto. }
  repeat split.
  - intros ->. reflexivity.
  - intros s -> Hs. unfold by_, or_str.
    destruct (String.eqb_spec s ""); [contradiction|reflexivity].
  - apply Hrows; assumption.
  - apply Hrows; assumption.
  - apply Hrows; assumption.
  - apply Hrows; assumption.
  - apply find_has_id_In in Hsel as [Hin Hid].
    exists (cascade (RejectRoute.set_rejected now by_) id_ r). split.
    + rewrite Htasks. now apply List.in_map.
    + now rewrite (cascade_id _ (set_rejected_id now by_)).
  - intros c Hc Hpar.
    exists (cascade (RejectRoute.set_rejected now by_) id_ c). repeat split.
    + rewrite Htasks. now apply List.in_map.
    + now rewrite (cascade_id _ (set_rejected_id now by_)).
    + now rewrite (cascade_parent _ (set_rejected_parent now by_)).
  - destruct H as [-> | Ht]; subst plan; cbn [plan_result plan_task plan_subtasks] in *.
    + apply (cascade_rejected now by_ id_ r (select_in_plan _ _ _ Hsel)).
    + apply List.in_map_iff in Ht as (x & <- & Hx).
      apply In_select_subtasks in Hx as [Hx Hp]. rewrite <- Hdb in Hx.
      apply Hrows; [assumption|].
      unfold in_plan. apply orb_true_iff. right. now apply is_child_of_true.
  - destruct H as [-> | Ht]; subst plan; cbn [plan_result plan_task plan_subtasks] in *.
    + apply (cascade_rejected now by_ id_ r (select_in_plan _ _ _ Hsel)).
    + apply List.in_map_iff in Ht as (x & <- & Hx).
      apply In_select_subtasks in Hx as [Hx Hp]. rewrite <- Hdb in Hx.
      apply Hrows; [assumption|].
      unfold in_plan. apply orb_true_iff. right. now apply is_child_of_true.
Qed.

(** The rejection of "Ship v2" by an anonymous reviewer stamps ['human']. *)
Lemma reject_stamps_parent_and_children_witness :
  exists plan w',
    RejectRoute.POST "task-0" None (Some "scope too broad") "11:00"
      (ex_uuid "act-") (ex_created None) = (json plan, w') /\
    (forall r, In r (tasks (db w')) -> in_plan "task-0" r = true ->
       approved_by r = Some "human" /\ approved_at r = Some "11:00" /\
       approval_status r = Some rejected /\ status r = blocked) /\
    length (plan_subtasks plan) = 2%nat.
Proof.
  destruct (RejectRoute.POST "task-0" None (Some "scope too broad") "11:00"
              (ex_uuid "act-") (ex_created None)) as [resp w'] eqn:E.
  assert (Hresp : exists plan, resp = json plan /\
                               length (plan_subtasks plan) = 2%nat).
  { revert E. vm_compute. intros E. injection E as <- _.
    eexists. split; reflexivity. }
  destruct Hresp as (plan & -> & Hlen).
  exists plan, w'. split; [reflexivity|]. split; [|exact Hlen].
  exact (proj1 (proj2 (proj2
           (reject_stamps_parent_and_children "task-0" None
              (Some "scope too broad") "11:00" (ex_uuid "act-")
              (ex_created None) plan w' E)))).
Defined.

(** C5. Approving a plan (a top-level task under a unique key) that has [k]
    children leaves exactly [k + 1] rows in the plan, all of them with
    approval status [approved] and coarse status [inbox]; the response lists
    the [k] children; every row outside the plan is the row it was, at the
    position it had, and the table has as many rows as before. *)
Theorem approve_resolves_exactly_the_plan :
  forall id_ approved_by now uuid w plan w' r,
    List.NoDup (List.map id (tasks (db w))) ->
    select_by_id id_ (db w) = Some r ->
    parent_task_id r = None ->
    ApproveRoute.POST id_ approved_by now uuid w = (json plan, w') ->
    let k := length (List.filter (is_child_of id_) (tasks (db w))) in
    length (List.filter (fun x => in_plan id_ x && is_approved x)
              (tasks (db w'))) = S k /\
    length (List.filter (in_plan id_) (tasks (db w'))) = S k /\
    length (plan_subtasks plan) = k /\
    length (tasks (db w')) = length (tasks (db w)) /\
    (forall (i : nat) x, List.nth_error (tasks (db w)) i = Some x ->
       in_plan id_ x = false -> List.nth_error (tasks (db w')) i = Some x) /\
    length (List.filter is_approved (tasks (db w'))) =
    (length (List.filter (fun x => negb (in_plan id_ x) && is_approved x)
               (tasks (db w))) + S k)%nat.
Proof.
  intros id_ approved_by now uuid w plan w' r Hnd Hsel Htop Hok k.
  apply approve_success_inv in Hok as (r0 & Hsel0 & _ & Hw).
  rewrite Hsel in Hsel0. injection Hsel0 as <-.
  set (by_ := or_str approved_by "human") in *.
  set (f := ApproveRoute.set_approved now by_) in *.
  unfold approved_world in Hw. fold by_ in Hw.
  set (ss := ApproveRoute.statements id_ now by_ (uuid 0%nat)) in *.
  assert (Hdb : db w' = run_statements ss (db w)) by now inversion Hw.
  assert (Hplan : plan = plan_result (cascade f id_ r)
                           (select_subtasks id_ (run_statements ss (db w))))
    by now inversion Hw.
  clear Hw.
  assert (Htasks : tasks (db w') = List.map (cascade f id_) (tasks (db w)))
    by (rewrite Hdb; apply approve_statements_tasks).
  assert (Hfid : forall x, id (f x) = id x) by reflexivity.
  assert (Hfpar : forall x, parent_task_id (f x) = parent_task_id x)
    by reflexivity.
  (* the plan has k + 1 rows *)
  assert (Hcount : length (List.filter (in_plan id_) (tasks (db w))) = S k).
  { unfold in_plan. rewrite length_filter_orb.
    - rewrite (filter_has_id_NoDup id_ _ r Hnd Hsel). reflexivity.
    - intros x Hx Hid. apply has_id_true in Hid.
      destruct (find_has_id_In _ _ _ Hsel) as [Hr Hrid].
      assert (x = r) by (apply (NoDup_id_eq _ _ _ Hnd Hx Hr); congruence).
      subst x. unfold is_child_of. now rewrite Htop. }
  assert (Hall : forall l,
            List.filter (fun x => in_plan id_ x && is_approved x)
              (List.map (cascade f id_) l) =
            List.filter (in_plan id_) (List.map (cascade f id_) l)).
  { intros l. apply List.filter_ext_in. intros x Hx.
    apply List.in_map_iff in Hx as (x0 & <- & _).
    destruct (in_plan id_ (cascade f id_ x0)) eqn:Hin; [|reflexivity].
    rewrite (in_plan_cascade f Hfid Hfpar) in Hin.
    destruct (cascade_approved now by_ id_ x0 Hin) as (Ha & Hs & _).
    fold f in Ha, Hs. unfold is_approved. rewrite Ha, Hs. reflexivity. }
  assert (Hin' : length (List.filter (in_plan id_) (tasks (db w'))) = S k).
  { rewrite Htasks, (filter_in_plan_cascade f Hfid Hfpar), List.length_map.
    exact Hcount. }
  repeat split.
  - rewrite Htasks, Hall, <- Htasks. exact Hin'.
  - exact Hin'.
  - subst plan. cbn [plan_result plan_subtasks].
    rewrite List.length_map. unfold select_subtasks.
    rewrite length_order_by_sort_order, <- Hdb, Htasks.
    rewrite (filter_child_cascade f Hfpar), List.length_map. reflexivity.
  - rewrite Htasks. apply List.length_map.
  - intros i x Hi Hout. rewrite Htasks, List.nth_error_map, Hi.
    cbn [option_map]. now rewrite cascade_outside.
  - rewrite <- Hin', Htasks.
    generalize (tasks (db w)). intros l.
    induction l as [|a l IH]; [reflexivity|].
    cbn [List.map List.filter].
    rewrite (in_plan_cascade f Hfid Hfpar).
    destruct (in_plan id_ a) eqn:Hin.
    + destruct (cascade_approved now by_ id_ a Hin) as (Ha & Hs & _).
      fold f in Ha, Hs. unfold is_approved at 1. rewrite Ha, Hs.
      cbn [negb andb bool_decide decide_rel]. simpl length. rewrite IH.
      simpl. lia.
    + rewrite (cascade_outside f id_ a Hin). cbn [negb andb].
      destruct (is_approved a); simpl length; rewrite IH; simpl; lia.
Qed.

(** Approving "Ship v2" (two subtasks) resolves three rows. *)
Lemma approve_resolves_exactly_the_plan_witness :
  exists plan w',
    ApproveRoute.POST "task-0" (Some "alice") "11:00" (ex_uuid "act-")
      (ex_created None) = (json plan, w') /\
    length (List.filter (fun x => in_plan "task-0" x && is_approved x)
              (tasks (db w'))) = 3%nat /\
    length (plan_subtasks plan) = 2%nat.
Proof.
  destruct (ApproveRoute.POST "task-0" (Some "alice") "11:00" (ex_uuid "act-")
              (ex_created None)) as [resp w'] eqn:E.
  assert (Hresp : exists plan, resp = json plan).
  { revert E. vm_compute. intros E. injection E as <- _. eexists. reflexivity. }
  destruct Hresp as (plan & ->).
  exists plan, w'. split; [reflexivity|].
  assert (Hnd : List.NoDup (List.map id (tasks (db (ex_created None))))).
  { vm_compute. repeat constructor; simpl; intuition discriminate. }
  assert (Hsel : exists r, select_by_id "task-0" (db (ex_created None)) = Some r
                           /\ parent_task_id r = None).
  { vm_compute. eexists. split; reflexivity. }
  destruct Hsel as (r & Hsel & Htop).
  pose proof (approve_resolves_exactly_the_plan "task-0" (Some "alice") "11:00"
                (ex_uuid "act-") (ex_created None) plan w' r Hnd Hsel Htop E)
    as (H1 & _ & H3 & _).
  split; [exact H1 | exact H3].
Defined.

(** ** Creating a plan *)

Lemma existsb_has_id_false i (l : list TaskRow) :
  ~ In i (List.map id l) -> List.existsb (has_id i) l = false.
Proof.
  intros H. destruct (List.existsb (has_id i) l) eqn:E; [|reflexivity].
  exfalso. apply H. apply List.existsb_exists in E as (x & Hx & Hid).
  apply has_id_true in Hid. subst i. now apply List.in_map.
Qed.

Lemma existsb_has_id_true i (l : list TaskRow) :
  In i (List.map id l) -> List.existsb (has_id i) l = true.
Proof.
  intros H. apply List.in_map_iff in H as (x & Hid & Hx).
  apply List.existsb_exists. exists x. split; [assumption|].
  now apply has_id_true.
Qed.

(** With fresh, pairwise distinct draws the loop inserts every subtask. *)
Lemma create_subtasks_fresh agent_id now uuid parentId workspaceId rest :
  forall i w,
    (forall j, (i < j <= i + length rest)%nat ->
               ~ In (uuid j) (List.map id (tasks (db w)))) ->
    (forall j j', (i < j)%nat -> (j < j')%nat -> (j' <= i + length rest)%nat ->
                  uuid j <> uuid j') ->
    PlansRoute.create_subtasks agent_id now uuid parentId workspaceId i rest w =
    (Return (subtask_objects agent_id now uuid parentId workspaceId i rest),
     mkWorld
       (mkDb (tasks (db w)
              ++ subtask_rows agent_id now uuid parentId workspaceId i rest)
             (task_activities (db w)))
       (events w) (wsServer w)
       (commit_inserts
          (subtask_rows agent_id now uuid parentId workspaceId i rest)
          (db w) (commits w))).
Proof.
  induction rest as [|s rest IH]; intros i w Hfresh Hdist.
  - cbn. rewrite List.app_nil_r. destruct w as [[? ?] ? ? ?]. reflexivity.
  - cbn [PlansRoute.create_subtasks subtask_rows subtask_objects].
    unfold bind at 1. unfold db_insert_task, insert_task.
    cbn [id PlansRoute.subtask_row].
    rewrite existsb_has_id_false
      by (apply Hfresh; cbn [length]; lia).
    unfold bind.
    rewrite IH.
    + cbn [db tasks task_activities events wsServer commits commit_inserts].
      unfold ret. rewrite <- List.app_assoc. reflexivity.
    + intros j Hj. cbn [db tasks]. rewrite List.map_app, List.in_app_iff.
      cbn [length] in *. intros [Hin | Hin].
      * apply (Hfresh j); [lia | exact Hin].
      * cbn in Hin. destruct Hin as [Heq | []].
        apply (Hdist (S i) j); [lia | lia | lia | exact Heq].
    + intros j j' H1 H2 H3. cbn [length] in *. apply Hdist; lia.
Qed.

Lemma nth_error_subtask_rows agent_id now uuid parentId workspaceId rest :
  forall i j,
    List.nth_error
      (subtask_rows agent_id now uuid parentId workspaceId i rest) j =
    option_map
      (PlansRoute.subtask_row agent_id now uuid parentId workspaceId (i + j))
      (List.nth_error rest j).
Proof.
  induction rest as [|s rest IH]; intros i [|j]; cbn; try reflexivity.
  - now rewrite Nat.add_0_r.
  - rewrite IH. now rewrite Nat.add_succ_r.
Qed.

Lemma nth_error_subtask_objects agent_id now uuid parentId workspaceId rest :
  forall i j,
    List.nth_error
      (subtask_objects agent_id now uuid parentId workspaceId i rest) j =
    option_map
      (PlansRoute.subtask_object agent_id now uuid parentId workspaceId (i + j))
      (List.nth_error rest j).
Proof.
  induction rest as [|s rest IH]; intros i [|j]; cbn; try reflexivity.
  - now rewrite Nat.add_0_r.
  - rewrite IH. now rewrite Nat.add_succ_r.
Qed.

Lemma length_subtask_rows agent_id now uuid parentId workspaceId rest :
  forall i,
    length (subtask_rows agent_id now uuid parentId workspaceId i rest) =
    length rest.
Proof. induction rest; intros i; cbn; [reflexivity|now rewrite IHrest]. Qed.

Lemma length_subtask_objects agent_id now uuid parentId workspaceId rest :
  forall i,
    length (subtask_objects agent_id now uuid parentId workspaceId i rest) =
    length rest.
Proof. induction rest; intros i; cbn; [reflexivity|now rewrite IHrest]. Qed.

(** C6. A [createPlan] call with a titled parent, a non-empty list of
    subtasks and fresh identifiers answers with the plan and appends the
    parent row followed by one row per subtask, in the submitted order.
    Parent and children have approval status [pending] and coarse status
    [pending_approval]; the child at index [i] has the parent's fresh id as
    its parent reference and position [i]; the tags of every record are
    ['agentic'] followed by the caller's tags. The objects of the response
    show the same. *)
Theorem createPlan_records_are_pending_ordered_and_tagged :
  forall body now uuid w parent_task subtasks,
    CreateTaskPlanRequest.parent_task body = Some parent_task ->
    CreateTaskRequest.title parent_task <> "" ->
    CreateTaskPlanRequest.subtasks body = Some subtasks ->
    subtasks <> [] ->
    (forall j, (j <= length subtasks)%nat ->
               ~ In (uuid j) (List.map id (tasks (db w)))) ->
    (forall j j', (j < j')%nat -> (j' <= length subtasks)%nat ->
                  uuid j <> uuid j') ->
    exists plan w' parentRow childRows,
      PlansRoute.POST body now uuid w = (json plan, w') /\
      tasks (db w') = (tasks (db w) ++ parentRow :: childRows)%list /\
      created_as (uuid 0%nat) None 0
        (Some (JSON_stringify (agentic_tags parent_task))) parentRow /\
      length childRows = length subtasks /\
      (forall i subtask, List.nth_error subtasks i = Some subtask ->
         exists c, List.nth_error childRows i = Some c /\
           created_as (uuid (S i)) (Some (uuid 0%nat)) (Z.of_nat i)
             (Some (JSON_stringify (agentic_tags subtask))) c) /\
      created_as (uuid 0%nat) None 0 (TagsArray (agentic_tags parent_task))
        (plan_task plan) /\
      length (plan_subtasks plan) = length subtasks /\
      (forall i subtask, List.nth_error subtasks i = Some subtask ->
         exists c, List.nth_error (plan_subtasks plan) i = Some c /\
           created_as (uuid (S i)) (Some (uuid 0%nat)) (Z.of_nat i)
             (TagsArray (agentic_tags subtask)) c).
Proof.
  intros body now uuid w pt subs Hpt Htitle Hsubs Hne Hfresh Hdist.
  unfold PlansRoute.POST, try_catch, PlansRoute.POST_body.
  rewrite Hpt, Hsubs.
  destruct (String.eqb_spec (CreateTaskRequest.title pt) "") as [|_];
    [contradiction|].
  destruct subs as [|s0 subs0] eqn:Esubs; [contradiction|].
  rewrite <- Esubs in *. clear Hne.
  set (ws_ := or_str (CreateTaskRequest.workspace_id pt) "default").
  set (ag := CreateTaskPlanRequest.agent_id body).
  set (sk := CreateTaskPlanRequest.session_key body).
  unfold bind at 1. unfold db_insert_task, insert_task.
  cbn [id PlansRoute.parent_row].
  rewrite existsb_has_id_false by (apply Hfresh; lia).
  unfold bind at 1.
  rewrite create_subtasks_fresh.
  - unfold bind, db_run, broadcastEvent, ret.
    cbn [db tasks task_activities events wsServer insert_activity].
    eexists _, _, _, _. split; [reflexivity|].
    cbn [db tasks plan_task plan_subtasks].
    split; [rewrite <- List.app_assoc; reflexivity|].
    split; [repeat split|].
    split; [apply length_subtask_rows|].
    split.
    { intros i sub Hi. rewrite nth_error_subtask_rows, Hi. cbn [option_map].
      eexists. split; [reflexivity|]. repeat split. }
    split; [repeat split|].
    split; [apply length_subtask_objects|].
    intros i sub Hi. rewrite nth_error_subtask_objects, Hi. cbn [option_map].
    eexists. split; [reflexivity|]. repeat split.
  - intros j Hj. cbn [db tasks]. rewrite List.map_app, List.in_app_iff.
    intros [Hin | Hin].
    + apply (Hfresh j); [lia | exact Hin].
    + cbn in Hin. destruct Hin as [Heq | []].
      apply (Hdist 0%nat j); [lia | lia | exact Heq].
  - intros j j' H1 H2 H3. apply Hdist; lia.
Qed.

(** "Ship v2" with "Write tests" and "Update docs" on an empty store. *)
Lemma createPlan_records_are_pending_ordered_and_tagged_witness :
  exists plan w' parentRow c0 c1,
    PlansRoute.POST (ship_v2 None) "10:00" (ex_uuid "task-") ex_world
    = (json plan, w') /\
    tasks (db w') = [parentRow; c0; c1] /\
    created_as "task-0" None 0 (Some (JSON_stringify ["agentic"])) parentRow /\
    created_as "task-1" (Some "task-0") 0
      (Some (JSON_stringify ["agentic"])) c0 /\
    created_as "task-2" (Some "task-0") 1
      (Some (JSON_stringify ["agentic"; "docs"])) c1.
Proof.
  destruct (createPlan_records_are_pending_ordered_and_tagged
              (ship_v2 None) "10:00" (ex_uuid "task-") ex_world
              (CreateTaskRequest.mk "Ship v2" None None None None None None)
              [CreateTaskRequest.mk "Write tests" None None None None None None;
               CreateTaskRequest.mk "Update docs" None None None None
                 (Some ["docs"]) None])
    as (plan & w' & parentRow & childRows & Hpost & Htasks & Hparent & Hlen
        & Hchild & _).
  - reflexivity.
  - discriminate.
  - reflexivity.
  - discriminate.
  - intros j _ [].
  - intros j j' Hlt Hle.
    assert (Hj : (j' = 1 \/ j' = 2)%nat) by (cbn in Hle; lia).
    destruct Hj as [-> | ->].
    + assert (j = 0%nat) by lia. subst j. vm_compute. discriminate.
    + assert (Hj : (j = 0 \/ j = 1)%nat) by lia.
      destruct Hj as [-> | ->]; vm_compute; discriminate.
  - destruct (Hchild 0%nat _ eq_refl) as (c0 & Hc0 & Hp0).
    destruct (Hchild 1%nat _ eq_refl) as (c1 & Hc1 & Hp1).
    destruct childRows as [|x0 [|x1 [|x2 rest]]]; try discriminate Hlen.
    cbn in Hc0, Hc1. injection Hc0 as ->. injection Hc1 as ->.
    exists plan, w', parentRow, c0, c1.
    repeat split; try assumption; try apply Hparent; try apply Hp0;
      try apply Hp1.
Defined.

(** ** The invariant of the plan handlers *)


Section Cascade.

Variable f : TaskRow -> TaskRow.
Hypothesis f_id : forall r, id (f r) = id r.
Hypothesis f_parent : forall r, parent_task_id (f r) = parent_task_id r.
Hypothesis f_const : forall r r',
  approval_status (f r) = approval_status (f r') /\
  status (f r) = status (f r').



End Cascade.










(** ** Statement by statement *)

Section Writes.

Variable f : TaskRow -> TaskRow.
Variable resolved : TaskRow -> bool.
Variable a : TaskActivity.
Variable id_ : string.
Hypothesis f_id : forall r, id (f r) = id r.
Hypothesis f_parent : forall r, parent_task_id (f r) = parent_task_id r.
Hypothesis f_resolved : forall r, resolved (f r) = true.

Lemma writes_committed_one_by_one ss w w' :
  ss = [ update_where (has_id id_) f; update_where (is_child_of id_) f;
         insert_activity a ] ->
  commits w' = commit_all ss (db w) (commits w) ->
  db w' = run_statements ss (db w) ->
  committed_one_by_one ss resolved id_ w w'.
Proof.
  intros Hss. subst ss.
  set (ss := [ update_where (has_id id_) f; update_where (is_child_of id_) f;
               insert_activity a ]).
  intros Hc Hdb. unfold ss in Hc. cbn [commit_all] in Hc.
  rewrite <- !List.app_assoc in Hc. cbn [List.app] in Hc.
  split; [exact Hdb|]. split; [exact Hc|].
  split; [reflexivity|]. split; [now rewrite Hdb|]. split; [|split].
  - intros x Hx Hid. cbn in Hx. apply List.in_map_iff in Hx as (x0 & Hx0 & _).
    destruct (has_id id_ x0) eqn:E.
    + subst x. apply f_resolved.
    + subst x. congruence.
  - intros i x Hi Hid. cbn. rewrite List.nth_error_map, Hi. cbn.
    now rewrite Hid.
  - intros n x Hn Hx Hin.
    assert (Ht : tasks (crash_after n ss (db w)) =
                 List.map (cascade f id_) (tasks (db w))).
    { destruct n as [|[|[|n]]]; try lia;
        unfold crash_after, run_statements, ss;
        cbn [List.firstn]; rewrite ?List.firstn_nil;
        cbn [List.fold_left tasks update_where insert_activity];
        now rewrite List.map_map. }
    rewrite Ht in Hx. apply List.in_map_iff in Hx as (x0 & <- & _).
    rewrite (in_plan_cascade f f_id f_parent) in Hin.
    destruct (cascade_inside f f_parent id_ x0 Hin) as [-> | ->];
      apply f_resolved.
Qed.

End Writes.

(** C1, as the handlers have it. A successful [approve] or [reject] issues
    the update of the parent, the update of the children and the activity
    record as three statements, each committed on its own, parent first:
    the journal grows by three states. When all have run the parent and
    every child are resolved together; the state committed by the first
    statement has the parent resolved and every other row, the children
    included, as it was. *)
Theorem plan_writes_are_separate_commits :
  (forall id_ approved_by now uuid w plan w',
     ApproveRoute.POST id_ approved_by now uuid w = (json plan, w') ->
     committed_one_by_one
       (ApproveRoute.statements id_ now (or_str approved_by "human")
          (uuid 0%nat))
       is_approved id_ w w') /\
  (forall id_ rejected_by reason now uuid w plan w',
     RejectRoute.POST id_ rejected_by reason now uuid w = (json plan, w') ->
     committed_one_by_one
       (RejectRoute.statements id_ now (or_str rejected_by "human")
          (uuid 0%nat) reason)
       is_rejected id_ w w').
Proof.
  split.
  - intros id_ approved_by now uuid w plan w' Hok.
    apply approve_success_inv in Hok as (r & _ & _ & Hw).
    unfold approved_world in Hw.
    eapply (writes_committed_one_by_one
              (ApproveRoute.set_approved now (or_str approved_by "human"))
              is_approved _ id_); try reflexivity; now inversion Hw.
  - intros id_ rejected_by reason now uuid w plan w' Hok.
    apply reject_success_inv in Hok as (r & _ & _ & Hw).
    unfold rejected_world in Hw.
    eapply (writes_committed_one_by_one
              (RejectRoute.set_rejected now (or_str rejected_by "human"))
              is_rejected _ id_); try reflexivity; now inversion Hw.
Qed.

(** The approval of "Ship v2", statement by statement. *)
Lemma plan_writes_are_separate_commits_witness :
  exists plan w',
    ApproveRoute.POST "task-0" (Some "alice") "11:00" (ex_uuid "act-")
      (ex_created None) = (json plan, w') /\
    committed_one_by_one
      (ApproveRoute.statements "task-0" "11:00"
         (or_str (Some "alice") "human") (ex_uuid "act-" 0%nat))
      is_approved "task-0" (ex_created None) w'.
Proof.
  destruct (ApproveRoute.POST "task-0" (Some "alice") "11:00" (ex_uuid "act-")
              (ex_created None)) as [resp w'] eqn:E.
  assert (Hresp : exists plan, resp = json plan).
  { revert E. vm_compute. intros E. injection E as <- _. eexists. reflexivity. }
  destruct Hresp as (plan & ->).
  exists plan, w'. split; [reflexivity|].
  exact (proj1 plan_writes_are_separate_commits "task-0" (Some "alice")
           "11:00" (ex_uuid "act-") (ex_created None) plan w' E).
Defined.

(** C1, as stated, fails: the approval of "Ship v2" succeeds, and the first
    state this call commits to the journal has [task-0] approved while its
    child [task-1] is still pending. *)
Lemma plan_writes_single_transaction_counterexample :
  exists plan w' d,
    ApproveRoute.POST "task-0" (Some "alice") "11:00" (ex_uuid "act-")
      (ex_created None) = (json plan, w') /\
    List.nth_error (commits w') (length (commits (ex_created None))) = Some d /\
    torn approved "task-0" d.
Proof.
  remember (ApproveRoute.POST "task-0" (Some "alice") "11:00" (ex_uuid "act-")
              (ex_created None)) as r eqn:E.
  vm_compute in E. subst r.
  eexists _, _, _. split; [reflexivity|]. split; [reflexivity|].
  unfold torn. split; eexists; (split; [|split]).
  - left. reflexivity.
  - reflexivity.
  - reflexivity.
  - right. left. reflexivity.
  - reflexivity.
  - reflexivity.
Qed.

(** ** The socket server *)

Lemma add_all_union xs (S : gset string) :
  add_all xs S = S ∪ list_to_set (or_default xs []).
Proof.
  destruct xs as [l|]; cbn; [|now rewrite (right_id_L ∅ (∪))].
  revert S. induction l as [|x l IH]; intros S; cbn.
  - now rewrite (right_id_L ∅ (∪)).
  - rewrite IH. now rewrite (assoc_L (∪)).
Qed.

Lemma delete_all_difference xs (S : gset string) :
  delete_all xs S = S ∖ list_to_set (or_default xs []).
Proof.
  destruct xs as [l|]; cbn; [|now rewrite difference_empty_L].
  revert S. induction l as [|x l IH]; intros S; cbn.
  - now rewrite difference_empty_L.
  - rewrite IH. now rewrite difference_difference_l_L.
Qed.

Lemma readyState_send sock m : readyState (send sock m) = readyState sock.
Proof. unfold send. destruct (decide _); reflexivity. Qed.

Lemma handleMessage_filter c m :
  subscribedWorkspaces (handleMessage c m) =
  filter_step (subscribedWorkspaces c) m.
Proof.
  destruct m as [[p|] | [p|] | ?]; cbn; try reflexivity.
  - apply add_all_union.
  - apply delete_all_difference.
Qed.

Lemma handleMessage_readyState c m :
  readyState (ws (handleMessage c m)) = readyState (ws c).
Proof.
  destruct m as [[p|] | [p|] | ?]; cbn; try reflexivity.
  apply readyState_send.
Qed.

Lemma on_messages_registered clientId msgs :
  forall s c0,
    clients s !! clientId = Some c0 ->
    clients (on_messages clientId msgs s) !! clientId =
    Some (List.fold_left handleMessage msgs c0).
Proof.
  induction msgs as [|m msgs IH]; intros s c0 Hc0; cbn; [exact Hc0|].
  apply IH. unfold on_message. rewrite Hc0. cbn.
  apply lookup_insert_eq.
Qed.

Lemma fold_handleMessage_filter msgs :
  forall c0,
    subscribedWorkspaces (List.fold_left handleMessage msgs c0) =
    workspace_filter_after msgs (subscribedWorkspaces c0) /\
    readyState (ws (List.fold_left handleMessage msgs c0)) =
    readyState (ws c0).
Proof.
  induction msgs as [|m msgs IH]; intros c0; cbn; [split; reflexivity|].
  destruct (IH (handleMessage c0 m)) as [-> ->].
  now rewrite handleMessage_filter, handleMessage_readyState.
Qed.

Lemma matches_workspace_spec workspaceId c :
  matches_workspace workspaceId c = true <->
  workspaceId ∈ subscribedWorkspaces c \/ "*" ∈ subscribedWorkspaces c.
Proof.
  unfold matches_workspace.
  rewrite orb_true_iff, !bool_decide_eq_true. reflexivity.
Qed.

Lemma broadcastToWorkspace_lookup workspaceId m s clientId :
  clients (broadcastToWorkspace workspaceId m s).1 !! clientId =
  (fun c => if matches_workspace workspaceId c then send_client c m else c)
    <$> clients s !! clientId.
Proof. cbn. apply lookup_fmap. Qed.

Lemma app_singleton_neq {A : Type} (l : list A) x : l <> (l ++ [x])%list.
Proof.
  intros H. apply (f_equal (@length A)) in H.
  rewrite List.length_app in H. cbn in H. lia.
Qed.

(** C8. Let a registered connection receive any sequence of inbound frames.
    It stays registered; its workspace filter is the one obtained by
    uniting the workspaces of every [subscribe] and removing those of every
    [unsubscribe], in order. A broadcast scoped to a workspace then selects
    the connection iff that workspace or ["*"] is in the filter, and the
    frame is appended to what its socket was sent iff moreover the socket is
    open; otherwise nothing is sent to it. In particular, when neither the
    workspace nor ["*"] is in the filter, a [plan_update] scoped to the
    workspace leaves the connection as it is, whatever task ids it is
    subscribed to. *)
Theorem workspace_broadcast_follows_the_filter :
  forall (s : MCWebSocketServer) (clientId : string) (c0 : Client)
         (msgs : list ClientMessage) (workspaceId : string) (m : WSMessage),
    clients s !! clientId = Some c0 ->
    let s1 := on_messages clientId msgs s in
    exists c1 c2,
      clients s1 !! clientId = Some c1 /\
      subscribedWorkspaces c1 =
        workspace_filter_after msgs (subscribedWorkspaces c0) /\
      clients (broadcastToWorkspace workspaceId m s1).1 !! clientId = Some c2 /\
      (matches_workspace workspaceId c1 = true <->
       workspaceId ∈ subscribedWorkspaces c1 \/
       "*" ∈ subscribedWorkspaces c1) /\
      (readyState (ws c1) = OPEN ->
       (sent (ws c2) = (sent (ws c1) ++ [m])%list <->
        workspaceId ∈ subscribedWorkspaces c1 \/
        "*" ∈ subscribedWorkspaces c1)) /\
      (sent (ws c2) = (sent (ws c1) ++ [m])%list <->
       readyState (ws c1) = OPEN /\
       (workspaceId ∈ subscribedWorkspaces c1 \/
        "*" ∈ subscribedWorkspaces c1)) /\
      (sent (ws c2) = sent (ws c1) \/
       sent (ws c2) = (sent (ws c1) ++ [m])%list) /\
      (workspaceId ∉ subscribedWorkspaces c1 ->
       "*" ∉ subscribedWorkspaces c1 ->
       forall update now,
         clients (broadcastPlanUpdate update (Some workspaceId) now s1)
           !! clientId = Some c1).
Proof.
  intros s clientId c0 msgs workspaceId m Hc0 s1.
  pose proof (on_messages_registered clientId msgs s c0 Hc0) as Hc1.
  fold s1 in Hc1. set (c1 := List.fold_left handleMessage msgs c0) in *.
  destruct (fold_handleMessage_filter msgs c0) as [Hfilter _]. fold c1 in Hfilter.
  exists c1,
    (if matches_workspace workspaceId c1 then send_client c1 m else c1).
  pose proof (matches_workspace_spec workspaceId c1) as Hspec.
  assert (Hiff : sent (ws (if matches_workspace workspaceId c1
                           then send_client c1 m else c1))
                 = (sent (ws c1) ++ [m])%list <->
                 readyState (ws c1) = OPEN /\
                 (workspaceId ∈ subscribedWorkspaces c1 \/
                  "*" ∈ subscribedWorkspaces c1)).
  { rewrite <- Hspec.
    destruct (matches_workspace workspaceId c1); cbn; unfold send.
    - destruct (decide (readyState (ws c1) = OPEN)) as [Ho | Hn]; cbn.
      + tauto.
      + split; [intros H; now apply app_singleton_neq in H | tauto].
    - split; [intros H; now apply app_singleton_neq in H|].
      intros [_ ?]. discriminate. }
  split; [exact Hc1|]. split; [exact Hfilter|].
  split; [rewrite broadcastToWorkspace_lookup, Hc1; reflexivity|].
  split; [exact Hspec|].
  split; [tauto|]. split; [exact Hiff|]. split.
  - destruct (matches_workspace workspaceId c1); cbn; [|now left].
    unfold send. destruct (decide _); cbn; auto.
  - intros Hw Hstar update now. unfold broadcastPlanUpdate. cbn [or_default].
    rewrite broadcastToWorkspace_lookup, Hc1. cbn.
    destruct Hspec as [Hsel _].
    destruct (matches_workspace workspaceId c1); [|reflexivity].
    destruct (Hsel eq_refl); contradiction.
Qed.

(** [client_2], whose filter is ["w2"], subscribes to the task [t1]; a
    [plan_update] scoped to ['default'] is not sent to it. *)
Lemma workspace_broadcast_follows_the_filter_witness :
  exists c0 c1 c2,
    clients ex_server !! "client_2" = Some c0 /\
    clients (on_messages "client_2" [ex_subscribe_t1] ex_server) !! "client_2"
    = Some c1 /\
    clients (broadcastToWorkspace "default" ex_plan_update
               (on_messages "client_2" [ex_subscribe_t1] ex_server)).1
      !! "client_2" = Some c2 /\
    readyState (ws c1) = OPEN /\
    sent (ws c2) = sent (ws c1).
Proof.
  assert (H0 : exists c0,
             clients ex_server !! "client_2" = Some c0 /\
             readyState (ws c0) = OPEN /\
             ("default" ∉ workspace_filter_after [ex_subscribe_t1]
                            (subscribedWorkspaces c0)) /\
             ("*" ∉ workspace_filter_after [ex_subscribe_t1]
                      (subscribedWorkspaces c0))).
  { eexists. split; [vm_compute; reflexivity|].
    split; [reflexivity|].
    split;
      match goal with
      | |- ?x ∉ ?S => apply (bool_decide_eq_false_1 (x ∈ S))
      end; vm_compute; reflexivity. }
  destruct H0 as (c0 & Hc0 & Hopen & Hdef & Hstar).
  destruct (workspace_broadcast_follows_the_filter ex_server "client_2" c0
              [ex_subscribe_t1] "default" ex_plan_update Hc0)
    as (c1 & c2 & Hc1 & Hfilter & Hc2 & _ & _ & Hiff & Hcases & _).
  exists c0, c1, c2. repeat split; try assumption.
  - pose proof (on_messages_registered "client_2" [ex_subscribe_t1]
                  ex_server c0 Hc0) as Hc1'.
    pose proof (proj2 (fold_handleMessage_filter [ex_subscribe_t1] c0)) as Hr.
    congruence.
  - destruct Hcases as [Hsame | Hsent]; [exact Hsame|].
    apply Hiff in Hsent as [_ [Hin | Hin]]; rewrite Hfilter in Hin;
      contradiction.
Defined.

(** ** What is published, and to whom *)

Lemma create_subtasks_publishes_nothing agent_id now uuid parentId workspaceId
    rest :
  forall i w o w',
    PlansRoute.create_subtasks agent_id now uuid parentId workspaceId i rest w
    = (o, w') ->
    wsServer w' = wsServer w /\ events w' = events w.
Proof.
  induction rest as [|s rest IH]; intros i w o w' Hrun.
  - cbn in Hrun. injection Hrun as _ <-. split; reflexivity.
  - cbn [PlansRoute.create_subtasks] in Hrun.
    unfold bind at 1 in Hrun. unfold db_insert_task in Hrun.
    destruct (insert_task _ (db w)) as [d|].
    + unfold bind in Hrun.
      match type of Hrun with
      | context [PlansRoute.create_subtasks _ _ _ _ _ _ _ ?w1] =>
          destruct (PlansRoute.create_subtasks agent_id now uuid parentId
                      workspaceId (S i) rest w1) as [o1 w2] eqn:Erest
      end.
      apply IH in Erest as [Hws Hev]. cbn in Hws, Hev.
      destruct o1; injection Hrun as _ <-; split; assumption.
    + injection Hrun as _ <-. split; reflexivity.
Qed.

(** [POST /api/plans] never hands a frame to the socket server. *)
Lemma createPlan_leaves_sockets_alone body now uuid w :
  wsServer (PlansRoute.POST body now uuid w).2 = wsServer w.
Proof.
  unfold PlansRoute.POST, try_catch, PlansRoute.POST_body.
  destruct (CreateTaskPlanRequest.parent_task body) as [pt|]; [|reflexivity].
  destruct (String.eqb (CreateTaskRequest.title pt) ""); [reflexivity|].
  destruct (CreateTaskPlanRequest.subtasks body) as [[|s0 subs]|];
    [reflexivity| |reflexivity].
  unfold bind at 1. unfold db_insert_task.
  destruct (insert_task _ (db w)) as [d|]; [|reflexivity].
  unfold bind at 1.
  match goal with
  | |- context [PlansRoute.create_subtasks ?a ?n ?u ?p ?ws ?i ?l ?w1] =>
      destruct (PlansRoute.create_subtasks a n u p ws i l w1)
        as [o1 w2] eqn:Eloop
  end.
  apply create_subtasks_publishes_nothing in Eloop as [Hws _]. cbn in Hws.
  destruct o1; cbn; exact Hws.
Qed.

(** [POST /api/plans/[id]/approve] scopes its socket broadcast to
    ['default'], whatever the workspace of the plan. *)
Lemma approve_broadcasts_to_default id_ approved_by now uuid w plan w' :
  ApproveRoute.POST id_ approved_by now uuid w = (json plan, w') ->
  exists update,
    wsServer w' =
    (broadcastToWorkspace "default"
       (mkWSMessage t_plan_update (PPlanUpdate update) (Some now))
       (wsServer w)).1.
Proof.
  intros Hok. apply approve_success_inv in Hok as (r & _ & _ & Hw).
  unfold approved_world in Hw. eexists. inversion Hw. reflexivity.
Qed.

(** C4, evaluated. "Ship v2" is created in the workspace [w2] and then
    approved. All three rows are in [w2]. The creation publishes one
    [plan_created] event on the push stream and hands nothing to the socket
    server. The approval sends its [plan_update] to [client_1], whose filter
    is ['default'], and nothing to [client_2], whose filter is [w2]. *)
Theorem plan_publishes_miss_the_workspace :
  List.map workspace_id (tasks (db (ex_created (Some "w2"))))
  = ["w2"; "w2"; "w2"] /\
  List.map sse_type (events (ex_created (Some "w2"))) = [plan_created] /\
  wsServer (ex_created (Some "w2")) = ex_server /\
  (exists c1 c2,
     clients ex_server !! "client_1" = Some c1 /\
     clients ex_server !! "client_2" = Some c2 /\
     matches_workspace "w2" c1 = false /\
     matches_workspace "w2" c2 = true /\
     matches_workspace "default" c1 = true /\
     matches_workspace "default" c2 = false) /\
  received "client_2" (wsServer (ex_approved (Some "w2")))
  = received "client_2" ex_server /\
  (exists update,
     received "client_1" (wsServer (ex_approved (Some "w2")))
     = (received "client_1" ex_server
        ++ [mkWSMessage t_plan_update (PPlanUpdate update) (Some "11:00")])%list
     /\ WSPlanUpdate.parent_task_id update = "task-0").
Proof.
  split; [vm_compute; reflexivity|].
  split; [vm_compute; reflexivity|].
  split; [apply createPlan_leaves_sockets_alone|].
  split.
  { assert (H1 : exists c1, clients ex_server !! "client_1" = Some c1 /\
                            matches_workspace "w2" c1 = false /\
                            matches_workspace "default" c1 = true).
    { remember (clients ex_server !! "client_1") as o eqn:E.
      vm_compute in E. subst o. eexists. split; [reflexivity|].
      split; vm_compute; reflexivity. }
    assert (H2 : exists c2, clients ex_server !! "client_2" = Some c2 /\
                            matches_workspace "w2" c2 = true /\
                            matches_workspace "default" c2 = false).
    { remember (clients ex_server !! "client_2") as o eqn:E.
      vm_compute in E. subst o. eexists. split; [reflexivity|].
      split; vm_compute; reflexivity. }
    destruct H1 as (c1 & ? & ? & ?), H2 as (c2 & ? & ? & ?).
    exists c1, c2. auto 10. }
  split; [vm_compute; reflexivity|].
  remember (received "client_1" (wsServer (ex_approved (Some "w2")))) as l
    eqn:El.
  remember (received "client_1" ex_server) as l0 eqn:El0.
  vm_compute in El, El0. subst l l0.
  eexists. split; reflexivity.
Qed.



(** * Further properties of the plan handlers *)

(** X1. [reject] on an id that no task carries answers 404; on a task whose
    approval status is not [pending] it answers 400. In both cases the
    world is returned as it was: no row, activity or journal entry is
    written and nothing is published on either transport. *)
Theorem reject_failures_leave_world_untouched :
  forall id_ rejected_by reason now uuid w,
    (select_by_id id_ (db w) = None ->
     RejectRoute.POST id_ rejected_by reason now uuid w =
     (json_error "Task plan not found" 404, w)) /\
    (forall r, select_by_id id_ (db w) = Some r ->
               approval_status r <> Some pending ->
     RejectRoute.POST id_ rejected_by reason now uuid w =
     (json_error "Task plan is not pending approval" 400, w)).
Proof.
  intros id_ rejected_by reason now uuid w. split.
  - intros Hnone. rewrite reject_cases, Hnone. reflexivity.
  - intros r Hsel Hnp. rewrite reject_cases, Hsel.
    destruct (bool_decide_reflect (approval_status r = Some pending));
      [contradiction|reflexivity].
Qed.

(** Rejecting an unknown id, and rejecting the approved "Ship v2". *)
Lemma reject_failures_leave_world_untouched_witness :
  RejectRoute.POST "nobody" None None "12:00" (ex_uuid "x-") (ex_approved None)
  = (json_error "Task plan not found" 404, ex_approved None) /\
  RejectRoute.POST "task-0" None (Some "late") "12:00" (ex_uuid "x-")
    (ex_approved None)
  = (json_error "Task plan is not pending approval" 400, ex_approved None).
Proof.
  split.
  - apply (proj1 (reject_failures_leave_world_untouched
                    "nobody" None None "12:00" (ex_uuid "x-")
                    (ex_approved None))).
    vm_compute. reflexivity.
  - assert (H : exists r, select_by_id "task-0" (db (ex_approved None)) = Some r
                          /\ approval_status r <> Some pending).
    { remember (select_by_id "task-0" (db (ex_approved None))) as o eqn:E.
      vm_compute in E. subst o. eexists. split; [reflexivity|discriminate]. }
    destruct H as (r & Hsel & Hnp).
    exact (proj2 (reject_failures_leave_world_untouched
                    "task-0" None (Some "late") "12:00" (ex_uuid "x-")
                    (ex_approved None)) r Hsel Hnp).
Defined.

Lemma find_app_Some {A : Type} (P : A -> bool) l l' r :
  List.find P l = Some r -> List.find P (l ++ l') = Some r.
Proof.
  induction l as [|a l IH]; cbn; [discriminate|].
  destruct (P a); [trivial|exact IH].
Qed.

(** Whatever [POST /api/plans] answers, it only appends rows. *)
Lemma create_subtasks_appends agent_id now uuid parentId workspaceId rest :
  forall i w o w',
    PlansRoute.create_subtasks agent_id now uuid parentId workspaceId i rest w
    = (o, w') ->
    exists added, tasks (db w') = (tasks (db w) ++ added)%list.
Proof.
  induction rest as [|s rest IH]; intros i w o w' Hrun.
  - cbn in Hrun. injection Hrun as _ <-. exists []. now rewrite List.app_nil_r.
  - cbn [PlansRoute.create_subtasks] in Hrun.
    unfold bind at 1 in Hrun. unfold db_insert_task, insert_task in Hrun.
    destruct (List.existsb _ (tasks (db w))).
    + injection Hrun as _ <-. exists []. now rewrite List.app_nil_r.
    + unfold bind in Hrun.
      match type of Hrun with
      | context [PlansRoute.create_subtasks _ _ _ _ _ _ _ ?w1] =>
          destruct (PlansRoute.create_subtasks agent_id now uuid parentId
                      workspaceId (S i) rest w1) as [o1 w2] eqn:Erest
      end.
      apply IH in Erest as (added & Hadd). cbn [db tasks] in Hadd.
      rewrite <- List.app_assoc in Hadd.
      destruct o1; injection Hrun as _ <-; eauto.
Qed.

Lemma createPlan_appends body now uuid w :
  exists added,
    tasks (db (PlansRoute.POST body now uuid w).2) =
    (tasks (db w) ++ added)%list.
Proof.
  assert (Hnil : exists added, tasks (db w) = (tasks (db w) ++ added)%list)
    by (exists []; now rewrite List.app_nil_r).
  unfold PlansRoute.POST, try_catch, PlansRoute.POST_body.
  destruct (CreateTaskPlanRequest.parent_task body) as [pt|]; [|exact Hnil].
  destruct (String.eqb (CreateTaskRequest.title pt) ""); [exact Hnil|].
  destruct (CreateTaskPlanRequest.subtasks body) as [[|s0 subs]|];
    [exact Hnil| |exact Hnil].
  unfold bind at 1. unfold db_insert_task, insert_task.
  destruct (List.existsb _ (tasks (db w))); [exact Hnil|].
  unfold bind at 1.
  match goal with
  | |- context [PlansRoute.create_subtasks ?a ?n ?u ?p ?ws ?i ?l ?w1] =>
      destruct (PlansRoute.create_subtasks a n u p ws i l w1)
        as [o1 w2] eqn:Eloop
  end.
  apply create_subtasks_appends in Eloop as (added & Hadd).
  cbn [db tasks] in Hadd. rewrite <- List.app_assoc in Hadd.
  destruct o1; cbn; eauto.
Qed.

Lemma cascade_keeps_settled f p r :
  (forall x, approval_status (f x) <> Some pending) ->
  approval_status r <> Some pending ->
  approval_status (cascade f p r) <> Some pending.
Proof.
  intros Hf Hr. unfold cascade.
  destruct (has_id p r), (is_child_of p _); auto.
Qed.

Lemma select_after_any_approve id_ id2 now by_ a d :
  select_by_id id_ (run_statements (ApproveRoute.statements id2 now by_ a) d) =
  option_map (cascade (ApproveRoute.set_approved now by_) id2)
    (select_by_id id_ d).
Proof.
  unfold select_by_id. rewrite approve_statements_tasks.
  apply find_has_id_map. intros r. now apply cascade_id.
Qed.

Lemma select_after_any_reject id_ id2 now by_ a reason d :
  select_by_id id_
    (run_statements (RejectRoute.statements id2 now by_ a reason) d) =
  option_map (cascade (RejectRoute.set_rejected now by_) id2)
    (select_by_id id_ d).
Proof.
  unfold select_by_id. rewrite reject_statements_tasks.
  apply find_has_id_map. intros r. now apply cascade_id.
Qed.

Lemma settled_preserved id_ o w : settled id_ w -> settled id_ (run_op o w).
Proof.
  intros (r & Hsel & Hnp).
  destruct o as [body now uuid | id2 approved_by now uuid
                | id2 rejected_by reason now uuid]; cbn [run_op].
  - destruct (createPlan_appends body now uuid w) as (added & Hadd).
    exists r. split; [|exact Hnp].
    unfold select_by_id in *. rewrite Hadd. now apply find_app_Some.
  - rewrite approve_cases.
    destruct (select_by_id id2 (db w)) as [r2|]; [|exists r; auto].
    destruct (bool_decide (approval_status r2 = Some pending));
      [|exists r; auto].
    unfold approved_world, settled. cbn [snd db].
    rewrite select_after_any_approve, Hsel. cbn [option_map].
    eexists. split; [reflexivity|].
    apply cascade_keeps_settled; [discriminate|exact Hnp].
  - rewrite reject_cases.
    destruct (select_by_id id2 (db w)) as [r2|]; [|exists r; auto].
    destruct (bool_decide (approval_status r2 = Some pending));
      [|exists r; auto].
    unfold rejected_world, settled. cbn [snd db].
    rewrite select_after_any_reject, Hsel. cbn [option_map].
    eexists. split; [reflexivity|].
    apply cascade_keeps_settled; [discriminate|exact Hnp].
Qed.

Lemma settled_run_ops id_ ops :
  forall w, settled id_ w -> settled id_ (run_ops ops w).
Proof.
  induction ops as [|o ops IH]; intros w Hs; cbn; [exact Hs|].
  apply IH. now apply settled_preserved.
Qed.

Lemma resolves_settled id_ w w1 : resolves id_ w w1 -> settled id_ w1.
Proof.
  intros [(approved_by & now & uuid & plan & Hok)
         | (rejected_by & reason & now & uuid & plan & Hok)].
  - apply approve_success_inv in Hok as (r & Hsel & _ & Hw).
    unfold approved_world in Hw.
    assert (Hdb : db w1 = run_statements
                            (ApproveRoute.statements id_ now
                               (or_str approved_by "human") (uuid 0%nat))
                            (db w)) by now inversion Hw.
    unfold settled. rewrite Hdb, select_after_approve, Hsel. cbn [option_map].
    eexists. split; [reflexivity|].
    destruct (cascade_approved now (or_str approved_by "human") id_ r
                (select_in_plan _ _ _ Hsel)) as (Ha & _).
    rewrite Ha. discriminate.
  - apply reject_success_inv in Hok as (r & Hsel & _ & Hw).
    unfold rejected_world in Hw.
    assert (Hdb : db w1 = run_statements
                            (RejectRoute.statements id_ now
                               (or_str rejected_by "human") (uuid 0%nat)
                               reason)
                            (db w)) by now inversion Hw.
    unfold settled. rewrite Hdb, select_after_reject, Hsel. cbn [option_map].
    eexists. split; [reflexivity|].
    destruct (cascade_rejected now (or_str rejected_by "human") id_ r
                (select_in_plan _ _ _ Hsel)) as (Ha & _).
    rewrite Ha. discriminate.
Qed.

(** X2. A resolution is final. Once an [approve] or a [reject] of an id has
    answered with the plan, every later [approve] and every later [reject]
    of that id is answered with the 400 "Task plan is not pending approval"
    and changes nothing, whatever requests (creations, approvals and
    rejections of any ids) were served in between. *)
Theorem a_resolved_plan_stays_resolved :
  forall id_ w w1 ops,
    resolves id_ w w1 ->
    (forall approved_by now uuid,
       ApproveRoute.POST id_ approved_by now uuid (run_ops ops w1) =
       (json_error "Task plan is not pending approval" 400, run_ops ops w1))
    /\
    (forall rejected_by reason now uuid,
       RejectRoute.POST id_ rejected_by reason now uuid (run_ops ops w1) =
       (json_error "Task plan is not pending approval" 400, run_ops ops w1)).
Proof.
  intros id_ w w1 ops Hres.
  destruct (settled_run_ops id_ ops w1 (resolves_settled _ _ _ Hres))
    as (r & Hsel & Hnp).
  split.
  - intros approved_by now uuid. rewrite approve_cases, Hsel.
    destruct (bool_decide_reflect (approval_status r = Some pending));
      [contradiction|reflexivity].
  - intros rejected_by reason now uuid. rewrite reject_cases, Hsel.
    destruct (bool_decide_reflect (approval_status r = Some pending));
      [contradiction|reflexivity].
Qed.

(** "Ship v2" is approved; a second plan is created and rejected; the
    first plan can then be neither approved nor rejected. *)
Lemma a_resolved_plan_stays_resolved_witness :
  exists w2,
    w2 = run_ops
           [OpCreatePlan (ship_v2 (Some "w2")) "12:00" (ex_uuid "other-");
            OpReject "other-0" None None "13:00" (ex_uuid "rej-")]
           (ex_approved None) /\
    ApproveRoute.POST "task-0" None "14:00" (ex_uuid "late-") w2 =
    (json_error "Task plan is not pending approval" 400, w2) /\
    RejectRoute.POST "task-0" None None "14:00" (ex_uuid "late-") w2 =
    (json_error "Task plan is not pending approval" 400, w2).
Proof.
  eexists. split; [reflexivity|].
  assert (Hres : resolves "task-0" (ex_created None) (ex_approved None)).
  { left. exists (Some "alice"), "11:00", (ex_uuid "act-").
    unfold ex_approved.
    destruct (ApproveRoute.POST "task-0" (Some "alice") "11:00"
                (ex_uuid "act-") (ex_created None)) as [resp w'] eqn:E.
    assert (Hresp : exists plan, resp = json plan).
    { revert E. vm_compute. intros E. injection E as <- _.
      eexists. reflexivity. }
    destruct Hresp as (plan & ->). exists plan. reflexivity. }
  destruct (a_resolved_plan_stays_resolved "task-0" (ex_created None)
              (ex_approved None)
              [OpCreatePlan (ship_v2 (Some "w2")) "12:00" (ex_uuid "other-");
               OpReject "other-0" None None "13:00" (ex_uuid "rej-")] Hres)
    as [Ha Hr].
  split; [apply Ha | apply Hr].
Defined.

Section Counting.

Variable f : TaskRow -> TaskRow.
Variable resolved : TaskRow -> bool.
Hypothesis f_id : forall r, id (f r) = id r.
Hypothesis f_parent : forall r, parent_task_id (f r) = parent_task_id r.
Hypothesis f_resolved : forall r, resolved (f r) = true.

Lemma cascade_resolved p r : in_plan p r = true -> resolved (cascade f p r) = true.
Proof.
  intros H. destruct (cascade_inside f f_parent p r H) as [-> | ->];
    apply f_resolved.
Qed.

Lemma filter_resolved_cascade p l :
  length (List.filter resolved (List.map (cascade f p) l)) =
  (length (List.filter (fun x => negb (in_plan p x) && resolved x) l)
   + length (List.filter (in_plan p) (List.map (cascade f p) l)))%nat.
Proof.
  induction l as [|a l IH]; [reflexivity|].
  cbn [List.map List.filter].
  rewrite (in_plan_cascade f f_id f_parent).
  destruct (in_plan p a) eqn:Hin.
  - rewrite (cascade_resolved p a Hin). cbn [negb andb length].
    rewrite IH. lia.
  - rewrite (cascade_outside f p a Hin). cbn [negb andb].
    destruct (resolved a); cbn [length]; rewrite IH; lia.
Qed.

(** What the two UPDATEs of a resolution do to a table with unique keys
    when the task they name is top-level. *)
Lemma cascade_counts id_ rows r :
  List.NoDup (List.map id rows) ->
  List.find (has_id id_) rows = Some r ->
  parent_task_id r = None ->
  let rows' := List.map (cascade f id_) rows in
  let k := length (List.filter (is_child_of id_) rows) in
  length (List.filter (fun x => in_plan id_ x && resolved x) rows') = S k /\
  length (List.filter (in_plan id_) rows') = S k /\
  (forall (i : nat) x, List.nth_error rows i = Some x ->
     in_plan id_ x = false -> List.nth_error rows' i = Some x) /\
  length (List.filter resolved rows') =
  (length (List.filter (fun x => negb (in_plan id_ x) && resolved x) rows)
   + S k)%nat.
Proof.
  intros Hnd Hsel Htop rows' k.
  assert (Hcount : length (List.filter (in_plan id_) rows) = S k).
  { unfold in_plan. rewrite length_filter_orb.
    - rewrite (filter_has_id_NoDup id_ _ r Hnd Hsel). reflexivity.
    - intros x Hx Hid. apply has_id_true in Hid.
      destruct (find_has_id_In _ _ _ Hsel) as [Hr Hrid].
      assert (x = r) by (apply (NoDup_id_eq _ _ _ Hnd Hx Hr); congruence).
      subst x. unfold is_child_of. now rewrite Htop. }
  assert (Hin' : length (List.filter (in_plan id_) rows') = S k).
  { unfold rows'.
    rewrite (filter_in_plan_cascade f f_id f_parent), List.length_map.
    exact Hcount. }
  split; [|split; [exact Hin'|split]].
  - rewrite <- Hin'. f_equal. apply List.filter_ext_in. intros x Hx.
    apply List.in_map_iff in Hx as (x0 & <- & _).
    destruct (in_plan id_ (cascade f id_ x0)) eqn:Hin; [|reflexivity].
    rewrite (in_plan_cascade f f_id f_parent) in Hin.
    now rewrite cascade_resolved.
  - intros i x Hi Hout. unfold rows'. rewrite List.nth_error_map, Hi.
    cbn [option_map]. now rewrite cascade_outside.
  - rewrite <- Hin'. apply filter_resolved_cascade.
Qed.

End Counting.

(** X3. Rejecting a plan (a top-level task under a unique key) that has [k]
    children leaves exactly [k + 1] rows in the plan, all of them with
    approval status [rejected] and coarse status [blocked]; the response
    lists the [k] children; every row outside the plan is the row it was,
    at the position it had. *)
Theorem reject_resolves_exactly_the_plan :
  forall id_ rejected_by reason now uuid w plan w' r,
    List.NoDup (List.map id (tasks (db w))) ->
    select_by_id id_ (db w) = Some r ->
    parent_task_id r = None ->
    RejectRoute.POST id_ rejected_by reason now uuid w = (json plan, w') ->
    let k := length (List.filter (is_child_of id_) (tasks (db w))) in
    length (List.filter (fun x => in_plan id_ x && is_rejected x)
              (tasks (db w'))) = S k /\
    length (List.filter (in_plan id_) (tasks (db w'))) = S k /\
    length (plan_subtasks plan) = k /\
    length (tasks (db w')) = length (tasks (db w)) /\
    (forall (i : nat) x, List.nth_error (tasks (db w)) i = Some x ->
       in_plan id_ x = false -> List.nth_error (tasks (db w')) i = Some x) /\
    length (List.filter is_rejected (tasks (db w'))) =
    (length (List.filter (fun x => negb (in_plan id_ x) && is_rejected x)
               (tasks (db w))) + S k)%nat.
Proof.
  intros id_ rejected_by reason now uuid w plan w' r Hnd Hsel Htop Hok k.
  apply reject_success_inv in Hok as (r0 & Hsel0 & _ & Hw).
  set (by_ := or_str rejected_by "human") in *.
  set (f := RejectRoute.set_rejected now by_) in *.
  unfold rejected_world in Hw. fold by_ in Hw.
  set (ss := RejectRoute.statements id_ now by_ (uuid 0%nat) reason) in *.
  assert (Hdb : db w' = run_statements ss (db w)) by now inversion Hw.
  assert (Hplan : plan = plan_result (cascade f id_ r0)
                           (select_subtasks id_ (run_statements ss (db w))))
    by now inversion Hw.
  clear Hw.
  assert (Htasks : tasks (db w') = List.map (cascade f id_) (tasks (db w)))
    by (rewrite Hdb; apply reject_statements_tasks).
  destruct (cascade_counts f is_rejected (set_rejected_id now by_)
              (set_rejected_parent now by_) (fun _ => eq_refl)
              id_ (tasks (db w)) r Hnd Hsel Htop) as (H1 & H2 & H3 & H4).
  rewrite <- Htasks in H1, H2, H3, H4.
  split; [exact H1|]. split; [exact H2|]. split.
  { subst plan. cbn [plan_result plan_subtasks].
    rewrite List.length_map. unfold select_subtasks.
    rewrite length_order_by_sort_order, <- Hdb, Htasks.
    rewrite (filter_child_cascade f (set_rejected_parent now by_)).
    apply List.length_map. }
  split; [rewrite Htasks; apply List.length_map|].
  split; [exact H3|exact H4].
Qed.

(** Rejecting "Ship v2" (two subtasks) blocks three rows. *)
Lemma reject_resolves_exactly_the_plan_witness :
  exists plan w',
    RejectRoute.POST "task-0" None (Some "scope too broad") "11:00"
      (ex_uuid "act-") (ex_created None) = (json plan, w') /\
    length (List.filter (fun x => in_plan "task-0" x && is_rejected x)
              (tasks (db w'))) = 3%nat /\
    length (plan_subtasks plan) = 2%nat.
Proof.
  destruct (RejectRoute.POST "task-0" None (Some "scope too broad") "11:00"
              (ex_uuid "act-") (ex_created None)) as [resp w'] eqn:E.
  assert (Hresp : exists plan, resp = json plan).
  { revert E. vm_compute. intros E. injection E as <- _. eexists. reflexivity. }
  destruct Hresp as (plan & ->).
  exists plan, w'. split; [reflexivity|].
  assert (Hnd : List.NoDup (List.map id (tasks (db (ex_created None))))).
  { vm_compute. repeat constructor; simpl; intuition discriminate. }
  assert (Hsel : exists r, select_by_id "task-0" (db (ex_created None)) = Some r
                           /\ parent_task_id r = None).
  { vm_compute. eexists. split; reflexivity. }
  destruct Hsel as (r & Hsel & Htop).
  pose proof (reject_resolves_exactly_the_plan "task-0" None
                (Some "scope too broad") "11:00" (ex_uuid "act-")
                (ex_created None) plan w' r Hnd Hsel Htop E)
    as (H1 & _ & H3 & _).
  split; [exact H1 | exact H3].
Defined.

(** X4. After a successful [approve] every row of the plan (the task with
    the given id and every task whose parent reference is that id) carries
    the approver ([approved_by], or ['human'] when it is absent or empty)
    in [approved_by], the time of the call in [approved_at] and in
    [updated_at], the approval status [approved] and the coarse status
    [inbox]; the parent and every subtask of the response show the same
    stamps. *)
Theorem approve_stamps_parent_and_children :
  forall id_ approver now uuid w plan w',
    ApproveRoute.POST id_ approver now uuid w = (json plan, w') ->
    let by_ := or_str approver "human" in
    (forall r, In r (tasks (db w')) -> in_plan id_ r = true ->
       approved_by r = Some by_ /\ approved_at r = Some now /\
       updated_at r = now /\
       approval_status r = Some approved /\ status r = inbox) /\
    (forall t, t = plan_task plan \/ In t (plan_subtasks plan) ->
       approved_by t = Some by_ /\ approved_at t = Some now /\
       updated_at t = now /\
       approval_status t = Some approved /\ status t = inbox).
Proof.
  intros id_ approver now uuid w plan w' Hok by_.
  apply approve_success_inv in Hok as (r & Hsel & _ & Hw).
  fold by_ in Hw. unfold approved_world in Hw.
  set (ss := ApproveRoute.statements id_ now by_ (uuid 0%nat)) in *.
  set (f := ApproveRoute.set_approved now by_) in *.
  assert (Hdb : db w' = run_statements ss (db w)) by now inversion Hw.
  assert (Hplan : plan = plan_result (cascade f id_ r)
                           (select_subtasks id_ (run_statements ss (db w))))
    by now inversion Hw.
  clear Hw.
  assert (Htasks : tasks (db w') = List.map (cascade f id_) (tasks (db w)))
    by (rewrite Hdb; apply approve_statements_tasks).
  assert (Hf : forall x, in_plan id_ x = true ->
            approved_by (cascade f id_ x) = Some by_ /\
            approved_at (cascade f id_ x) = Some now /\
            updated_at (cascade f id_ x) = now /\
            approval_status (cascade f id_ x) = Some approved /\
            status (cascade f id_ x) = inbox).
  { intros x Hin.
    destruct (cascade_inside f (set_approved_parent now by_) id_ x Hin)
      as [-> | ->]; repeat split. }
  assert (Hrows : forall x, In x (tasks (db w')) -> in_plan id_ x = true ->
            approved_by x = Some by_ /\ approved_at x = Some now /\
            updated_at x = now /\
            approval_status x = Some approved /\ status x = inbox).
  { intros x Hx Hin. rewrite Htasks in Hx.
    apply List.in_map_iff in Hx as (x0 & <- & _).
    rewrite (in_plan_cascade _ (set_approved_id now by_)
               (set_approved_parent now by_)) in Hin.
    now apply Hf. }
  split; [exact Hrows|].
  intros t [-> | Ht]; subst plan; cbn [plan_result plan_task plan_subtasks] in *.
  - apply (Hf r (select_in_plan _ _ _ Hsel)).
  - apply List.in_map_iff in Ht as (x & <- & Hx).
    apply In_select_subtasks in Hx as [Hx Hp]. rewrite <- Hdb in Hx.
    apply (Hrows x Hx).
    unfold in_plan. apply orb_true_iff. right. now apply is_child_of_true.
Qed.

(** The approval of "Ship v2" by [alice]. *)
Lemma approve_stamps_parent_and_children_witness :
  exists plan w',
    ApproveRoute.POST "task-0" (Some "alice") "11:00" (ex_uuid "act-")
      (ex_created None) = (json plan, w') /\
    (forall r, In r (tasks (db w')) -> in_plan "task-0" r = true ->
       approved_by r = Some "alice" /\ approved_at r = Some "11:00" /\
       updated_at r = "11:00" /\
       approval_status r = Some approved /\ status r = inbox).
Proof.
  destruct (ApproveRoute.POST "task-0" (Some "alice") "11:00" (ex_uuid "act-")
              (ex_created None)) as [resp w'] eqn:E.
  assert (Hresp : exists plan, resp = json plan).
  { revert E. vm_compute. intros E. injection E as <- _. eexists. reflexivity. }
  destruct Hresp as (plan & ->).
  exists plan, w'. split; [reflexivity|].
  exact (proj1 (approve_stamps_parent_and_children "task-0" (Some "alice")
                  "11:00" (ex_uuid "act-") (ex_created None) plan w' E)).
Defined.

Lemma with_tags_parse_raw (r : TaskRow) :
  with_tags tt (row_as_task r) = with_tags tt (parse_tags r).
Proof. reflexivity. Qed.

Lemma approved_world_facts id_ approver now uuid w r plan w' :
  (json plan, w') = approved_world id_ approver now uuid w r ->
  db w' = run_statements
            (ApproveRoute.statements id_ now (or_str approver "human")
               (uuid 0%nat)) (db w) /\
  plan = plan_result r (select_subtasks id_ (db w')) /\
  events w' = (events w ++ [mkSSEEvent plan_approved plan])%list /\
  wsServer w' =
  broadcastPlanUpdate
    (WSPlanUpdate.mk id_ (List.map row_as_task (select_subtasks id_ (db w')))
       st_approved) None now (wsServer w).
Proof.
  unfold approved_world. intros H. inversion H. repeat split; reflexivity.
Qed.

Lemma rejected_world_facts id_ rejecter reason now uuid w r plan w' :
  (json plan, w') = rejected_world id_ rejecter reason now uuid w r ->
  db w' = run_statements
            (RejectRoute.statements id_ now (or_str rejecter "human")
               (uuid 0%nat) reason) (db w) /\
  plan = plan_result r (select_subtasks id_ (db w')) /\
  events w' = (events w ++ [mkSSEEvent plan_rejected plan])%list /\
  wsServer w' =
  broadcastPlanUpdate
    (WSPlanUpdate.mk id_ (List.map row_as_task (select_subtasks id_ (db w')))
       st_rejected) None now (wsServer w).
Proof.
  unfold rejected_world. intros H. inversion H. repeat split; reflexivity.
Qed.

(** X5. The response of a successful [approve] or [reject] is the plan as
    it is stored when the call returns: the parent row under the id and its
    children in [sort_order], tags parsed, as [GET /api/plans] assembles
    them. That response is the payload of the one event the call hands to
    the push stream, and the [plan_update] frame handed to the socket
    server carries the same stored children, in the same order, with the
    status of the resolution. *)
Theorem resolution_response_is_the_stored_plan :
  (forall id_ approver now uuid w plan w',
     ApproveRoute.POST id_ approver now uuid w = (json plan, w') ->
     exists r',
       select_by_id id_ (db w') = Some r' /\ id r' = id_ /\
       plan = PlansRoute.plan_with_subtasks (db w') r' /\
       events w' = (events w ++ [mkSSEEvent plan_approved plan])%list /\
       wsServer w' =
       broadcastPlanUpdate
         (WSPlanUpdate.mk id_
            (List.map row_as_task (select_subtasks id_ (db w'))) st_approved)
         None now (wsServer w)) /\
  (forall id_ rejecter reason now uuid w plan w',
     RejectRoute.POST id_ rejecter reason now uuid w = (json plan, w') ->
     exists r',
       select_by_id id_ (db w') = Some r' /\ id r' = id_ /\
       plan = PlansRoute.plan_with_subtasks (db w') r' /\
       events w' = (events w ++ [mkSSEEvent plan_rejected plan])%list /\
       wsServer w' =
       broadcastPlanUpdate
         (WSPlanUpdate.mk id_
            (List.map row_as_task (select_subtasks id_ (db w'))) st_rejected)
         None now (wsServer w)).
Proof.
  split.
  - intros id_ approver now uuid w plan w' Hok.
    apply approve_success_inv in Hok as (r & Hsel & _ & Hw).
    apply approved_world_facts in Hw as (Hdb & Hplan & Hev & Hws).
    set (f := ApproveRoute.set_approved now (or_str approver "human")) in *.
    assert (Hid : id (cascade f id_ r) = id_).
    { rewrite (cascade_id f (set_approved_id now _)).
      now apply find_has_id_In in Hsel. }
    exists (cascade f id_ r).
    split; [rewrite Hdb, select_after_approve, Hsel; reflexivity|].
    split; [exact Hid|].
    split; [|split; assumption].
    unfold PlansRoute.plan_with_subtasks. rewrite Hid. exact Hplan.
  - intros id_ rejecter reason now uuid w plan w' Hok.
    apply reject_success_inv in Hok as (r & Hsel & _ & Hw).
    apply rejected_world_facts in Hw as (Hdb & Hplan & Hev & Hws).
    set (f := RejectRoute.set_rejected now (or_str rejecter "human")) in *.
    assert (Hid : id (cascade f id_ r) = id_).
    { rewrite (cascade_id f (set_rejected_id now _)).
      now apply find_has_id_In in Hsel. }
    exists (cascade f id_ r).
    split; [rewrite Hdb, select_after_reject, Hsel; reflexivity|].
    split; [exact Hid|].
    split; [|split; assumption].
    unfold PlansRoute.plan_with_subtasks. rewrite Hid. exact Hplan.
Qed.

(** The response of the approval of "Ship v2" is the stored plan. *)
Lemma resolution_response_is_the_stored_plan_witness :
  exists plan w' r',
    ApproveRoute.POST "task-0" (Some "alice") "11:00" (ex_uuid "act-")
      (ex_created None) = (json plan, w') /\
    select_by_id "task-0" (db w') = Some r' /\
    plan = PlansRoute.plan_with_subtasks (db w') r'.
Proof.
  destruct (ApproveRoute.POST "task-0" (Some "alice") "11:00" (ex_uuid "act-")
              (ex_created None)) as [resp w'] eqn:E.
  assert (Hresp : exists plan, resp = json plan).
  { revert E. vm_compute. intros E. injection E as <- _. eexists. reflexivity. }
  destruct Hresp as (plan & ->).
  destruct (proj1 resolution_response_is_the_stored_plan "task-0"
              (Some "alice") "11:00" (ex_uuid "act-") (ex_created None)
              plan w' E) as (r' & Hsel & _ & Hplan & _).
  exists plan, w', r'. auto.
Defined.

Lemma kept_columns_cascade f p r :
  (forall x, kept_columns (f x) = kept_columns x) ->
  kept_columns (cascade f p r) = kept_columns r.
Proof.
  intros Hf. unfold cascade.
  destruct (has_id p r), (is_child_of p _); rewrite ?Hf; reflexivity.
Qed.

(** X6. No request deletes, reorders or re-keys a row. Whatever a
    [createPlan], [approve] or [reject] request answers, the rows present
    before are present after, at their positions and with their id, title,
    description, priority, workspace, parent reference, source, tags,
    position and creation time; [approve] and [reject] add no row, and
    [createPlan] only appends. *)
Theorem requests_keep_the_rows :
  forall o w,
    exists added,
      List.map kept_columns (tasks (db (run_op o w))) =
      (List.map kept_columns (tasks (db w)) ++ List.map kept_columns added)%list
      /\ match o with
         | OpCreatePlan _ _ _ =>
             tasks (db (run_op o w)) = (tasks (db w) ++ added)%list
         | _ => added = []
         end.
Proof.
  intros o w.
  assert (Hsame : exists added : list TaskRow,
             List.map kept_columns (tasks (db w)) =
             (List.map kept_columns (tasks (db w))
              ++ List.map kept_columns added)%list /\ added = []).
  { exists []. cbn. now rewrite List.app_nil_r. }
  destruct o as [body now uuid | id_ approver now uuid
                | id_ rejecter reason now uuid]; cbn [run_op].
  - destruct (createPlan_appends body now uuid w) as (added & Hadd).
    exists added. rewrite Hadd, List.map_app. auto.
  - rewrite approve_cases.
    destruct (select_by_id id_ (db w)) as [r|]; [|exact Hsame].
    destruct (bool_decide (approval_status r = Some pending)); [|exact Hsame].
    unfold approved_world. cbn [snd db]. rewrite approve_statements_tasks.
    exists []. cbn [List.map]. rewrite List.app_nil_r, List.map_map.
    split; [|reflexivity]. apply List.map_ext. intros x.
    now apply kept_columns_cascade.
  - rewrite reject_cases.
    destruct (select_by_id id_ (db w)) as [r|]; [|exact Hsame].
    destruct (bool_decide (approval_status r = Some pending)); [|exact Hsame].
    unfold rejected_world. cbn [snd db]. rewrite reject_statements_tasks.
    exists []. cbn [List.map]. rewrite List.app_nil_r, List.map_map.
    split; [|reflexivity]. apply List.map_ext. intros x.
    now apply kept_columns_cascade.
Qed.

Lemma length_commit_inserts rows :
  forall d c,
    length (commit_inserts rows d c) = (length c + length rows)%nat.
Proof.
  induction rows as [|r rows IH]; intros d c; cbn; [lia|].
  rewrite IH, List.length_app. cbn. lia.
Qed.

(** The world a [createPlan] call with fresh draws leaves behind. *)
Lemma createPlan_success body now uuid w parent_task subtasks :
  CreateTaskPlanRequest.parent_task body = Some parent_task ->
  CreateTaskRequest.title parent_task <> "" ->
  CreateTaskPlanRequest.subtasks body = Some subtasks ->
  subtasks <> [] ->
  (forall j, (j <= length subtasks)%nat ->
             ~ In (uuid j) (List.map id (tasks (db w)))) ->
  (forall j j', (j < j')%nat -> (j' <= length subtasks)%nat ->
                uuid j <> uuid j') ->
  let agent_id := CreateTaskPlanRequest.agent_id body in
  let workspaceId :=
    or_str (CreateTaskRequest.workspace_id parent_task) "default" in
  let parentRow :=
    PlansRoute.parent_row agent_id now (uuid 0%nat) workspaceId
      (CreateTaskPlanRequest.session_key body) parent_task in
  let childRows :=
    subtask_rows agent_id now uuid (uuid 0%nat) workspaceId 0 subtasks in
  let plan :=
    mkPlan
      (PlansRoute.parent_object agent_id now (uuid 0%nat) workspaceId
         (CreateTaskPlanRequest.session_key body) parent_task)
      (subtask_objects agent_id now uuid (uuid 0%nat) workspaceId 0 subtasks) in
  exists w',
    PlansRoute.POST body now uuid w = (json plan, w') /\
    tasks (db w') = (tasks (db w) ++ parentRow :: childRows)%list /\
    task_activities (db w') =
    (task_activities (db w)
     ++ [mkActivity (uuid (S (length subtasks))) (uuid 0%nat) (Some agent_id)
           "spawned"
           ("Agent created task plan with "
            ++ string_of_nat (length subtasks) ++ " subtasks")
           None now])%list /\
    events w' = (events w ++ [mkSSEEvent plan_created plan])%list /\
    wsServer w' = wsServer w /\
    length (commits w') = (length (commits w) + length subtasks + 2)%nat.
Proof.
  intros Hpt Htitle Hsubs Hne Hfresh Hdist. cbv zeta.
  unfold PlansRoute.POST, try_catch, PlansRoute.POST_body.
  rewrite Hpt, Hsubs.
  destruct (String.eqb_spec (CreateTaskRequest.title parent_task) "") as [|_];
    [contradiction|].
  destruct subtasks as [|s0 subs0]; [contradiction|]. clear Hne.
  set (subs := s0 :: subs0) in *.
  unfold bind at 1. unfold db_insert_task, insert_task.
  cbn [id PlansRoute.parent_row].
  rewrite existsb_has_id_false by (apply Hfresh; lia).
  unfold bind at 1.
  rewrite create_subtasks_fresh.
  - unfold bind, db_run, broadcastEvent, ret.
    cbn [db tasks task_activities events wsServer commits insert_activity].
    eexists. split; [reflexivity|].
    cbn [db tasks task_activities events wsServer commits].
    split; [rewrite <- List.app_assoc; reflexivity|].
    split; [reflexivity|]. split; [reflexivity|]. split; [reflexivity|].
    rewrite List.length_app, length_commit_inserts, List.length_app.
    rewrite length_subtask_rows. cbn [length]. lia.
  - intros j Hj. cbn [db tasks]. rewrite List.map_app, List.in_app_iff.
    intros [Hin | Hin].
    + apply (Hfresh j); [lia | exact Hin].
    + cbn in Hin. destruct Hin as [Heq | []].
      apply (Hdist 0%nat j); [lia | lia | exact Heq].
  - intros j j' H1 H2 H3. apply Hdist; lia.
Qed.

(** X7. A [createPlan] call that passes validation with fresh identifiers
    appends exactly one activity record, of type ['spawned'], on the parent
    and by the agent, whose message counts the subtasks; it hands exactly
    one event to the push stream, [plan_created] with the response as
    payload, and nothing to the socket server; and it commits once per row
    and once for the activity, each commit on its own. *)
Theorem createPlan_logs_and_publishes_once :
  forall body now uuid w parent_task subtasks,
    CreateTaskPlanRequest.parent_task body = Some parent_task ->
    CreateTaskRequest.title parent_task <> "" ->
    CreateTaskPlanRequest.subtasks body = Some subtasks ->
    subtasks <> [] ->
    (forall j, (j <= length subtasks)%nat ->
               ~ In (uuid j) (List.map id (tasks (db w)))) ->
    (forall j j', (j < j')%nat -> (j' <= length subtasks)%nat ->
                  uuid j <> uuid j') ->
    exists plan w',
      PlansRoute.POST body now uuid w = (json plan, w') /\
      task_activities (db w') =
      (task_activities (db w)
       ++ [mkActivity (uuid (S (length subtasks))) (uuid 0%nat)
             (Some (CreateTaskPlanRequest.agent_id body)) "spawned"
             ("Agent created task plan with "
              ++ string_of_nat (length subtasks) ++ " subtasks")
             None now])%list /\
      events w' = (events w ++ [mkSSEEvent plan_created plan])%list /\
      wsServer w' = wsServer w /\
      length (commits w') = (length (commits w) + length subtasks + 2)%nat.
Proof.
  intros body now uuid w pt subs Hpt Htitle Hsubs Hne Hfresh Hdist.
  destruct (createPlan_success body now uuid w pt subs Hpt Htitle Hsubs Hne
              Hfresh Hdist) as (w' & Hpost & _ & Hact & Hev & Hws & Hc).
  eexists _, w'. split; [exact Hpost|]. auto.
Qed.

Lemma ex_uuid_task_distinct (j j' : nat) :
  (j < j')%nat -> (j' <= 2)%nat -> ex_uuid "task-" j <> ex_uuid "task-" j'.
Proof.
  intros Hlt Hle.
  assert (Hj : (j' = 1 \/ j' = 2)%nat) by lia.
  destruct Hj as [-> | ->].
  - assert (j = 0%nat) by lia. subst j. vm_compute. discriminate.
  - assert (Hj : (j = 0 \/ j = 1)%nat) by lia.
    destruct Hj as [-> | ->]; vm_compute; discriminate.
Qed.

(** "Ship v2": one activity, one event, four commits. *)
Lemma createPlan_logs_and_publishes_once_witness :
  exists plan w',
    PlansRoute.POST (ship_v2 None) "10:00" (ex_uuid "task-") ex_world
    = (json plan, w') /\
    List.map message (task_activities (db w'))
    = ["Agent created task plan with 2 subtasks"] /\
    events w' = [mkSSEEvent plan_created plan] /\
    length (commits w') = 4%nat.
Proof.
  destruct (createPlan_logs_and_publishes_once
              (ship_v2 None) "10:00" (ex_uuid "task-") ex_world
              (CreateTaskRequest.mk "Ship v2" None None None None None None)
              [CreateTaskRequest.mk "Write tests" None None None None None None;
               CreateTaskRequest.mk "Update docs" None None None None
                 (Some ["docs"]) None])
    as (plan & w' & Hpost & Hact & Hev & _ & Hc).
  - reflexivity.
  - discriminate.
  - reflexivity.
  - discriminate.
  - intros j _ [].
  - apply ex_uuid_task_distinct.
  - exists plan, w'. split; [exact Hpost|].
    split; [rewrite Hact; reflexivity|]. split; [exact Hev|exact Hc].
Defined.

(** The loop stops at the first subtask whose identifier is taken. *)
Lemma create_subtasks_collision agent_id now uuid parentId workspaceId :
  forall (k : nat) rest (i : nat) w,
    (k < length rest)%nat ->
    (forall j, (i < j <= i + k)%nat ->
               ~ In (uuid j) (List.map id (tasks (db w)))) ->
    (forall j j', (i < j)%nat -> (j < j')%nat -> (j' <= i + k)%nat ->
                  uuid j <> uuid j') ->
    (In (uuid (S (i + k))) (List.map id (tasks (db w))) \/
     exists j, (i < j <= i + k)%nat /\ uuid j = uuid (S (i + k))) ->
    exists w',
      PlansRoute.create_subtasks agent_id now uuid parentId workspaceId i rest w
      = (Throw "UNIQUE constraint failed: tasks.id", w') /\
      tasks (db w') =
      (tasks (db w)
       ++ List.firstn k
            (subtask_rows agent_id now uuid parentId workspaceId i rest))%list
      /\ task_activities (db w') = task_activities (db w)
      /\ events w' = events w /\ wsServer w' = wsServer w.
Proof.
  induction k as [|k IH]; intros rest i w Hlen Hfresh Hdist Hcol;
    destruct rest as [|s rest]; cbn [length] in Hlen; try lia.
  - cbn [PlansRoute.create_subtasks]. unfold bind, db_insert_task, insert_task.
    cbn [id PlansRoute.subtask_row].
    rewrite Nat.add_0_r in Hcol.
    destruct Hcol as [Hin | (j & Hj & _)]; [|lia].
    rewrite (existsb_has_id_true _ _ Hin).
    exists w. cbn. rewrite List.app_nil_r. auto.
  - cbn [PlansRoute.create_subtasks]. unfold bind at 1.
    unfold db_insert_task, insert_task. cbn [id PlansRoute.subtask_row].
    rewrite existsb_has_id_false by (apply Hfresh; lia).
    unfold bind.
    match goal with
    | |- context [PlansRoute.create_subtasks _ _ _ _ _ _ _ ?w1] =>
        destruct (IH rest (S i) w1) as (w' & Hrun & Ht & Ha & He & Hs)
    end.
    + lia.
    + intros j Hj. cbn [db tasks]. rewrite List.map_app, List.in_app_iff.
      intros [Hin | Hin].
      * apply (Hfresh j); [lia | exact Hin].
      * cbn in Hin. destruct Hin as [Heq | []].
        apply (Hdist (S i) j); [lia | lia | lia | exact Heq].
    + intros j j' H1 H2 H3. apply Hdist; lia.
    + cbn [db tasks]. rewrite List.map_app, List.in_app_iff.
      replace (S (S i + k)) with (S (i + S k)) by lia.
      destruct Hcol as [Hin | (j & Hj & Heq)]; [auto|].
      destruct (Nat.eq_dec j (S i)) as [-> | Hne].
      * left. right. cbn. left. exact Heq.
      * right. exists j. split; [lia | exact Heq].
    + rewrite Hrun. exists w'. split; [reflexivity|].
      cbn [db tasks task_activities events wsServer] in Ht, Ha, He, Hs.
      split; [|auto].
      rewrite Ht. cbn [subtask_rows List.firstn].
      now rewrite <- List.app_assoc.
Qed.

(** X8. A taken identifier makes [createPlan] fail halfway. If the id drawn
    for the parent is present, the answer is a 500 and the world is as it
    was. If the ids of the parent and of the first [k] subtasks are fresh
    and the id drawn for subtask [k] is taken (by an older row or by a row
    of this very call), the answer is a 500 and the parent and the first
    [k] subtasks stay in the table, in [pending] state, without an activity
    record and without any event published. *)
Theorem createPlan_stops_at_a_taken_id :
  forall body now uuid w parent_task subtasks,
    CreateTaskPlanRequest.parent_task body = Some parent_task ->
    CreateTaskRequest.title parent_task <> "" ->
    CreateTaskPlanRequest.subtasks body = Some subtasks ->
    subtasks <> [] ->
    let agent_id := CreateTaskPlanRequest.agent_id body in
    let workspaceId :=
      or_str (CreateTaskRequest.workspace_id parent_task) "default" in
    (In (uuid 0%nat) (List.map id (tasks (db w))) ->
     PlansRoute.POST body now uuid w =
     (json_error "UNIQUE constraint failed: tasks.id" 500, w)) /\
    (forall k : nat,
       (k < length subtasks)%nat ->
       (forall j, (j <= k)%nat ->
                  ~ In (uuid j) (List.map id (tasks (db w)))) ->
       (forall j j', (j < j')%nat -> (j' <= k)%nat -> uuid j <> uuid j') ->
       (In (uuid (S k)) (List.map id (tasks (db w))) \/
        exists j, (j <= k)%nat /\ uuid j = uuid (S k)) ->
       exists w',
         PlansRoute.POST body now uuid w =
         (json_error "UNIQUE constraint failed: tasks.id" 500, w') /\
         tasks (db w') =
         (tasks (db w)
          ++ PlansRoute.parent_row agent_id now (uuid 0%nat) workspaceId
               (CreateTaskPlanRequest.session_key body) parent_task
             :: List.firstn k
                  (subtask_rows agent_id now uuid (uuid 0%nat) workspaceId 0
                     subtasks))%list /\
         task_activities (db w') = task_activities (db w) /\
         events w' = events w /\ wsServer w' = wsServer w).
Proof.
  intros body now uuid w pt subs Hpt Htitle Hsubs Hne. cbv zeta.
  split.
  - intros Hin.
    unfold PlansRoute.POST, try_catch, PlansRoute.POST_body.
    rewrite Hpt, Hsubs.
    destruct (String.eqb_spec (CreateTaskRequest.title pt) "") as [|_];
      [contradiction|].
    destruct subs as [|s0 subs0]; [contradiction|].
    unfold bind at 1. unfold db_insert_task, insert_task.
    cbn [id PlansRoute.parent_row].
    rewrite (existsb_has_id_true _ _ Hin). reflexivity.
  - intros k Hk Hfresh Hdist Hcol.
    unfold PlansRoute.POST, try_catch, PlansRoute.POST_body.
    rewrite Hpt, Hsubs.
    destruct (String.eqb_spec (CreateTaskRequest.title pt) "") as [|_];
      [contradiction|].
    destruct subs as [|s0 subs0]; [contradiction|]. clear Hne.
    set (subs := s0 :: subs0) in *.
    unfold bind at 1. unfold db_insert_task, insert_task.
    cbn [id PlansRoute.parent_row].
    rewrite existsb_has_id_false by (apply Hfresh; lia).
    unfold bind at 1.
    match goal with
    | |- context [PlansRoute.create_subtasks ?a ?n ?u ?p ?ws_ ?i ?l ?w1] =>
        destruct (create_subtasks_collision a n u p ws_ k l 0%nat w1)
          as (w' & Hrun & Ht & Ha & He & Hs)
    end.
    + exact Hk.
    + intros j Hj. cbn [db tasks]. rewrite List.map_app, List.in_app_iff.
      intros [Hin | Hin].
      * apply (Hfresh j); [lia | exact Hin].
      * cbn in Hin. destruct Hin as [Heq | []].
        apply (Hdist 0%nat j); [lia | lia | exact Heq].
    + intros j j' H1 H2 H3. apply Hdist; lia.
    + cbn [db tasks Nat.add]. rewrite List.map_app, List.in_app_iff.
      destruct Hcol as [Hin | (j & Hj & Heq)]; [auto|].
      destruct (Nat.eq_dec j 0%nat) as [-> | Hne].
      * left. right. cbn. left. exact Heq.
      * right. exists j. split; [lia | exact Heq].
    + rewrite Hrun. exists w'. split; [reflexivity|].
      cbn [db tasks task_activities events wsServer] in Ht, Ha, He, Hs.
      split; [|auto]. rewrite Ht. now rewrite <- List.app_assoc.
Qed.

(** "Ship v2" with the id of "Write tests" drawn again for "Update docs":
    the parent and the first subtask stay behind. *)
Lemma createPlan_stops_at_a_taken_id_witness :
  exists w',
    PlansRoute.POST (ship_v2 None) "10:00" ex_uuid_clash ex_world =
    (json_error "UNIQUE constraint failed: tasks.id" 500, w') /\
    List.map id (tasks (db w')) = ["p"; "c"] /\
    task_activities (db w') = [] /\ events w' = [].
Proof.
  destruct (proj2 (createPlan_stops_at_a_taken_id
                     (ship_v2 None) "10:00" ex_uuid_clash ex_world
                     (CreateTaskRequest.mk "Ship v2" None None None None None
                        None)
                     [CreateTaskRequest.mk "Write tests" None None None None
                        None None;
                      CreateTaskRequest.mk "Update docs" None None None None
                        (Some ["docs"]) None]
                     eq_refl ltac:(discriminate) eq_refl ltac:(discriminate))
              1%nat)
    as (w' & Hpost & Ht & Ha & He & _).
  - cbn. lia.
  - intros j _ [].
  - intros j j' Hlt Hle. assert (j = 0%nat /\ j' = 1%nat) as [-> ->] by lia.
    discriminate.
  - right. exists 1%nat. split; [lia|reflexivity].
  - exists w'. split; [exact Hpost|]. rewrite Ht, Ha, He.
    repeat split; reflexivity.
Defined.

(** ** Listing plans *)

Lemma or_str_idem s d : d <> "" -> or_str (Some (or_str s d)) d = or_str s d.
Proof.
  intros Hd. unfold or_str. destruct s as [v|].
  - destruct (String.eqb_spec v "") as [-> | Hv].
    + destruct (String.eqb_spec d ""); [contradiction|reflexivity].
    + destruct (String.eqb_spec v ""); [contradiction|reflexivity].
  - destruct (String.eqb_spec d ""); [contradiction|reflexivity].
Qed.

Lemma In_insert_by_created_at_desc x r l :
  In x (PlansRoute.insert_by_created_at_desc r l) <-> x = r \/ In x l.
Proof.
  induction l as [|y l IH]; cbn.
  - intuition.
  - destruct (String.ltb (created_at y) (created_at r)); cbn; [intuition|].
    rewrite IH. intuition.
Qed.

Lemma In_order_by_created_at_desc x l :
  In x (List.fold_right PlansRoute.insert_by_created_at_desc [] l) <-> In x l.
Proof.
  induction l as [|y l IH]; cbn; [tauto|].
  rewrite In_insert_by_created_at_desc, IH. intuition.
Qed.

Lemma length_insert_by_created_at_desc r l :
  length (PlansRoute.insert_by_created_at_desc r l) = S (length l).
Proof.
  induction l as [|x l IH]; cbn; [reflexivity|].
  destruct (String.ltb _ _); cbn; [reflexivity|now rewrite IH].
Qed.

Lemma length_order_by_created_at_desc l :
  length (List.fold_right PlansRoute.insert_by_created_at_desc [] l) = length l.
Proof.
  induction l as [|x l IH]; cbn; [reflexivity|].
  now rewrite length_insert_by_created_at_desc, IH.
Qed.

Lemma HdRel_insert_by_sort_order a r l :
  by_sort_order a r -> HdRel by_sort_order a l ->
  HdRel by_sort_order a (insert_by_sort_order r l).
Proof.
  intros Har Hl. destruct l as [|x l]; cbn.
  - now constructor.
  - destruct (sort_order r <? sort_order x); constructor; auto.
    now inversion Hl.
Qed.

Lemma Sorted_insert_by_sort_order r l :
  Sorted by_sort_order l -> Sorted by_sort_order (insert_by_sort_order r l).
Proof.
  induction l as [|x l IH]; intros Hs; cbn.
  - repeat constructor.
  - destruct (Z.ltb_spec (sort_order r) (sort_order x)) as [Hlt | Hge].
    + constructor; [exact Hs|]. constructor. unfold by_sort_order. lia.
    + inversion Hs as [|? ? Hs' Hhd]; subst.
      constructor; [now apply IH|].
      apply HdRel_insert_by_sort_order; [unfold by_sort_order; lia|exact Hhd].
Qed.

Lemma Sorted_order_by_sort_order l :
  Sorted by_sort_order (order_by_sort_order l).
Proof.
  induction l as [|x l IH]; cbn; [constructor|].
  now apply Sorted_insert_by_sort_order.
Qed.

Lemma Permutation_insert_by_sort_order r l :
  Permutation (insert_by_sort_order r l) (r :: l).
Proof.
  induction l as [|x l IH]; cbn; [reflexivity|].
  destruct (sort_order r <? sort_order x); [reflexivity|].
  rewrite IH. apply perm_swap.
Qed.

Lemma Permutation_order_by_sort_order l :
  Permutation (order_by_sort_order l) l.
Proof.
  induction l as [|x l IH]; cbn; [reflexivity|].
  rewrite Permutation_insert_by_sort_order. now constructor.
Qed.

(** X10. [GET /api/plans] lists exactly the top-level tasks of source
    ['agent'] in the asked workspace (default ['default']) whose approval
    status is the asked one (default ['pending']); a status that is none of
    ['pending'], ['approved'], ['rejected'] lists nothing. Each listed plan
    is its row with parsed tags, with all of its children and nothing else
    as subtasks, in non-decreasing [sort_order]. *)
Theorem GET_lists_the_plans_with_sorted_children :
  forall workspace status w,
    let workspaceId := or_str workspace "default" in
    length (PlansRoute.GET workspace status w) =
    length (List.filter
              (PlansRoute.is_listed workspaceId (or_str status "pending"))
              (tasks (db w))) /\
    (forall p, In p (PlansRoute.GET workspace status w) <->
       exists r st,
         In r (tasks (db w)) /\
         workspace_id r = workspaceId /\ source r = agent /\
         parent_task_id r = None /\
         PlansRoute.approval_of_string (or_str status "pending") = Some st /\
         approval_status r = Some st /\
         p = mkPlan (parse_tags r)
               (List.map parse_tags (select_subtasks (id r) (db w)))) /\
    (PlansRoute.approval_of_string (or_str status "pending") = None ->
     PlansRoute.GET workspace status w = []) /\
    (forall p, Sorted by_sort_order (select_subtasks p (db w)) /\
               Permutation (select_subtasks p (db w))
                 (List.filter (is_child_of p) (tasks (db w)))).
Proof.
  intros workspace status w workspaceId.
  set (s := or_str status "pending").
  assert (Hlisted : forall r,
            PlansRoute.is_listed workspaceId s r = true <->
            exists st, workspace_id r = workspaceId /\ source r = agent /\
                       parent_task_id r = None /\
                       PlansRoute.approval_of_string s = Some st /\
                       approval_status r = Some st).
  { intros r. unfold PlansRoute.is_listed.
    rewrite !andb_true_iff, String.eqb_eq, !bool_decide_eq_true.
    destruct (PlansRoute.approval_of_string s) as [st|].
    - rewrite bool_decide_eq_true. split.
      + intros [[[? ?] ?] ?]. exists st. auto.
      + intros (st' & ? & ? & ? & [= <-] & ?). auto.
    - split; [intros [_ ?]; discriminate|].
      intros (st' & _ & _ & _ & ? & _). discriminate. }
  unfold PlansRoute.GET. fold workspaceId s.
  split; [now rewrite List.length_map, length_order_by_created_at_desc|].
  split; [|split].
  - intros p. rewrite List.in_map_iff. split.
    + intros (r & <- & Hr).
      apply (proj1 (In_order_by_created_at_desc _ _)) in Hr.
      apply List.filter_In in Hr as [Hr Hl]. apply Hlisted in Hl.
      destruct Hl as (st & ? & ? & ? & ? & ?).
      exists r, st. repeat split; auto.
    + intros (r & st & Hr & H1 & H2 & H3 & H4 & H5 & ->).
      exists r. split; [reflexivity|].
      apply In_order_by_created_at_desc. apply List.filter_In.
      split; [exact Hr|]. apply Hlisted. exists st. auto.
  - intros Hnone.
    assert (Hf : List.filter (PlansRoute.is_listed workspaceId s)
                   (tasks (db w)) = []).
    { induction (tasks (db w)) as [|a l IH]; [reflexivity|]. cbn.
      destruct (PlansRoute.is_listed workspaceId s a) eqn:E; [|exact IH].
      apply Hlisted in E as (st & _ & _ & _ & ? & _). congruence. }
    now rewrite Hf.
  - intros p. split.
    + apply Sorted_order_by_sort_order.
    + apply Permutation_order_by_sort_order.
Qed.

Lemma order_by_sort_order_subtask_rows agent_id now uuid parentId workspaceId
    rest :
  forall i,
    order_by_sort_order
      (subtask_rows agent_id now uuid parentId workspaceId i rest) =
    subtask_rows agent_id now uuid parentId workspaceId i rest.
Proof.
  induction rest as [|s rest IH]; intros i; [reflexivity|].
  cbn [subtask_rows]. unfold order_by_sort_order. cbn [List.fold_right].
  fold (order_by_sort_order
          (subtask_rows agent_id now uuid parentId workspaceId (S i) rest)).
  rewrite IH. destruct rest as [|s' rest]; [reflexivity|].
  cbn [subtask_rows insert_by_sort_order sort_order PlansRoute.subtask_row].
  destruct (Z.ltb_spec (Z.of_nat i) (Z.of_nat (S i))); [reflexivity|lia].
Qed.

Lemma filter_child_subtask_rows agent_id now uuid parentId workspaceId rest :
  forall i,
    List.filter (is_child_of parentId)
      (subtask_rows agent_id now uuid parentId workspaceId i rest) =
    subtask_rows agent_id now uuid parentId workspaceId i rest.
Proof.
  induction rest as [|s rest IH]; intros i; [reflexivity|].
  cbn [subtask_rows List.filter]. unfold is_child_of at 1.
  cbn [parent_task_id PlansRoute.subtask_row]. rewrite String.eqb_refl.
  now rewrite IH.
Qed.

Lemma filter_none {A : Type} (f : A -> bool) l :
  (forall x, In x l -> f x = false) -> List.filter f l = [].
Proof.
  induction l as [|a l IH]; intros H; [reflexivity|]. cbn.
  rewrite (H a (or_introl eq_refl)). apply IH. intros x Hx. apply H. now right.
Qed.

Lemma shown_columns_subtask agent_id now uuid parentId workspaceId rest :
  forall i,
    List.map shown_columns
      (subtask_objects agent_id now uuid parentId workspaceId i rest) =
    List.map shown_columns
      (List.map parse_tags
         (subtask_rows agent_id now uuid parentId workspaceId i rest)).
Proof.
  induction rest as [|s rest IH]; intros i; [reflexivity|].
  cbn [subtask_objects subtask_rows List.map]. now rewrite IH.
Qed.

(** X9. A plan that was created is listed. After a [createPlan] call that
    passes validation with fresh identifiers, on a table in which no row
    refers to the new parent id, [GET /api/plans] for the plan's workspace
    and status ['pending'] lists the plan: the parent row with parsed tags
    and, as its subtasks, exactly the rows of this call in the order they
    were submitted. On every property but the four optional ones
    (description, session key, approver stamps) the listed parent and
    subtasks agree with the objects of the response. *)
Theorem createPlan_then_GET_lists_the_plan :
  forall body now uuid w parent_task subtasks,
    CreateTaskPlanRequest.parent_task body = Some parent_task ->
    CreateTaskRequest.title parent_task <> "" ->
    CreateTaskPlanRequest.subtasks body = Some subtasks ->
    subtasks <> [] ->
    (forall j, (j <= length subtasks)%nat ->
               ~ In (uuid j) (List.map id (tasks (db w)))) ->
    (forall j j', (j < j')%nat -> (j' <= length subtasks)%nat ->
                  uuid j <> uuid j') ->
    (forall r, In r (tasks (db w)) -> parent_task_id r <> Some (uuid 0%nat)) ->
    let agent_id := CreateTaskPlanRequest.agent_id body in
    let workspaceId :=
      or_str (CreateTaskRequest.workspace_id parent_task) "default" in
    let parentRow :=
      PlansRoute.parent_row agent_id now (uuid 0%nat) workspaceId
        (CreateTaskPlanRequest.session_key body) parent_task in
    let childRows :=
      subtask_rows agent_id now uuid (uuid 0%nat) workspaceId 0 subtasks in
    exists plan w',
      PlansRoute.POST body now uuid w = (json plan, w') /\
      select_subtasks (uuid 0%nat) (db w') = childRows /\
      In (mkPlan (parse_tags parentRow) (List.map parse_tags childRows))
         (PlansRoute.GET (Some workspaceId) (Some "pending") w') /\
      shown_columns (plan_task plan) = shown_columns (parse_tags parentRow) /\
      List.map shown_columns (plan_subtasks plan) =
      List.map shown_columns (List.map parse_tags childRows).
Proof.
  intros body now uuid w pt subs Hpt Htitle Hsubs Hne Hfresh Hdist Hnoref.
  cbv zeta.
  destruct (createPlan_success body now uuid w pt subs Hpt Htitle Hsubs Hne
              Hfresh Hdist) as (w' & Hpost & Htasks & _).
  set (ag := CreateTaskPlanRequest.agent_id body) in *.
  set (ws_ := or_str (CreateTaskRequest.workspace_id pt) "default") in *.
  set (prow := PlansRoute.parent_row ag now (uuid 0%nat) ws_
                 (CreateTaskPlanRequest.session_key body) pt) in *.
  set (crows := subtask_rows ag now uuid (uuid 0%nat) ws_ 0 subs) in *.
  assert (Hsel : select_subtasks (uuid 0%nat) (db w') = crows).
  { unfold select_subtasks. rewrite Htasks, List.filter_app.
    rewrite (filter_none (is_child_of (uuid 0%nat)) (tasks (db w))).
    - cbn [List.app List.filter]. unfold is_child_of at 1.
      cbn [parent_task_id prow PlansRoute.parent_row].
      unfold crows. rewrite filter_child_subtask_rows.
      apply order_by_sort_order_subtask_rows.
    - intros x Hx. destruct (is_child_of (uuid 0%nat) x) eqn:E; [|reflexivity].
      apply is_child_of_true in E. now apply Hnoref in Hx. }
  eexists _, w'. split; [exact Hpost|]. split; [exact Hsel|].
  split; [|split].
  - unfold PlansRoute.GET. apply List.in_map_iff. exists prow. split.
    + unfold PlansRoute.plan_with_subtasks.
      change (id prow) with (uuid 0%nat). now rewrite Hsel.
    + apply In_order_by_created_at_desc. apply List.filter_In. split.
      * rewrite Htasks. apply List.in_app_iff. right. now left.
      * unfold ws_ at 1. rewrite or_str_idem by discriminate. fold ws_.
        unfold PlansRoute.is_listed.
        cbn [workspace_id source parent_task_id approval_status prow
             PlansRoute.parent_row].
        rewrite String.eqb_refl. reflexivity.
  - reflexivity.
  - cbn [plan_subtasks]. apply shown_columns_subtask.
Qed.

(** "Ship v2" is listed among the pending plans of ['default'], with
    "Write tests" before "Update docs". *)
Lemma createPlan_then_GET_lists_the_plan_witness :
  exists plan w' listed,
    PlansRoute.POST (ship_v2 None) "10:00" (ex_uuid "task-") ex_world
    = (json plan, w') /\
    PlansRoute.GET (Some "default") (Some "pending") w' = [listed] /\
    List.map title (plan_subtasks listed) = ["Write tests"; "Update docs"].
Proof.
  destruct (createPlan_then_GET_lists_the_plan
              (ship_v2 None) "10:00" (ex_uuid "task-") ex_world
              (CreateTaskRequest.mk "Ship v2" None None None None None None)
              [CreateTaskRequest.mk "Write tests" None None None None None None;
               CreateTaskRequest.mk "Update docs" None None None None
                 (Some ["docs"]) None])
    as (plan & w' & Hpost & Hsel & Hin & _).
  - reflexivity.
  - discriminate.
  - reflexivity.
  - discriminate.
  - intros j _ [].
  - apply ex_uuid_task_distinct.
  - intros r [].
  - assert (Hw : w' = ex_created None)
      by (unfold ex_created; now rewrite Hpost).
    subst w'.
    remember (PlansRoute.GET (Some "default") (Some "pending")
                (ex_created None)) as g eqn:Eg.
    vm_compute in Eg. subst g.
    eexists plan, _, _. split; [exact Hpost|]. split; reflexivity.
Defined.

(** * Further properties of the socket server *)















Lemma elem_of_add_all x xs (S : gset string) :
  x ∈ add_all xs S <-> x ∈ S \/ In x (or_default xs []).
Proof.
  rewrite add_all_union, elem_of_union, elem_of_list_to_set.
  now rewrite list_elem_of_In.
Qed.

Lemma elem_of_delete_all x xs (S : gset string) :
  x ∈ delete_all xs S <-> x ∈ S /\ ~ In x (or_default xs []).
Proof.
  rewrite delete_all_difference, elem_of_difference, elem_of_list_to_set.
  now rewrite list_elem_of_In.
Qed.

(** X13. What [subscribe] and [unsubscribe] do to a client. [subscribe]
    adds the listed workspaces to the workspace filter and the listed tasks
    to the task filter, and nothing else; it then sends the [subscribed]
    frame carrying the two filters as they are after the addition (only if
    the socket is open). Subscribing again to the same lists leaves the
    filters as they are. [unsubscribe] removes the listed ids from the two
    filters, including ids the client had before (so the ['default']
    workspace of a new connection can be dropped), and sends nothing. *)
Theorem subscribe_and_unsubscribe_edit_both_filters :
  forall c p,
    let workspaces := or_default (SubscribePayload.workspaces p) [] in
    let tasks_ := or_default (SubscribePayload.tasks p) [] in
    let c1 := handleSubscribe c p in
    let c2 := handleUnsubscribe c p in
    (forall x, x ∈ subscribedWorkspaces c1 <->
               x ∈ subscribedWorkspaces c \/ In x workspaces) /\
    (forall x, x ∈ subscribedTasks c1 <->
               x ∈ subscribedTasks c \/ In x tasks_) /\
    ws c1 =
    send (ws c)
      (mkWSMessage t_subscribed
         (PSubscribed (subscribedWorkspaces c1) (subscribedTasks c1)) None) /\
    subscribedWorkspaces (handleSubscribe c1 p) = subscribedWorkspaces c1 /\
    subscribedTasks (handleSubscribe c1 p) = subscribedTasks c1 /\
    (forall x, x ∈ subscribedWorkspaces c2 <->
               x ∈ subscribedWorkspaces c /\ ~ In x workspaces) /\
    (forall x, x ∈ subscribedTasks c2 <->
               x ∈ subscribedTasks c /\ ~ In x tasks_) /\
    ws c2 = ws c /\
    (forall x, In x workspaces ->
               x ∉ subscribedWorkspaces (handleUnsubscribe c1 p)) /\
    (forall x, In x tasks_ -> x ∉ subscribedTasks (handleUnsubscribe c1 p)).
Proof.
  intros c p workspaces tasks_ c1 c2.
  unfold c1, c2, handleSubscribe, handleUnsubscribe, send_client.
  cbn [subscribedWorkspaces subscribedTasks ws client_id].
  split; [intros x; apply elem_of_add_all|].
  split; [intros x; apply elem_of_add_all|].
  split; [reflexivity|].
  split.
  { apply set_eq. intros x. rewrite !elem_of_add_all. tauto. }
  split.
  { apply set_eq. intros x. rewrite !elem_of_add_all. tauto. }
  split; [intros x; apply elem_of_delete_all|].
  split; [intros x; apply elem_of_delete_all|].
  split; [reflexivity|].
  split.
  - intros x Hx Hin. apply elem_of_delete_all in Hin as [_ Hn]. now apply Hn.
  - intros x Hx Hin. apply elem_of_delete_all in Hin as [_ Hn]. now apply Hn.
Qed.

Lemma filter_step_task_frame S m : is_task_frame m -> filter_step S m = S.
Proof.
  intros (t & [-> | ->]); cbn.
  - now rewrite (right_id_L ∅ (∪)).
  - now rewrite difference_empty_L.
Qed.

Lemma workspace_filter_after_task_frames frames :
  Forall is_task_frame frames ->
  forall S, workspace_filter_after frames S = S.
Proof.
  induction 1 as [|m frames Hm _ IH]; intros S; cbn; [reflexivity|].
  rewrite filter_step_task_frame by exact Hm. apply IH.
Qed.

(** X14. A client that uses the [useWebSocket] hook hears everything. The
    frame the hook sends when its socket opens subscribes to its workspace
    and to ["*"]; whatever task subscriptions and unsubscriptions the hook
    sends afterwards, the connection is selected by the broadcast to any
    workspace, and while its socket is open the frame is appended to what
    it was sent. *)
Theorem a_hook_client_receives_every_workspace_broadcast :
  forall s clientId c0 workspaceId frames target message,
    clients s !! clientId = Some c0 ->
    Forall is_task_frame frames ->
    let s1 :=
      on_messages clientId (useWebSocket_onopen workspaceId :: frames) s in
    exists c1,
      clients s1 !! clientId = Some c1 /\
      or_default workspaceId "default" ∈ subscribedWorkspaces c1 /\
      "*" ∈ subscribedWorkspaces c1 /\
      matches_workspace target c1 = true /\
      clients (broadcastToWorkspace target message s1).1 !! clientId =
      Some (send_client c1 message) /\
      (readyState (ws c1) = OPEN ->
       received clientId (broadcastToWorkspace target message s1).1 =
       (sent (ws c1) ++ [message])%list).
Proof.
  intros s clientId c0 workspaceId frames target message Hc0 Hframes s1.
  pose proof (on_messages_registered clientId
                (useWebSocket_onopen workspaceId :: frames) s c0 Hc0) as Hc1.
  fold s1 in Hc1.
  set (c1 := List.fold_left handleMessage
               (useWebSocket_onopen workspaceId :: frames) c0) in *.
  destruct (fold_handleMessage_filter
              (useWebSocket_onopen workspaceId :: frames) c0) as [Hf _].
  fold c1 in Hf. unfold workspace_filter_after in Hf.
  cbn [List.fold_left] in Hf.
  fold (workspace_filter_after frames
          (filter_step (subscribedWorkspaces c0)
             (useWebSocket_onopen workspaceId))) in Hf.
  rewrite workspace_filter_after_task_frames in Hf by exact Hframes.
  cbn [filter_step useWebSocket_onopen SubscribePayload.workspaces or_default]
    in Hf.
  assert (Hws : or_default workspaceId "default" ∈ subscribedWorkspaces c1).
  { rewrite Hf. apply elem_of_union. right.
    apply elem_of_list_to_set. left. }
  assert (Hstar : "*" ∈ subscribedWorkspaces c1).
  { rewrite Hf. apply elem_of_union. right.
    apply elem_of_list_to_set. right. left. }
  assert (Hm : matches_workspace target c1 = true)
    by (apply matches_workspace_spec; now right).
  exists c1. split; [exact Hc1|]. split; [exact Hws|]. split; [exact Hstar|].
  split; [exact Hm|].
  assert (Hl : clients (broadcastToWorkspace target message s1).1 !! clientId
               = Some (send_client c1 message)).
  { rewrite broadcastToWorkspace_lookup, Hc1.
    cbn [fmap option_fmap option_map]. now rewrite Hm. }
  split; [exact Hl|].
  intros Hopen. unfold received. rewrite Hl. cbn [send_client ws].
  unfold send.
  destruct (decide (readyState (ws c1) = OPEN)); [reflexivity|contradiction].
Qed.

(** [client_2] of the example moves to the hook's subscription for ["w2"]
    and then follows a task; a broadcast to ["elsewhere"] reaches it. *)
Lemma a_hook_client_receives_every_workspace_broadcast_witness :
  exists c0 c1,
    clients ex_server !! "client_2" = Some c0 /\
    clients (on_messages "client_2"
               [useWebSocket_onopen (Some "w2"); subscribeToTask "t1"]
               ex_server) !! "client_2" = Some c1 /\
    received "client_2"
      (broadcastToWorkspace "elsewhere" ex_plan_update
         (on_messages "client_2"
            [useWebSocket_onopen (Some "w2"); subscribeToTask "t1"]
            ex_server)).1
    = (sent (ws c1) ++ [ex_plan_update])%list.
Proof.
  assert (H0 : exists c0, clients ex_server !! "client_2" = Some c0 /\
                          readyState (ws c0) = OPEN).
  { eexists. split; [vm_compute; reflexivity|reflexivity]. }
  destruct H0 as (c0 & Hc0 & Hopen).
  destruct (a_hook_client_receives_every_workspace_broadcast
              ex_server "client_2" c0 (Some "w2") [subscribeToTask "t1"]
              "elsewhere" ex_plan_update Hc0)
    as (c1 & Hc1 & _ & _ & _ & _ & Hrecv).
  - constructor; [|constructor]. exists "t1". now left.
  - exists c0, c1. split; [exact Hc0|]. split; [exact Hc1|].
    apply Hrecv.
    pose proof (on_messages_registered "client_2"
                  [useWebSocket_onopen (Some "w2"); subscribeToTask "t1"]
                  ex_server c0 Hc0) as Hc1'.
    pose proof (proj2 (fold_handleMessage_filter
                         [useWebSocket_onopen (Some "w2");
                          subscribeToTask "t1"] c0)) as Hr.
    congruence.
Defined.

(** X15. [broadcastProgress] sends a client one copy of the frame for its
    subscription to the task and one more for a workspace filter holding
    ['default'] or ["*"]: a client with both is sent the frame twice, a
    client with neither is sent nothing, and a client whose socket is not
    open is sent nothing either. Registration and filters stay as they
    are. *)
Theorem broadcastProgress_sends_one_copy_per_match :
  forall s clientId c taskId message,
    clients s !! clientId = Some c ->
    exists c',
      clients (broadcastProgress taskId message s) !! clientId = Some c' /\
      subscribedWorkspaces c' = subscribedWorkspaces c /\
      subscribedTasks c' = subscribedTasks c /\
      readyState (ws c') = readyState (ws c) /\
      (readyState (ws c) = OPEN ->
       sent (ws c') =
       (sent (ws c)
        ++ List.repeat message (progress_copies taskId c))%list) /\
      (readyState (ws c) <> OPEN -> sent (ws c') = sent (ws c)).
Proof.
  intros s clientId c taskId message Hc.
  unfold broadcastProgress. rewrite broadcastToWorkspace_lookup.
  cbn [clients]. rewrite lookup_fmap, Hc. cbn [fmap option_fmap option_map].
  eexists. split; [reflexivity|]. unfold progress_copies.
  destruct (bool_decide (taskId ∈ subscribedTasks c)); cbn beta iota.
  - change (matches_workspace "default" (send_client c message))
      with (matches_workspace "default" c).
    destruct (matches_workspace "default" c);
      cbn [send_client ws subscribedWorkspaces subscribedTasks];
      rewrite ?readyState_send; unfold send;
      (split; [reflexivity|]); (split; [reflexivity|]);
      (split; [reflexivity|]).
    + cbn [readyState sent].
      destruct (decide (readyState (ws c) = OPEN)) as [Ho | Hn]; cbn.
      * rewrite Ho. cbn. rewrite <- List.app_assoc. split; [reflexivity|].
        intros H. contradiction.
      * destruct (decide (readyState (ws c) = OPEN)); [contradiction|].
        split; [intros; contradiction|reflexivity].
    + destruct (decide (readyState (ws c) = OPEN)) as [Ho | Hn]; cbn.
      * split; [reflexivity|]. intros H. contradiction.
      * split; [intros; contradiction|reflexivity].
  - destruct (matches_workspace "default" c);
      cbn [send_client ws subscribedWorkspaces subscribedTasks];
      rewrite ?readyState_send; unfold send;
      (split; [reflexivity|]); (split; [reflexivity|]);
      (split; [reflexivity|]).
    + destruct (decide (readyState (ws c) = OPEN)) as [Ho | Hn]; cbn.
      * split; [reflexivity|]. intros H. contradiction.
      * split; [intros; contradiction|reflexivity].
    + split; [intros; now rewrite List.app_nil_r|reflexivity].
Qed.

(** [client_1] follows the task [t1] and keeps ['default']: the frame for
    [t1] is sent to it twice. *)
Lemma broadcastProgress_sends_one_copy_per_match_witness :
  exists c c',
    clients (on_messages "client_1" [subscribeToTask "t1"] ex_server)
      !! "client_1" = Some c /\
    clients (broadcastProgress "t1" ex_plan_update
               (on_messages "client_1" [subscribeToTask "t1"] ex_server))
      !! "client_1" = Some c' /\
    sent (ws c') = (sent (ws c) ++ [ex_plan_update; ex_plan_update])%list.
Proof.
  assert (H0 : exists c,
             clients (on_messages "client_1" [subscribeToTask "t1"] ex_server)
               !! "client_1" = Some c /\
             readyState (ws c) = OPEN /\ progress_copies "t1" c = 2%nat).
  { eexists. split; [vm_compute; reflexivity|].
    split; [reflexivity|]. vm_compute. reflexivity. }
  destruct H0 as (c & Hc & Hopen & Hcopies).
  destruct (broadcastProgress_sends_one_copy_per_match _ "client_1" c "t1"
              ex_plan_update Hc) as (c' & Hc' & _ & _ & _ & Hsent & _).
  exists c, c'. split; [exact Hc|]. split; [exact Hc'|].
  rewrite (Hsent Hopen), Hcopies. reflexivity.
Defined.

(** * The lifecycle of the server object *)

(** X16. Starting is idempotent. Once the server object listens, [start],
    [startWebSocketServer] and [initWebSocket] leave it exactly as it is,
    whatever port they are given: the first port stays, and no client is
    dropped. On an object that does not listen, [initWebSocket] makes it
    listen on the given port (3100 when none is given) and keeps registry
    and counter; when the listening server cannot be created the failure
    is swallowed and the object stays as it was. [GET /api/ws/status]
    reports [running] exactly when a port is set. *)
Theorem starting_twice_changes_nothing :
  forall (o : ServerObject) (port : option Z) (listens : bool),
    (forall p, wss o = Some p ->
       start port listens o = (o, false) /\
       startWebSocketServer port listens (Some o) = o /\
       initWebSocket port listens (Some o) = Some o) /\
    (wss o = None ->
     initWebSocket port true (Some o) =
     Some (mkServerObject (Some (or_default port 3100)) (registry o)) /\
     initWebSocket port false (Some o) = Some o) /\
    (forall port', initWebSocket port' listens
                     (initWebSocket port true (Some o))
                   = initWebSocket port true (Some o)) /\
    initWebSocket port true None =
    Some (mkServerObject (Some (or_default port 3100)) (mkServer ∅ 0)) /\
    (WsStatus.running (ws_status_GET (Some o)) = true <-> wss o <> None) /\
    WsStatus.port (ws_status_GET (Some o)) = wss o /\
    WsStatus.clients (ws_status_GET (Some o)) = size (clients (registry o)).
Proof.
  intros o port listens.
  assert (Hrun : forall p port0 listens0, wss o = Some p ->
            initWebSocket port0 listens0 (Some o) = Some o).
  { intros p port0 listens0 Hp.
    unfold initWebSocket, startWebSocketServer, getStats. cbn. now rewrite Hp. }
  split.
  { intros p Hp. unfold start, startWebSocketServer, getStats. cbn.
    rewrite Hp. repeat split. now apply (Hrun p). }
  split.
  { intros Hnone. unfold initWebSocket, startWebSocketServer, getStats, start.
    cbn. rewrite Hnone. cbn. destruct o as [w r]. cbn in *. subst w.
    split; reflexivity. }
  split.
  { intros port'. destruct (wss o) as [p|] eqn:Hw.
    - rewrite (Hrun p port true eq_refl). now apply (Hrun p).
    - unfold initWebSocket, startWebSocketServer, getStats, start.
      cbn. rewrite Hw. cbn. reflexivity. }
  split; [reflexivity|].
  split; [|split; reflexivity].
  unfold ws_status_GET, getStats. cbn. apply bool_decide_eq_true.
Qed.

(** An object that listens on 3100 is asked to start on 4000. *)
Lemma starting_twice_changes_nothing_witness :
  initWebSocket (Some 4000) true
    (Some (mkServerObject (Some 3100) ex_server))
  = Some (mkServerObject (Some 3100) ex_server) /\
  initWebSocket (Some 4000) true (Some (mkServerObject None ex_server))
  = Some (mkServerObject (Some 4000) ex_server).
Proof.
  split.
  - exact (proj2 (proj2 (proj1 (starting_twice_changes_nothing
             (mkServerObject (Some 3100) ex_server) (Some 4000) true)
             3100 eq_refl))).
  - exact (proj1 (proj1 (proj2 (starting_twice_changes_nothing
             (mkServerObject None ex_server) (Some 4000) true)) eq_refl)).
Defined.



(** * Migrations *)

Section Migrations.

Context {Schema : Type}.
Implicit Types (ms : list (Migration Schema)) (d : MigrationDb Schema).

Lemma run_pending_all_applied (applied : gset string) ms d :
  (forall m, In m ms -> mig_id m ∈ applied) ->
  run_pending applied ms d = (d, [], None).
Proof.
  induction ms as [|m ms IH]; intros H; cbn; [reflexivity|].
  rewrite bool_decide_eq_true_2 by (apply H; now left).
  apply IH. intros m' Hm'. apply H. now right.
Qed.

Lemma ledger_migrate_in_transaction (m : Migration Schema) d d' :
  migrate_in_transaction m d = Some d' ->
  ledger d' = (ledger d ++ [(mig_id m, mig_name m)])%list /\
  up m (schema d) = Some (schema d') /\
  ~ In (mig_id m) (List.map fst (ledger d)).
Proof.
  unfold migrate_in_transaction.
  destruct (up m (schema d)) as [sch|]; [|discriminate].
  destruct (List.existsb _ (ledger d)) eqn:E; [discriminate|].
  intros [= <-]. cbn. repeat split.
  intros Hin. apply List.in_map_iff in Hin as ([i n] & Hi & Hrow).
  cbn in Hi. subst i.
  assert (Ht : List.existsb (fun row => String.eqb row.1 (mig_id m))
                 (ledger d) = true).
  { apply List.existsb_exists. exists (mig_id m, n). split; [exact Hrow|].
    apply String.eqb_refl. }
  congruence.
Qed.

(** What a run that does not fail leaves behind. *)
Lemma run_pending_success (applied : gset string) ms :
  forall d d' started,
    run_pending applied ms d = (d', started, None) ->
    List.map fst (ledger d') = (List.map fst (ledger d) ++ started)%list /\
    started =
    List.map mig_id
      (List.filter (fun m => negb (bool_decide (mig_id m ∈ applied))) ms).
Proof.
  induction ms as [|m ms IH]; intros d d' started Hrun; cbn in Hrun.
  - injection Hrun as <- <-. cbn. now rewrite List.app_nil_r.
  - cbn [List.filter].
    destruct (bool_decide (mig_id m ∈ applied)); cbn [negb].
    + now apply IH.
    + destruct (migrate_in_transaction m d) as [d1|] eqn:Et; [|discriminate].
      destruct (run_pending applied ms d1) as [[d2 st] failed] eqn:Er.
      injection Hrun as <- <- ->.
      apply IH in Er as [Hl ->].
      apply ledger_migrate_in_transaction in Et as (Hd1 & _ & _).
      rewrite Hl, Hd1, List.map_app, <- List.app_assoc. cbn. auto.
Qed.

Lemma In_insert_by_id x i l : In x (insert_by_id i l) <-> x = i \/ In x l.
Proof.
  induction l as [|y l IH]; cbn.
  - intuition.
  - destruct (String.ltb i y); cbn; [intuition|]. rewrite IH. intuition.
Qed.

Lemma In_order_by_id x l :
  In x (List.fold_right insert_by_id [] l) <-> In x l.
Proof.
  induction l as [|y l IH]; cbn; [tauto|].
  rewrite In_insert_by_id, IH. intuition.
Qed.

(** X18. [runMigrations] never runs a migration twice. A run that does not
    fail starts exactly the migrations whose id is not in the ledger, in
    list order, and records each of them; afterwards the id of every
    migration of the list is in the ledger, [getMigrationStatus] reports
    nothing pending, and a second run starts no migration and leaves the
    database as it is. *)
Theorem runMigrations_runs_each_migration_once :
  forall ms d d' started,
    runMigrations ms d = (d', started, None) ->
    started =
    List.map mig_id
      (List.filter
         (fun m => negb (bool_decide (mig_id m ∈ List.map fst (ledger d))))
         ms) /\
    List.map fst (ledger d') = (List.map fst (ledger d) ++ started)%list /\
    (forall m, In m ms -> In (mig_id m) (List.map fst (ledger d'))) /\
    (getMigrationStatus ms d').2 = [] /\
    runMigrations ms d' = (d', [], None).
Proof.
  intros ms d d' started Hrun. unfold runMigrations in Hrun.
  apply run_pending_success in Hrun as [Hl Hst].
  assert (Hst' : started =
            List.map mig_id
              (List.filter
                 (fun m => negb (bool_decide
                                   (mig_id m ∈ List.map fst (ledger d))))
                 ms)).
  { rewrite Hst. f_equal. apply List.filter_ext. intros m. f_equal.
    apply bool_decide_ext. apply elem_of_list_to_set. }
  assert (Hall : forall m, In m ms -> In (mig_id m) (List.map fst (ledger d'))).
  { intros m Hm. rewrite Hl, List.in_app_iff.
    destruct (bool_decide_reflect (mig_id m ∈ List.map fst (ledger d)))
      as [Hin | Hnin]; [left; now apply list_elem_of_In|].
    right. rewrite Hst'. apply List.in_map. apply List.filter_In.
    split; [exact Hm|]. now rewrite bool_decide_eq_false_2. }
  split; [exact Hst'|]. split; [exact Hl|]. split; [exact Hall|]. split.
  - unfold getMigrationStatus. cbn [snd].
    rewrite filter_none; [reflexivity|].
    intros m Hm. apply negb_false_iff. apply List.existsb_exists.
    exists (mig_id m). split; [|apply String.eqb_refl].
    apply In_order_by_id. now apply Hall.
  - unfold runMigrations. apply run_pending_all_applied.
    intros m Hm. apply elem_of_list_to_set, list_elem_of_In. now apply Hall.
Qed.

Lemma run_pending_failure (applied : gset string) ms :
  forall d d' started bad,
    run_pending applied ms d = (d', started, Some bad) ->
    exists ms1 m ms2 started1,
      ms = (ms1 ++ m :: ms2)%list /\ mig_id m = bad /\ (bad ∉ applied) /\
      run_pending applied ms1 d = (d', started1, None) /\
      started = (started1 ++ [bad])%list /\
      migrate_in_transaction m d' = None.
Proof.
  induction ms as [|m ms IH]; intros d d' started bad Hrun; cbn in Hrun;
    [discriminate|].
  destruct (bool_decide_reflect (mig_id m ∈ applied)) as [Hin | Hnin].
  - destruct (IH d d' started bad Hrun)
      as (ms1 & m0 & ms2 & st1 & -> & Hid & Hnot & Hr & Hst & Hfail).
    exists (m :: ms1), m0, ms2, st1. cbn.
    rewrite bool_decide_eq_true_2 by exact Hin. auto 10.
  - destruct (migrate_in_transaction m d) as [d1|] eqn:Et.
    + destruct (run_pending applied ms d1) as [[d2 st] failed] eqn:Er.
      injection Hrun as <- <- ->.
      destruct (IH d1 d2 st bad Er)
        as (ms1 & m0 & ms2 & st1 & -> & Hid & Hnot & Hr & Hst & Hfail).
      exists (m :: ms1), m0, ms2, (mig_id m :: st1). cbn.
      rewrite bool_decide_eq_false_2 by exact Hnin.
      rewrite Et, Hr, Hst. auto 10.
    + injection Hrun as <- <- <-.
      exists [], m, ms, []. cbn. auto 10.
Qed.

(** X19. A failing migration leaves no trace and stops the run. When
    [runMigrations] rethrows the failure of a migration, the database is
    exactly what the migrations before it in the list leave behind: the
    transaction of the failing migration is rolled back and no later
    migration is started. The failing migration is the last one started,
    and it was not in the ledger when the run began. *)
Theorem a_failing_migration_is_rolled_back :
  forall ms d d' started bad,
    runMigrations ms d = (d', started, Some bad) ->
    exists ms1 m ms2 started1,
      ms = (ms1 ++ m :: ms2)%list /\ mig_id m = bad /\
      ~ In bad (List.map fst (ledger d)) /\
      run_pending (list_to_set (List.map fst (ledger d))) ms1 d
      = (d', started1, None) /\
      started = (started1 ++ [bad])%list /\
      migrate_in_transaction m d' = None /\
      List.map fst (ledger d') = (List.map fst (ledger d) ++ started1)%list.
Proof.
  intros ms d d' started bad Hrun. unfold runMigrations in Hrun.
  apply run_pending_failure in Hrun
    as (ms1 & m & ms2 & st1 & Hms & Hid & Hnot & Hr & Hst & Hfail).
  exists ms1, m, ms2, st1.
  split; [exact Hms|]. split; [exact Hid|]. split.
  { intros Hin. apply Hnot. now apply elem_of_list_to_set, list_elem_of_In. }
  split; [exact Hr|]. split; [exact Hst|]. split; [exact Hfail|].
  now apply run_pending_success in Hr as [Hl _].
Qed.

End Migrations.

(** A fresh database: both migrations run, once. *)
Lemma runMigrations_runs_each_migration_once_witness :
  exists d',
    runMigrations ex_migrations (mkMigrationDb ∅ []) =
    (d', ["001"; "002"], None) /\
    List.map fst (ledger d') = ["001"; "002"] /\
    runMigrations ex_migrations d' = (d', [], None).
Proof.
  eexists. split; [reflexivity|].
  destruct (runMigrations_runs_each_migration_once ex_migrations
              (mkMigrationDb ∅ []) _ _ eq_refl) as (_ & Hl & _ & _ & Hagain).
  split; [exact Hl|exact Hagain].
Defined.

(** The broken migration stops the run after the baseline marker. *)
Lemma a_failing_migration_is_rolled_back_witness :
  exists d' ms1 m ms2 started1,
    runMigrations ex_migrations_failing (mkMigrationDb ∅ []) =
    (d', ["001"; "00x"], Some "00x") /\
    ex_migrations_failing = (ms1 ++ m :: ms2)%list /\ mig_id m = "00x" /\
    List.map fst (ledger d') = ([] ++ started1)%list /\
    ["001"; "00x"] = (started1 ++ ["00x"])%list.
Proof.
  eexists.
  destruct (a_failing_migration_is_rolled_back ex_migrations_failing
              (mkMigrationDb ∅ []) _ _ _ eq_refl)
    as (ms1 & m & ms2 & st1 & Hms & Hid & _ & _ & Hst & _ & Hl).
  exists ms1, m, ms2, st1. split; [reflexivity|]. auto.
Defined.

(** * Workspace slugs *)

Lemma is_alnum_not_dash a : is_alnum a = true -> is_dash a = false.
Proof.
  intros H. unfold is_dash. destruct (Ascii.eqb_spec a "-"%char) as [-> | _];
    [discriminate H|reflexivity].
Qed.

Lemma replace_runs_shape x :
  forall b,
    slug_chars (replace_runs x b) = true /\
    has_double_dash (replace_runs x b) = false /\
    (b = true -> starts_with_dash (replace_runs x b) = false) /\
    has_alnum (replace_runs x b) = has_alnum x.
Proof.
  induction x as [|a x IH]; intros b; cbn; [auto|].
  destruct (is_alnum a) eqn:Ha.
  - destruct (IH false) as (Hc & Hd & _ & Hn). cbn.
    rewrite Ha, Hc, Hd, Hn, (is_alnum_not_dash a Ha). auto.
  - destruct (IH true) as (Hc & Hd & Hs & Hn). destruct b.
    + auto.
    + cbn. rewrite Hc, Hd, (Hs eq_refl), Hn. cbn.
      rewrite orb_true_r. repeat split. discriminate.
Qed.

Lemma strip_leading_dash_shape t :
  slug_chars t = true -> has_double_dash t = false ->
  slug_chars (strip_leading_dash t) = true /\
  has_double_dash (strip_leading_dash t) = false /\
  starts_with_dash (strip_leading_dash t) = false /\
  has_alnum (strip_leading_dash t) = has_alnum t.
Proof.
  destruct t as [|a t]; cbn; [auto|]. intros Hc Hd.
  apply andb_true_iff in Hc as [Ha Hc]. apply orb_false_iff in Hd as [Hd1 Hd2].
  destruct (is_dash a) eqn:Hdash; cbn.
  - cbn in Hd1. rewrite Hc, Hd2, Hd1.
    destruct (is_alnum a) eqn:Hal;
      [apply is_alnum_not_dash in Hal; congruence|]. auto.
  - rewrite orb_false_r in Ha. rewrite ?Ha, ?Hc, ?Hdash, ?Hd2; cbn.
    rewrite ?Ha, ?Hc, ?Hdash, ?Hd2. auto.
Qed.

Lemma strip_trailing_dash_cons a b t :
  strip_trailing_dash (String a (String b t)) =
  String a (strip_trailing_dash (String b t)).
Proof. reflexivity. Qed.

Lemma strip_trailing_dash_shape t :
  slug_chars t = true -> has_double_dash t = false ->
  slug_chars (strip_trailing_dash t) = true /\
  has_double_dash (strip_trailing_dash t) = false /\
  (starts_with_dash (strip_trailing_dash t) = true ->
   starts_with_dash t = true) /\
  ends_with_dash (strip_trailing_dash t) = false /\
  has_alnum (strip_trailing_dash t) = has_alnum t.
Proof.
  induction t as [|a t IH]; [cbn; auto|]. intros Hc Hd.
  cbn [slug_chars] in Hc. apply andb_true_iff in Hc as [Ha Hc].
  cbn [has_double_dash] in Hd. apply orb_false_iff in Hd as [Hd1 Hd2].
  destruct t as [|b t].
  - cbn. destruct (is_dash a) eqn:Hdash; cbn.
    + destruct (is_alnum a) eqn:Hal;
        [apply is_alnum_not_dash in Hal; congruence|].
      repeat split; auto.
    + rewrite Hdash, Ha. cbn. auto.
  - rewrite strip_trailing_dash_cons.
    destruct (IH Hc Hd2) as (Hc' & Hd' & Hs' & He' & Hn').
    remember (strip_trailing_dash (String b t)) as u eqn:Eu.
    cbn [slug_chars has_double_dash starts_with_dash has_alnum].
    rewrite Ha, Hc', Hd', Hn'. cbn [andb orb].
    assert (Hdd : is_dash a && starts_with_dash u = false).
    { destruct (is_dash a) eqn:Hdash; [|reflexivity]. cbn [andb].
      destruct (starts_with_dash u) eqn:Hu; [|reflexivity].
      rewrite (Hs' eq_refl) in Hd1. discriminate. }
    rewrite Hdd. cbn [orb]. repeat split; auto.
    destruct u as [|c u'].
    + cbn. destruct (is_dash a) eqn:Hdash; [|reflexivity].
      (* [String b t] stripped to nothing: it was a single dash *)
      exfalso. destruct t as [|c t].
      * cbn in Eu. destruct (is_dash b) eqn:Hb; [|discriminate].
        cbn in Hd1. rewrite Hb in Hd1. discriminate.
      * rewrite strip_trailing_dash_cons in Eu. discriminate.
    + exact He'.
Qed.

Lemma slug_without_alnum_is_empty s :
  is_slug s -> has_alnum s = false -> s = "".
Proof.
  intros (Hc & Hs & _ & _) Hn. destruct s as [|a s]; [reflexivity|].
  cbn in *. apply orb_false_iff in Hn as [Hn _].
  rewrite Hn, Hs in Hc. discriminate.
Qed.

Lemma generateSlug_facts toLowerCase name :
  is_slug (generateSlug toLowerCase name) /\
  has_alnum (generateSlug toLowerCase name) = has_alnum (toLowerCase name).
Proof.
  unfold generateSlug.
  destruct (replace_runs_shape (toLowerCase name) false) as (Hc & Hd & _ & Hn).
  destruct (strip_leading_dash_shape _ Hc Hd) as (Hc1 & Hd1 & Hs1 & Hn1).
  destruct (strip_trailing_dash_shape _ Hc1 Hd1) as (Hc2 & Hd2 & Hs2 & He2 & Hn2).
  split; [|congruence].
  repeat split; auto.
  destruct (starts_with_dash (strip_trailing_dash _)) eqn:E; [|reflexivity].
  rewrite (Hs2 eq_refl) in Hs1. discriminate.
Qed.

(** X20. A slug is made of [a-z], [0-9] and single dashes between them.
    Whatever [generateSlug] is given, and whatever [toLowerCase] does to
    it, the result holds only lower-case letters, digits and ['-'], it
    neither starts nor ends with ['-'], and no two ['-'] follow each
    other. It is empty exactly when the lower-cased name holds no
    character of [a-z0-9]. *)
Theorem generateSlug_yields_a_slug :
  forall toLowerCase name,
    is_slug (generateSlug toLowerCase name) /\
    (generateSlug toLowerCase name = "" <->
     has_alnum (toLowerCase name) = false).
Proof.
  intros toLowerCase name.
  destruct (generateSlug_facts toLowerCase name) as [Hslug Hn].
  split; [exact Hslug|]. rewrite <- Hn. split.
  - intros ->. reflexivity.
  - now apply slug_without_alnum_is_empty.
Qed.

Lemma replace_runs_slug s :
  slug_chars s = true -> has_double_dash s = false ->
  replace_runs s false = s /\
  (starts_with_dash s = false -> replace_runs s true = s).
Proof.
  induction s as [|a s IH]; [auto|]. intros Hc Hd.
  cbn in Hc. apply andb_true_iff in Hc as [Ha Hc].
  cbn in Hd. apply orb_false_iff in Hd as [Hd1 Hd2].
  destruct (IH Hc Hd2) as [IH1 IH2]. cbn.
  destruct (is_alnum a) eqn:Hal.
  - rewrite IH1. auto.
  - cbn in Ha. rewrite Ha in Hd1. cbn in Hd1. rewrite (IH2 Hd1).
    unfold is_dash in Ha. apply Ascii.eqb_eq in Ha. subst a.
    split; [reflexivity|]. intros Hs. discriminate.
Qed.

Lemma strip_trailing_dash_slug s :
  ends_with_dash s = false -> strip_trailing_dash s = s.
Proof.
  induction s as [|a s IH]; [reflexivity|]. intros He.
  destruct s as [|b s].
  - cbn in *. now rewrite He.
  - rewrite strip_trailing_dash_cons. f_equal. apply IH. exact He.
Qed.

(** X21. Slugs are fixed points of [generateSlug]: a string that already
    has the shape of a slug and that [toLowerCase] leaves alone is returned
    as it is. Hence, for a [toLowerCase] that leaves slugs alone, making a
    slug of a slug changes nothing. *)
Theorem generateSlug_is_idempotent :
  forall toLowerCase,
    (forall s, is_slug s -> toLowerCase s = s) ->
    (forall s, is_slug s -> generateSlug toLowerCase s = s) /\
    (forall name,
       generateSlug toLowerCase (generateSlug toLowerCase name) =
       generateSlug toLowerCase name).
Proof.
  intros toLowerCase Hlow.
  assert (Hfix : forall s, is_slug s -> generateSlug toLowerCase s = s).
  { intros s Hs. pose proof Hs as (Hc & Hst & He & Hd).
    unfold generateSlug. rewrite (Hlow s Hs).
    rewrite (proj1 (replace_runs_slug s Hc Hd)).
    assert (Hl : strip_leading_dash s = s).
    { destruct s as [|a s]; [reflexivity|]. cbn in *. now rewrite Hst. }
    rewrite Hl. now apply strip_trailing_dash_slug. }
  split; [exact Hfix|].
  intros name. apply Hfix. apply generateSlug_facts.
Qed.

Lemma lower_ascii_slug_char a :
  is_alnum a || is_dash a = true -> lower_ascii a = a.
Proof.
  intros H. apply orb_true_iff in H as [H | H].
  - unfold is_alnum in H. unfold lower_ascii.
    destruct ((65 <=? Ascii.nat_of_ascii a)%nat
              && (Ascii.nat_of_ascii a <=? 90)%nat) eqn:E; [|reflexivity].
    apply andb_true_iff in E as [E1 E2].
    apply Nat.leb_le in E1, E2.
    apply orb_true_iff in H as [H | H]; apply andb_true_iff in H as [H1 H2];
      apply Nat.leb_le in H1, H2; lia.
  - unfold is_dash in H. apply Ascii.eqb_eq in H. subst a. reflexivity.
Qed.

Lemma toLowerCase_ascii_slug s : is_slug s -> toLowerCase_ascii s = s.
Proof.
  intros (Hc & _). induction s as [|a s IH]; [reflexivity|].
  cbn in *. apply andb_true_iff in Hc as [Ha Hc].
  now rewrite (lower_ascii_slug_char a Ha), IH.
Qed.

(** "My Work_space!! v2" becomes [my-work-space-v2], which stays. *)
Lemma generateSlug_is_idempotent_witness :
  generateSlug toLowerCase_ascii "  My Work_space!! v2 " = "my-work-space-v2" /\
  generateSlug toLowerCase_ascii
    (generateSlug toLowerCase_ascii "  My Work_space!! v2 ")
  = generateSlug toLowerCase_ascii "  My Work_space!! v2 ".
Proof.
  split; [reflexivity|].
  apply (proj2 (generateSlug_is_idempotent toLowerCase_ascii
                  toLowerCase_ascii_slug)).
Defined.

(** * The workspaces route *)

Lemma find_has_slug_None slug table :
  List.find (WorkspacesRoute.has_slug slug) table = None ->
  List.existsb (WorkspacesRoute.has_slug slug) table = false /\
  forall x, In x table -> Workspace.slug x <> slug.
Proof.
  intros H. split.
  - induction table as [|x l IH]; [reflexivity|]. cbn in *.
    destruct (WorkspacesRoute.has_slug slug x); [discriminate|]. now apply IH.
  - intros x Hx E. apply (List.find_none _ _ H) in Hx.
    unfold WorkspacesRoute.has_slug in Hx. rewrite E, String.eqb_refl in Hx.
    discriminate.
Qed.

Lemma existsb_has_workspace_id_false i table :
  List.existsb (WorkspacesRoute.has_workspace_id i) table = false ->
  (forall x, In x table -> Workspace.id x <> i) /\
  forall r, Workspace.id r = i ->
    List.find (WorkspacesRoute.has_workspace_id i) (table ++ [r])%list = Some r.
Proof.
  intros H. split.
  - intros x Hx E.
    assert (Ht : List.existsb (WorkspacesRoute.has_workspace_id i) table = true).
    { apply List.existsb_exists. exists x. split; [exact Hx|].
      unfold WorkspacesRoute.has_workspace_id. rewrite E.
      apply String.eqb_refl. }
    congruence.
  - intros r Hr. induction table as [|x l IH]; cbn in *.
    + unfold WorkspacesRoute.has_workspace_id. rewrite Hr, String.eqb_refl.
      reflexivity.
    + apply orb_false_iff in H as [H1 H2]. rewrite H1. now apply IH.
Qed.

Lemma existsb_has_workspace_id_true i table :
  List.existsb (WorkspacesRoute.has_workspace_id i) table = true ->
  exists x, In x table /\ Workspace.id x = i.
Proof.
  intros H. apply List.existsb_exists in H as (x & Hx & E). exists x.
  split; [exact Hx|]. now apply String.eqb_eq in E.
Qed.

(** The outcomes of [POST], case by case. *)
Lemma workspace_POST_cases trim toLowerCase body now uuid table :
  let out := WorkspacesRoute.POST trim toLowerCase body now uuid table in
  (snd out = table /\
   exists e, fst out = WorkspacesRoute.error_status e 400) \/
  (snd out = table /\
   fst out = WorkspacesRoute.error_status "Failed to create workspace" 500 /\
   exists x, In x table /\ Workspace.id x = uuid) \/
  (exists nm,
     WorkspacesRoute.name body = Some nm /\
     let row :=
       Workspace.mk uuid (trim nm) (generateSlug toLowerCase nm)
         (or_null (WorkspacesRoute.description body))
         (or_str (WorkspacesRoute.icon body) "📁") now now in
     fst out = WorkspacesRoute.json_status (Some row) 201 /\
     snd out = (table ++ [row])%list /\
     String.length (trim nm) <> 0%nat /\
     (forall x, In x table ->
        Workspace.slug x <> generateSlug toLowerCase nm /\
        Workspace.id x <> uuid)).
Proof.
  cbv zeta. unfold WorkspacesRoute.POST.
  destruct (WorkspacesRoute.name body) as [nm|]; [|left; cbn; eauto].
  destruct (String.eqb nm "" || (String.length (trim nm) =? 0)%nat) eqn:Hname;
    [left; cbn; eauto|].
  apply orb_false_iff in Hname as [_ Hlen]. apply Nat.eqb_neq in Hlen.
  destruct (List.find _ table) as [existing|] eqn:Hfind; [left; cbn; eauto|].
  apply find_has_slug_None in Hfind as [Hex Hslug].
  unfold WorkspacesRoute.insert_workspace. cbn [Workspace.id Workspace.slug].
  destruct (List.existsb (WorkspacesRoute.has_workspace_id uuid) table) eqn:Hid.
  - right; left. cbn. repeat split.
    now apply existsb_has_workspace_id_true.
  - rewrite Hex. right; right. exists nm. split; [reflexivity|].
    apply existsb_has_workspace_id_false in Hid as [Hfresh Hget].
    cbn [fst snd]. rewrite Hget by reflexivity.
    repeat split; auto.
Qed.


Lemma NoDup_snoc_fresh {A : Type} (l : list A) (a : A) :
  List.NoDup l -> ~ In a l -> List.NoDup (l ++ [a])%list.
Proof.
  intros Hl Ha. induction Hl as [|x l Hx Hl IH]; cbn.
  - constructor; [intros []|constructor].
  - constructor.
    + rewrite List.in_app_iff. intros [H | [H | []]]; [now apply Hx|].
      apply Ha. left. symmetry. exact H.
    + apply IH. intros H. apply Ha. right. exact H.
Qed.

(** X23. The workspace table keeps its keys. If no two rows share an id and
    no two rows share a slug, the same holds of the table [POST] leaves,
    whatever the request and the drawn id. *)
Theorem workspace_POST_keeps_ids_and_slugs_unique :
  forall trim toLowerCase body now uuid table,
    List.NoDup (List.map Workspace.id table) ->
    List.NoDup (List.map Workspace.slug table) ->
    let table' :=
      snd (WorkspacesRoute.POST trim toLowerCase body now uuid table) in
    List.NoDup (List.map Workspace.id table') /\
    List.NoDup (List.map Workspace.slug table').
Proof.
  intros trim toLowerCase body now uuid table Hid Hslug table'.
  destruct (workspace_POST_cases trim toLowerCase body now uuid table)
    as [[Ht _] | [[Ht _] | (nm & _ & _ & Ht & _ & Hfresh)]];
    fold table' in Ht; rewrite Ht; [auto | auto |].
  rewrite !List.map_app. cbn [List.map Workspace.id Workspace.slug].
  split; apply NoDup_snoc_fresh; auto; intros Hin;
    apply List.in_map_iff in Hin as (x & E & Hx);
    destruct (Hfresh x Hx) as [H1 H2]; congruence.
Qed.

Lemma workspace_POST_keeps_ids_and_slugs_unique_witness :
  let table' :=
    snd (WorkspacesRoute.POST trim_ascii toLowerCase_ascii
           (WorkspacesRoute.mkBody (Some " Gemini 7 ") None None)
           "t2" "w2" ex_workspaces) in
  List.map Workspace.slug table' = ["default"; "apollo"; "gemini-7"] /\
  List.NoDup (List.map Workspace.id table') /\
  List.NoDup (List.map Workspace.slug table').
Proof.
  split; [reflexivity|].
  apply (workspace_POST_keeps_ids_and_slugs_unique trim_ascii
           toLowerCase_ascii
           (WorkspacesRoute.mkBody (Some " Gemini 7 ") None None)
           "t2" "w2" ex_workspaces).
  - cbn. repeat constructor; cbn; intuition discriminate.
  - cbn. repeat constructor; cbn; intuition discriminate.
Defined.

Lemma find_has_slug_snoc table row :
  exists x,
    List.find (WorkspacesRoute.has_slug (Workspace.slug row))
      (table ++ [row])%list = Some x.
Proof.
  destruct (List.find _ _) as [x|] eqn:E; [eauto|].
  assert (H : In row (table ++ [row])%list)
    by (apply List.in_app_iff; right; left; reflexivity).
  apply (List.find_none _ _ E) in H.
  unfold WorkspacesRoute.has_slug in H. rewrite String.eqb_refl in H.
  discriminate.
Qed.

(** X24. A name whose slug is taken is refused. Once [POST] has created a
    workspace for one name, a later [POST] whose name yields the same slug
    is answered with a 400 and leaves the table as it is, whatever id it
    draws. *)
Theorem a_taken_slug_is_refused :
  forall trim toLowerCase body1 body2 now1 now2 uuid1 uuid2 table nm1 nm2 r,
    WorkspacesRoute.name body1 = Some nm1 ->
    WorkspacesRoute.name body2 = Some nm2 ->
    generateSlug toLowerCase nm2 = generateSlug toLowerCase nm1 ->
    fst (WorkspacesRoute.POST trim toLowerCase body1 now1 uuid1 table)
    = WorkspacesRoute.json_status r 201 ->
    let table1 :=
      snd (WorkspacesRoute.POST trim toLowerCase body1 now1 uuid1 table) in
    exists e,
      WorkspacesRoute.POST trim toLowerCase body2 now2 uuid2 table1
      = (WorkspacesRoute.error_status e 400, table1).
Proof.
  intros trim toLowerCase body1 body2 now1 now2 uuid1 uuid2 table nm1 nm2 r
    H1 H2 Hslug Hok table1.
  destruct (workspace_POST_cases trim toLowerCase body1 now1 uuid1 table)
    as [[_ [e He]] | [[_ [He _]] | (nm & Hnm & _ & Ht & _ & _)]];
    [congruence | congruence |].
  assert (nm = nm1) by congruence. subst nm. fold table1 in Ht.
  unfold WorkspacesRoute.POST at 1. rewrite H2.
  destruct (String.eqb nm2 "" || (String.length (trim nm2) =? 0)%nat);
    [eauto|].
  rewrite Hslug, Ht.
  match goal with
  | |- context [List.find _ (table ++ [?row])%list] =>
      destruct (find_has_slug_snoc table row) as [x Hx]
  end.
  cbn [Workspace.slug] in Hx. rewrite Hx. eauto.
Qed.

(** "Gemini 7" is created; "gemini_7!" then yields the same slug. *)
Lemma a_taken_slug_is_refused_witness :
  let table1 :=
    snd (WorkspacesRoute.POST trim_ascii toLowerCase_ascii
           (WorkspacesRoute.mkBody (Some "Gemini 7") None None)
           "t2" "w2" ex_workspaces) in
  exists e,
    WorkspacesRoute.POST trim_ascii toLowerCase_ascii
      (WorkspacesRoute.mkBody (Some "gemini_7!") (Some "again") None)
      "t3" "w3" table1
    = (WorkspacesRoute.error_status e 400, table1).
Proof.
  eapply (a_taken_slug_is_refused trim_ascii toLowerCase_ascii
            (WorkspacesRoute.mkBody (Some "Gemini 7") None None)
            (WorkspacesRoute.mkBody (Some "gemini_7!") (Some "again") None)
            "t2" "t3" "w2" "w3" ex_workspaces "Gemini 7" "gemini_7!").
  - reflexivity.
  - reflexivity.
  - reflexivity.
  - reflexivity.
Defined.

Lemma get_count_count_group st c tc :
  WorkspacesRoute.get_count st (WorkspacesRoute.count_group c tc)
  = if bool_decide (fst tc = st) then snd tc
    else WorkspacesRoute.get_count st c.
Proof. destruct st; reflexivity. Qed.

Lemma fold_count_group (f : TaskStatus -> nat) sts :
  List.NoDup sts ->
  forall c,
    let c' :=
      List.fold_left WorkspacesRoute.count_group
        (List.filter (fun tc => negb (snd tc =? 0)%nat)
           (List.map (fun st => (st, f st)) sts)) c in
    (forall st, In st sts -> WorkspacesRoute.get_count st c = 0%nat ->
                WorkspacesRoute.get_count st c' = f st) /\
    (forall st, ~ In st sts ->
                WorkspacesRoute.get_count st c'
                = WorkspacesRoute.get_count st c) /\
    TaskCounts.total c' = (TaskCounts.total c + list_sum (List.map f sts))%nat.
Proof.
  induction 1 as [|s sts Hs Hnd IH]; intros c; cbn zeta.
  - cbn. split; [|split]; [intros st []|reflexivity|lia].
  - cbn [List.map List.filter snd].
    destruct (Nat.eqb_spec (f s) 0) as [Hz | Hnz]; cbn [negb].
    + destruct (IH c) as (IH1 & IH2 & IH3). cbv zeta in IH1, IH2, IH3.
      split; [|split].
      * intros st [<- | Hin] H0; [rewrite IH2 by exact Hs; lia|now apply IH1].
      * intros st Hn. apply IH2. intros Hin. apply Hn. now right.
      * rewrite IH3. unfold list_sum. cbn [List.fold_right List.map]. lia.
    + cbn [List.fold_left].
      destruct (IH (WorkspacesRoute.count_group c (s, f s)))
        as (IH1 & IH2 & IH3). cbv zeta in IH1, IH2, IH3.
      split; [|split].
      * intros st [<- | Hin] H0.
        -- rewrite IH2 by exact Hs. rewrite get_count_count_group.
           cbn [fst snd]. now rewrite bool_decide_eq_true_2.
        -- apply IH1; [exact Hin|]. rewrite get_count_count_group.
           cbn [fst snd]. rewrite bool_decide_eq_false_2; [exact H0|].
           intros <-. contradiction.
      * intros st Hn. rewrite IH2 by (intros Hin; apply Hn; now right).
        rewrite get_count_count_group. cbn [fst snd].
        rewrite bool_decide_eq_false_2; [reflexivity|].
        intros <-. apply Hn. now left.
      * rewrite IH3. unfold list_sum. cbn [List.fold_right List.map
          WorkspacesRoute.count_group TaskCounts.total snd]. lia.
Qed.

Lemma NoDup_statuses : List.NoDup WorkspacesRoute.statuses.
Proof.
  unfold WorkspacesRoute.statuses.
  repeat (constructor; [cbn; intuition discriminate|]). constructor.
Qed.

Lemma In_statuses st : In st WorkspacesRoute.statuses.
Proof. destruct st; cbn; tauto. Qed.

Lemma length_filter_cons {A : Type} (p : A -> bool) (r : A) (l : list A) :
  length (List.filter p (r :: l))
  = ((if p r then 1 else 0) + length (List.filter p l))%nat.
Proof. cbn. destruct (p r); reflexivity. Qed.

Lemma sum_over_statuses ws (l : list TaskRow) :
  list_sum
    (List.map
       (fun st => length (List.filter (WorkspacesRoute.in_workspace_with ws st) l))
       WorkspacesRoute.statuses)
  = length (List.filter (fun r => String.eqb (workspace_id r) ws) l).
Proof.
  induction l as [|r l IH]; [reflexivity|].
  unfold WorkspacesRoute.statuses, list_sum in *.
  cbn [List.map List.fold_right] in *.
  rewrite !length_filter_cons, <- IH.
  assert (E : forall st,
             WorkspacesRoute.in_workspace_with ws st r
             = String.eqb (workspace_id r) ws && bool_decide (status r = st))
    by reflexivity.
  rewrite !E. clear E IH.
  destruct (String.eqb (workspace_id r) ws); cbn [andb]; [|lia].
  destruct (status r); repeat (case_bool_decide; try congruence); lia.
Qed.

Lemma Permutation_select_all_order_by_name table :
  Permutation (WorkspacesRoute.select_all_order_by_name table) table.
Proof.
  unfold WorkspacesRoute.select_all_order_by_name.
  induction table as [|x l IH]; cbn; [reflexivity|].
  rewrite <- IH at 2. clear IH.
  generalize (List.fold_right WorkspacesRoute.insert_by_name [] l).
  intros k. induction k as [|y k IHk]; cbn; [reflexivity|].
  destruct (String.ltb _ _); [|reflexivity].
  rewrite IHk. apply perm_swap.
Qed.

(** X25. The workspace list counts the tasks. With [stats=true], [GET
    /api/workspaces] answers with one entry for each workspace; in every
    entry the count of a status is the number of tasks of that workspace with
    that status, [total] is the number of all tasks of the workspace (hence
    the sum of the nine counts), and [agentCount] the number of its
    agents. *)
Theorem workspace_GET_counts_the_tasks :
  forall table agents d,
    exists l,
      WorkspacesRoute.GET (Some "true") table agents d
      = WorkspacesRoute.json_stats l /\
      Permutation (List.map WorkspaceStats.id l) (List.map Workspace.id table) /\
      List.Forall
        (fun s =>
           let counts := WorkspaceStats.taskCounts s in
           (forall st,
              WorkspacesRoute.get_count st counts
              = length
                  (List.filter
                     (WorkspacesRoute.in_workspace_with (WorkspaceStats.id s) st)
                     (tasks d))) /\
           TaskCounts.total counts
           = length
               (List.filter
                  (fun r => String.eqb (workspace_id r) (WorkspaceStats.id s))
                  (tasks d)) /\
           TaskCounts.total counts
           = list_sum
               (List.map (fun st => WorkspacesRoute.get_count st counts)
                  WorkspacesRoute.statuses) /\
           WorkspaceStats.agentCount s
           = length
               (List.filter
                  (fun a =>
                     String.eqb (Agent.workspace_id a) (WorkspaceStats.id s))
                  agents))
        l.
Proof.
  intros table agents d. eexists. split; [reflexivity|]. split.
  - rewrite List.map_map. cbn [WorkspacesRoute.workspace_stats WorkspaceStats.id].
    apply Permutation_map, Permutation_select_all_order_by_name.
  - apply List.Forall_forall. intros s Hs.
    apply List.in_map_iff in Hs as (w & <- & _).
    cbn [WorkspacesRoute.workspace_stats WorkspaceStats.id
         WorkspaceStats.taskCounts WorkspaceStats.agentCount].
    unfold WorkspacesRoute.select_task_counts.
    destruct (fold_count_group
                (fun st =>
                   length
                     (List.filter
                        (WorkspacesRoute.in_workspace_with (Workspace.id w) st)
                        (tasks d)))
                WorkspacesRoute.statuses NoDup_statuses
                WorkspacesRoute.zero_counts) as (H1 & _ & H3).
    cbv zeta in H1, H3.
    assert (Hc : forall st,
               WorkspacesRoute.get_count st
                 (List.fold_left WorkspacesRoute.count_group
                    (List.filter (fun tc => negb (snd tc =? 0)%nat)
                       (List.map
                          (fun st0 =>
                             (st0,
                              length
                                (List.filter
                                   (WorkspacesRoute.in_workspace_with
                                      (Workspace.id w) st0) (tasks d))))
                          WorkspacesRoute.statuses))
                    WorkspacesRoute.zero_counts)
               = length
                   (List.filter
                      (WorkspacesRoute.in_workspace_with (Workspace.id w) st)
                      (tasks d))).
    { intros st. apply H1; [apply In_statuses|]. destruct st; reflexivity. }
    cbv zeta. repeat split.
    + exact Hc.
    + rewrite H3. cbn [TaskCounts.total WorkspacesRoute.zero_counts].
      rewrite sum_over_statuses. reflexivity.
    + rewrite H3. cbn [TaskCounts.total WorkspacesRoute.zero_counts].
      rewrite Nat.add_0_l. f_equal. apply List.map_ext. intros st.
      symmetry. apply Hc.
Qed.

Lemma ltb_asym a b : String.ltb a b = true -> String.ltb b a = false.
Proof.
  unfold String.ltb. rewrite (String.compare_antisym b a).
  destruct (String.compare a b); cbn; congruence.
Qed.

Lemma HdRel_insert_by_name a r l :
  name_le (Workspace.name a) (Workspace.name r) ->
  HdRel name_le (Workspace.name a) (List.map Workspace.name l) ->
  HdRel name_le (Workspace.name a)
    (List.map Workspace.name (WorkspacesRoute.insert_by_name r l)).
Proof.
  intros Har Hl. destruct l as [|x l]; cbn.
  - now constructor.
  - destruct (String.ltb (Workspace.name x) (Workspace.name r)); cbn;
      constructor; auto. now inversion Hl.
Qed.

Lemma Sorted_insert_by_name r l :
  Sorted name_le (List.map Workspace.name l) ->
  Sorted name_le (List.map Workspace.name (WorkspacesRoute.insert_by_name r l)).
Proof.
  induction l as [|x l IH]; intros Hs; cbn.
  - repeat constructor.
  - destruct (String.ltb (Workspace.name x) (Workspace.name r)) eqn:E; cbn.
    + inversion Hs as [|? ? Hs' Hhd]; subst.
      constructor; [now apply IH|].
      apply HdRel_insert_by_name; [|exact Hhd].
      unfold name_le. now apply ltb_asym.
    + constructor; [exact Hs|]. constructor. exact E.
Qed.

Lemma Sorted_select_all_order_by_name table :
  Sorted name_le
    (List.map Workspace.name (WorkspacesRoute.select_all_order_by_name table)).
Proof.
  unfold WorkspacesRoute.select_all_order_by_name.
  induction table as [|x l IH]; cbn; [constructor|].
  now apply Sorted_insert_by_name.
Qed.

(** X26. [GET /api/workspaces] lists every workspace once, by name. With or
    without [stats], the names of the entries of the response are the names
    of the rows of the table, each as often as it occurs there, and in
    non-decreasing order. *)
Theorem workspace_GET_lists_every_workspace_by_name :
  forall stats table agents d,
    Permutation (listed_names (WorkspacesRoute.GET stats table agents d))
      (List.map Workspace.name table) /\
    Sorted name_le (listed_names (WorkspacesRoute.GET stats table agents d)).
Proof.
  intros stats table agents d. unfold WorkspacesRoute.GET.
  destruct (match stats with Some v => String.eqb v "true" | None => false end);
    cbn [listed_names].
  - rewrite List.map_map. cbn [WorkspacesRoute.workspace_stats WorkspaceStats.name].
    split.
    + apply Permutation_map, Permutation_select_all_order_by_name.
    + apply Sorted_select_all_order_by_name.
  - split.
    + apply Permutation_map, Permutation_select_all_order_by_name.
    + apply Sorted_select_all_order_by_name.
Qed.

(** * The board *)

Lemma Permutation_sort_by_sort_order l :
  Permutation (MissionQueue.sort_by_sort_order l) l.
Proof.
  unfold MissionQueue.sort_by_sort_order.
  induction l as [|x l IH]; cbn; [reflexivity|].
  rewrite <- IH at 2. clear IH.
  generalize (List.fold_right MissionQueue.sort_insert [] l).
  intros k. induction k as [|y k IHk]; cbn; [reflexivity|].
  destruct (sort_order y <? sort_order x); [|reflexivity].
  rewrite IHk. apply perm_swap.
Qed.

Lemma HdRel_sort_insert a r l :
  task_by_sort_order a r -> HdRel task_by_sort_order a l ->
  HdRel task_by_sort_order a (MissionQueue.sort_insert r l).
Proof.
  intros Har Hl. destruct l as [|x l]; cbn.
  - now constructor.
  - destruct (sort_order x <? sort_order r); constructor; auto.
    now inversion Hl.
Qed.

Lemma Sorted_sort_by_sort_order l :
  Sorted task_by_sort_order (MissionQueue.sort_by_sort_order l).
Proof.
  unfold MissionQueue.sort_by_sort_order.
  induction l as [|a l IH]; cbn; [constructor|].
  revert IH. generalize (List.fold_right MissionQueue.sort_insert [] l).
  intros k. induction k as [|x k IHk]; intros Hs; cbn.
  - repeat constructor.
  - destruct (Z.ltb_spec (sort_order x) (sort_order a)) as [Hlt | Hge].
    + inversion Hs as [|? ? Hs' Hhd]; subst.
      constructor; [now apply IHk|].
      apply HdRel_sort_insert; [unfold task_by_sort_order; lia|exact Hhd].
    + constructor; [exact Hs|]. constructor. exact Hge.
Qed.

Lemma In_getSubtasks tasks_ p t :
  In t (MissionQueue.getSubtasks tasks_ p) <->
  In t tasks_ /\ parent_task_id t = Some p.
Proof.
  unfold MissionQueue.getSubtasks. split.
  - intros H.
    apply (Permutation_in _ (Permutation_sort_by_sort_order _)) in H.
    apply List.filter_In in H as [H1 H2]. split; [exact H1|].
    unfold MissionQueue.has_parent in H2. now apply bool_decide_eq_true_1 in H2.
  - intros [H1 H2].
    apply (Permutation_in _ (Permutation_sym (Permutation_sort_by_sort_order _))).
    apply List.filter_In. split; [exact H1|].
    unfold MissionQueue.has_parent. now apply bool_decide_eq_true_2.
Qed.

Lemma In_getTasksByStatus tasks_ st card :
  In card (MissionQueue.getTasksByStatus tasks_ st) <->
  exists t, In t tasks_ /\ status t = st /\ MissionQueue.no_parent t = true /\
            card = mkPlan t (MissionQueue.getSubtasks tasks_ (id t)).
Proof.
  unfold MissionQueue.getTasksByStatus. rewrite List.in_map_iff. split.
  - intros (t & <- & Ht). apply List.filter_In in Ht as [Ht Hc].
    apply andb_true_iff in Hc as [Hs Hn]. apply bool_decide_eq_true_1 in Hs.
    exists t. auto.
  - intros (t & Ht & Hs & Hn & ->). exists t. split; [reflexivity|].
    apply List.filter_In. split; [exact Ht|].
    apply andb_true_iff. split; [now apply bool_decide_eq_true_2|exact Hn].
Qed.

Lemma In_COLUMNS st : In st MissionQueue.COLUMNS <-> st <> blocked.
Proof.
  unfold MissionQueue.COLUMNS. split.
  - cbn. intuition congruence.
  - intros H. destruct st; cbn; tauto || congruence.
Qed.

Lemma length_cards (tasks_ : list Task) :
  length (MissionQueue.cards tasks_) =
  length
    (List.filter
       (fun t => MissionQueue.no_parent t
                 && negb (bool_decide (status t = blocked)))
       tasks_).
Proof.
  unfold MissionQueue.cards, MissionQueue.COLUMNS, MissionQueue.getTasksByStatus.
  cbn [List.flat_map]. rewrite !List.length_app, !List.length_map.
  cbn [length]. induction tasks_ as [|t l IH]; [reflexivity|].
  rewrite !length_filter_cons, <- IH. clear IH.
  destruct (MissionQueue.no_parent t); rewrite ?andb_false_r; cbn [andb];
    [|lia].
  rewrite !andb_true_r.
  destruct (status t); repeat (case_bool_decide; try congruence); cbn [negb];
    lia.
Qed.

(** X27. What the board shows. The cards of a column are the tasks of the
    store with the status of the column and without a parent reference, in
    store order, each with the tasks that refer to it nested in
    non-decreasing [sort_order]. No column takes the status [blocked]: the
    board has one card for every top-level task that is not blocked, and a
    task that has a parent is never a card. *)
Theorem the_board_has_a_card_per_unblocked_top_level_task :
  forall tasks_ : list Task,
    (forall st card,
       In card (MissionQueue.getTasksByStatus tasks_ st) <->
       exists t, In t tasks_ /\ status t = st /\
                 MissionQueue.no_parent t = true /\
                 card = mkPlan t (MissionQueue.getSubtasks tasks_ (id t))) /\
    (forall p,
       Sorted task_by_sort_order (MissionQueue.getSubtasks tasks_ p) /\
       Permutation (MissionQueue.getSubtasks tasks_ p)
         (List.filter (MissionQueue.has_parent p) tasks_)) /\
    length (MissionQueue.cards tasks_) =
    length
      (List.filter
         (fun t => MissionQueue.no_parent t
                   && negb (bool_decide (status t = blocked)))
         tasks_) /\
    (forall card, In card (MissionQueue.cards tasks_) ->
       status (plan_task card) <> blocked /\
       MissionQueue.no_parent (plan_task card) = true).
Proof.
  intros tasks_. split; [|split; [|split]].
  - intros st card. apply In_getTasksByStatus.
  - intros p. split.
    + apply Sorted_sort_by_sort_order.
    + apply Permutation_sort_by_sort_order.
  - apply length_cards.
  - intros card Hc. unfold MissionQueue.cards in Hc.
    apply List.in_flat_map in Hc as (st & Hst & Hc).
    apply In_getTasksByStatus in Hc as (t & _ & Hs & Hn & ->).
    cbn [plan_task]. split; [|exact Hn].
    rewrite Hs. now apply In_COLUMNS.
Qed.

Lemma on_board_inv tasks_ t :
  on_board tasks_ t ->
  exists c, In c tasks_ /\ status c <> blocked /\
            MissionQueue.no_parent c = true /\
            (c = t \/ (In t tasks_ /\ parent_task_id t = Some (id c))).
Proof.
  intros (card & Hc & Hor). unfold MissionQueue.cards in Hc.
  apply List.in_flat_map in Hc as (st & Hst & Hc).
  apply In_getTasksByStatus in Hc as (c & Hin & Hs & Hn & ->).
  cbn [plan_task plan_subtasks] in Hor. exists c.
  split; [exact Hin|]. split; [rewrite Hs; now apply In_COLUMNS|].
  split; [exact Hn|]. destruct Hor as [Ht | Ht]; [now left|right].
  now apply In_getSubtasks in Ht.
Qed.

(** X28. A rejected plan leaves the board. After a successful [reject] of a
    top-level task (under a unique key), a board fed with the stored tasks
    shows no row of the plan: neither the parent nor any of its children
    is a card of a column or nested in one, since [reject] sets them to
    [blocked], a status no column takes, and children are shown under their
    parent only. *)
Theorem a_rejected_plan_leaves_the_board :
  forall id_ rejected_by reason now uuid w plan w' r,
    List.NoDup (List.map id (tasks (db w))) ->
    select_by_id id_ (db w) = Some r ->
    parent_task_id r = None ->
    RejectRoute.POST id_ rejected_by reason now uuid w = (json plan, w') ->
    forall x, In x (tasks (db w')) -> in_plan id_ x = true ->
      ~ on_board (List.map parse_tags (tasks (db w'))) (parse_tags x).
Proof.
  intros id_ rejected_by reason now uuid w plan w' r Hnd Hsel Hpar Hpost
    x Hx Hplan Hboard.
  apply reject_success_inv in Hpost as (r0 & Hsel0 & _ & Hw).
  assert (r0 = r) by congruence. subst r0.
  apply rejected_world_facts in Hw as (Hdb & _).
  assert (Htasks : tasks (db w') =
                   List.map (cascade (RejectRoute.set_rejected now
                                        (or_str rejected_by "human")) id_)
                     (tasks (db w)))
    by (rewrite Hdb; apply reject_statements_tasks).
  assert (Hblocked : forall y, In y (tasks (db w')) -> in_plan id_ y = true ->
                               status y = blocked).
  { intros y Hy Hp. rewrite Htasks in Hy.
    apply List.in_map_iff in Hy as (y0 & <- & _).
    rewrite in_plan_cascade in Hp
      by (apply set_rejected_id || apply set_rejected_parent).
    now destruct (cascade_rejected now (or_str rejected_by "human") id_ y0 Hp)
      as (_ & ? & _). }
  assert (Htop : forall y, In y (tasks (db w')) -> id y = id_ ->
                           parent_task_id y = None).
  { intros y Hy Hid. rewrite Htasks in Hy.
    apply List.in_map_iff in Hy as (y0 & <- & Hy0).
    rewrite cascade_id in Hid by apply set_rejected_id.
    rewrite cascade_parent by apply set_rejected_parent.
    apply find_has_id_In in Hsel as [Hr Hrid].
    assert (y0 = r) by (apply (NoDup_id_eq (tasks (db w))); congruence).
    now subst y0. }
  apply on_board_inv in Hboard as (c & Hc & Hst & _ & Hor).
  apply List.in_map_iff in Hc as (y & <- & Hy).
  destruct Hor as [Heq | [_ Hchild]].
  - (* the row would be a card *)
    apply Hst. change (status (parse_tags y)) with (status y).
    assert (Hsame : status y = status x)
      by (change (status (parse_tags y) = status (parse_tags x));
          now rewrite Heq).
    rewrite Hsame. now apply Hblocked.
  - (* the row would be nested in the card of [y] *)
    change (parent_task_id x = Some (id y)) in Hchild.
    unfold in_plan in Hplan. apply orb_true_iff in Hplan as [Hid | Hch].
    + apply has_id_true in Hid. rewrite (Htop x Hx Hid) in Hchild.
      discriminate.
    + apply is_child_of_true in Hch. assert (id y = id_) by congruence.
      apply Hst. change (status (parse_tags y)) with (status y).
      apply Hblocked; [exact Hy|]. unfold in_plan.
      apply orb_true_iff. left. now apply has_id_true.
Qed.

(** The plan "Ship v2" is one card while it is pending; rejected, it is
    gone and the board is empty. *)
Lemma a_rejected_plan_leaves_the_board_witness :
  exists plan w',
    RejectRoute.POST "task-0" None (Some "scope too broad") "11:00"
      (ex_uuid "act-") (ex_created None) = (json plan, w') /\
    length (MissionQueue.cards
              (List.map parse_tags (tasks (db (ex_created None))))) = 1%nat /\
    MissionQueue.cards (List.map parse_tags (tasks (db w'))) = [] /\
    forall x, In x (tasks (db w')) -> in_plan "task-0" x = true ->
      ~ on_board (List.map parse_tags (tasks (db w'))) (parse_tags x).
Proof.
  destruct (RejectRoute.POST "task-0" None (Some "scope too broad") "11:00"
              (ex_uuid "act-") (ex_created None)) as [resp w'] eqn:E.
  assert (Hresp : exists plan,
             resp = json plan /\
             MissionQueue.cards (List.map parse_tags (tasks (db w'))) = []).
  { revert E. vm_compute. intros E. injection E as <- <-. eexists.
    split; reflexivity. }
  destruct Hresp as (plan & -> & Hempty).
  exists plan, w'. split; [reflexivity|]. split; [reflexivity|].
  split; [exact Hempty|].
  assert (Hnd : List.NoDup (List.map id (tasks (db (ex_created None))))).
  { vm_compute. repeat constructor; simpl; intuition discriminate. }
  assert (Hsel : exists r, select_by_id "task-0" (db (ex_created None)) = Some r
                           /\ parent_task_id r = None).
  { vm_compute. eexists. split; reflexivity. }
  destruct Hsel as (r & Hsel & Htop).
  exact (a_rejected_plan_leaves_the_board "task-0" None
           (Some "scope too broad") "11:00" (ex_uuid "act-")
           (ex_created None) plan w' r Hnd Hsel Htop E).
Defined.

Lemma has_parent_parse_tags p (x : TaskRow) :
  MissionQueue.has_parent p (parse_tags x) = is_child_of p x.
Proof.
  unfold MissionQueue.has_parent. change (parent_task_id (parse_tags x))
    with (parent_task_id x).
  destruct (is_child_of p x) eqn:E.
  - apply bool_decide_eq_true_2. now apply is_child_of_true.
  - apply bool_decide_eq_false_2. intros H. apply is_child_of_true in H.
    congruence.
Qed.

Lemma filter_has_parent_parse_tags p (l : list TaskRow) :
  List.filter (MissionQueue.has_parent p) (List.map parse_tags l) =
  List.map parse_tags (List.filter (is_child_of p) l).
Proof.
  induction l as [|x l IH]; [reflexivity|]. cbn [List.map List.filter].
  rewrite has_parent_parse_tags.
  destruct (is_child_of p x); cbn [List.map]; now rewrite IH.
Qed.

(** X29. An approved plan moves to the inbox column. After a successful
    [approve] of a top-level task, a board fed with the stored tasks has a
    card for the task in the column [inbox]; nested in the card are the
    children of the plan, all of them and nothing else, each with status
    [inbox] and approval status [approved]. *)
Theorem an_approved_plan_moves_to_the_inbox_column :
  forall id_ approver now uuid w plan w' r,
    select_by_id id_ (db w) = Some r ->
    parent_task_id r = None ->
    ApproveRoute.POST id_ approver now uuid w = (json plan, w') ->
    exists card,
      In card
        (MissionQueue.getTasksByStatus
           (List.map parse_tags (tasks (db w'))) inbox) /\
      id (plan_task card) = id_ /\
      Permutation (plan_subtasks card)
        (List.map parse_tags
           (List.filter (is_child_of id_) (tasks (db w')))) /\
      length (plan_subtasks card)
      = length (List.filter (is_child_of id_) (tasks (db w))) /\
      List.Forall
        (fun s => status s = inbox /\ approval_status s = Some approved)
        (plan_subtasks card).
Proof.
  intros id_ approver now uuid w plan w' r Hsel Hpar Hpost.
  apply approve_success_inv in Hpost as (r0 & Hsel0 & _ & Hw).
  assert (r0 = r) by congruence. subst r0.
  apply approved_world_facts in Hw as (Hdb & _).
  set (f := ApproveRoute.set_approved now (or_str approver "human")).
  assert (Htasks : tasks (db w') = List.map (cascade f id_) (tasks (db w)))
    by (rewrite Hdb; apply approve_statements_tasks).
  apply find_has_id_In in Hsel as [Hr Hrid].
  assert (Hr' : In (cascade f id_ r) (tasks (db w')))
    by (rewrite Htasks; now apply List.in_map).
  assert (Hrplan : in_plan id_ r = true)
    by (unfold in_plan; apply orb_true_iff; left; now apply has_id_true).
  destruct (cascade_approved now (or_str approver "human") id_ r Hrplan)
    as (_ & Hst & _). fold f in Hst. cbv zeta in Hst.
  exists (mkPlan (parse_tags (cascade f id_ r))
            (MissionQueue.getSubtasks (List.map parse_tags (tasks (db w')))
               (id (parse_tags (cascade f id_ r))))).
  assert (Hid : id (parse_tags (cascade f id_ r)) = id_).
  { change (id (cascade f id_ r) = id_).
    rewrite cascade_id by apply set_approved_id. exact Hrid. }
  cbn [plan_task plan_subtasks]. rewrite Hid.
  assert (Hperm :
    Permutation
      (MissionQueue.getSubtasks (List.map parse_tags (tasks (db w'))) id_)
      (List.map parse_tags (List.filter (is_child_of id_) (tasks (db w'))))).
  { unfold MissionQueue.getSubtasks.
    rewrite Permutation_sort_by_sort_order.
    now rewrite filter_has_parent_parse_tags. }
  split; [|split; [reflexivity|split; [exact Hperm|split]]].
  - apply In_getTasksByStatus. exists (parse_tags (cascade f id_ r)).
    split; [now apply List.in_map|]. split; [exact Hst|].
    split; [|now rewrite Hid].
    unfold MissionQueue.no_parent.
    change (parent_task_id (parse_tags (cascade f id_ r)))
      with (parent_task_id (cascade f id_ r)).
    rewrite cascade_parent by apply set_approved_parent.
    now rewrite Hpar.
  - rewrite (Permutation_length Hperm), List.length_map, Htasks.
    rewrite (filter_child_cascade f (set_approved_parent now _)).
    now rewrite List.length_map.
  - apply List.Forall_forall. intros s Hs.
    apply (Permutation_in _ Hperm) in Hs.
    apply List.in_map_iff in Hs as (x & <- & Hx).
    apply List.filter_In in Hx as [Hx Hc]. rewrite Htasks in Hx.
    apply List.in_map_iff in Hx as (x0 & <- & _).
    assert (Hp : in_plan id_ x0 = true).
    { rewrite <- (in_plan_cascade f (set_approved_id now _)
                    (set_approved_parent now _) id_ x0).
      unfold in_plan. now rewrite Hc, orb_true_r. }
    destruct (cascade_approved now (or_str approver "human") id_ x0 Hp)
      as (Ha & Hs & _).
    split; [exact Hs|exact Ha].
Qed.

(** Approved, "Ship v2" is the one card of the inbox column, with its two
    subtasks. *)
Lemma an_approved_plan_moves_to_the_inbox_column_witness :
  exists plan w' card,
    ApproveRoute.POST "task-0" (Some "alice") "11:00" (ex_uuid "act-")
      (ex_created None) = (json plan, w') /\
    In card
      (MissionQueue.getTasksByStatus
         (List.map parse_tags (tasks (db w'))) inbox) /\
    id (plan_task card) = "task-0" /\
    length (plan_subtasks card) = 2%nat.
Proof.
  destruct (ApproveRoute.POST "task-0" (Some "alice") "11:00" (ex_uuid "act-")
              (ex_created None)) as [resp w'] eqn:E.
  assert (Hresp : exists plan, resp = json plan).
  { revert E. vm_compute. intros E. injection E as <- _. eexists. reflexivity. }
  destruct Hresp as (plan & ->).
  assert (Hsel : exists r, select_by_id "task-0" (db (ex_created None)) = Some r
                           /\ parent_task_id r = None).
  { vm_compute. eexists. split; reflexivity. }
  destruct Hsel as (r & Hsel & Htop).
  destruct (an_approved_plan_moves_to_the_inbox_column "task-0" (Some "alice")
              "11:00" (ex_uuid "act-") (ex_created None) plan w' r
              Hsel Htop E) as (card & Hin & Hid & _ & Hlen & _).
  exists plan, w', card. split; [reflexivity|]. split; [exact Hin|].
  split; [exact Hid|]. rewrite Hlen. reflexivity.
Defined.
